(** * ATA/ATAPI PIO driver (kernel/device/ata.c): model and properties

    The driver talks to the drive through port I/O only.  The hardware is an
    arbitrary deterministic machine behind the four port primitives of
    kernel/io.h; the driver is embedded as state-passing code over a kernel
    state made of that machine, the byte-addressed RAM, the [struct
    ata_device] objects, the device table and the console.  Busy-wait loops
    take a bound on the number of polls: a run that exhausts the bound for
    every bound is a run that never returns. *)

From Stdlib Require Import ZArith List String Bool Lia RelationClasses.
Import ListNotations.
Open Scope Z_scope.

(** ** Machine integers *)

Definition u8 (z : Z) : Z := z mod 2 ^ 8.
Definition u16 (z : Z) : Z := z mod 2 ^ 16.
Definition u32 (z : Z) : Z := z mod 2 ^ 32.

(** A C integer used as a condition. *)
Definition nonzero (z : Z) : bool := negb (z =? 0).

(** ** Private constants *)

Definition ATA_DATA_PORT : Z := 0.
Definition ATA_FEAT_PORT : Z := 1.
Definition ATA_SECTOR_COUNT_PORT : Z := 2.
Definition ATA_LBALO_PORT : Z := 3.
Definition ATA_LBAMID_PORT : Z := 4.
Definition ATA_LBAHI_PORT : Z := 5.
Definition ATA_DRIVE_PORT : Z := 6.
Definition ATA_COMMAND_PORT : Z := 7.

Definition ATA_ISBSY (status : Z) : Z := Z.land status (Z.shiftl 1 7).
Definition ATA_ISRDY (status : Z) : Z := Z.land status (Z.shiftl 1 6).
Definition ATA_ISDRQ (status : Z) : Z := Z.land status (Z.shiftl 1 3).
Definition ATA_ISERR (status : Z) : Z := Z.land status 1.

Definition ATA_CMD_IDENTIFY : Z := 0xEC.
Definition ATA_CMD_PACKET_IDENTIFY : Z := 0xA1.

(** ** Private structures *)

(** The driver only ever compares a [type] field with ATA_TYPE_PATAPI and
    ATA_TYPE_SATAPI: an uninitialised field holding any other integer
    behaves as one holding ATA_TYPE_UNKNOWN. *)
Inductive ata_device_type : Set :=
| ATA_TYPE_UNKNOWN
| ATA_TYPE_PATAPI
| ATA_TYPE_SATAPI
| ATA_TYPE_PATA
| ATA_TYPE_SATA.

Record ata_device : Set := mk_ata_device {
  type : ata_device_type;
  base_port : Z;
  control_port : Z;
  slave_bit : Z;
  lba48_support : Z;
  lba48_total : Z;
  lba28_total : Z;
  pos : Z
}.

Definition set_type (t : ata_device_type) (d : ata_device) : ata_device :=
  mk_ata_device t (base_port d) (control_port d) (slave_bit d)
                (lba48_support d) (lba48_total d) (lba28_total d) (pos d).
Definition set_base_port (v : Z) (d : ata_device) : ata_device :=
  mk_ata_device (type d) v (control_port d) (slave_bit d)
                (lba48_support d) (lba48_total d) (lba28_total d) (pos d).
Definition set_control_port (v : Z) (d : ata_device) : ata_device :=
  mk_ata_device (type d) (base_port d) v (slave_bit d)
                (lba48_support d) (lba48_total d) (lba28_total d) (pos d).
Definition set_slave_bit (v : Z) (d : ata_device) : ata_device :=
  mk_ata_device (type d) (base_port d) (control_port d) v
                (lba48_support d) (lba48_total d) (lba28_total d) (pos d).
Definition set_pos (v : Z) (d : ata_device) : ata_device :=
  mk_ata_device (type d) (base_port d) (control_port d) (slave_bit d)
                (lba48_support d) (lba48_total d) (lba28_total d) v.

(** Addresses: of a [struct ata_device], of a byte of RAM. *)
Definition ptr : Set := Z.

(** The callbacks a [struct device] carries are function pointers; the only
    functions ever stored are the three of this driver. *)
Inductive read_fn : Set := Fn_ata_read.
Inductive write_fn : Set := Fn_ata_write.
Inductive seek_fn : Set := Fn_ata_seek.

(** [struct device] as ata_register_device fills it. *)
Record device : Set := mk_device {
  d_type : Z;
  d_name : string;
  d_p : ptr;
  d_read : read_fn;
  d_write : write_fn;
  d_seek : seek_fn
}.

(** ATA_DEV(dev) *)
Definition ATA_DEV (dev : device) : ptr := d_p dev.

(** ** The environment of the driver *)

(** kernel/io.h: the port primitives, over an arbitrary hardware state. *)
Class PortIO (HW : Type) : Type := {
  hw_inb : Z -> HW -> Z * HW;
  hw_outb : Z -> Z -> HW -> HW;
  hw_inw : Z -> HW -> Z * HW;
  hw_outw : Z -> Z -> HW -> HW
}.

(** kernel/device/device.h: the constants the driver uses, and the size of
    the device table. *)
Class DeviceAbi : Set := {
  OK : Z;
  DEVICE_RANDOM : Z;
  DEVICE_NAME_MAX : nat;
  DEVICE_TABLE_SIZE : nat
}.

Inductive io_event : Set :=
| In8 (port value : Z)
| Out8 (port value : Z)
| In16 (port value : Z)
| Out16 (port value : Z).

Inductive register_result : Set := Registered | DuplicateName | TableFull.

Inductive printf_arg : Set := PInt (z : Z) | PStr (s : string).

Section Driver.

Context {HW : Type} {IO : PortIO HW} {ABI : DeviceAbi}.

Record state : Type := mk_state {
  hw : HW;                              (* the machine behind the ports *)
  io_log : list io_event;               (* every port access so far, oldest first *)
  mem : Z -> Z;                         (* RAM, one byte per address *)
  heap : ptr -> ata_device;             (* the struct ata_device objects,
                                           kept apart from [mem] *)
  live : ptr -> bool;                   (* the objects whose lifetime has not ended *)
  registry : list device;               (* the device table *)
  console : list (string * list printf_arg) (* printf calls, oldest first *)
}.

(** Code that may read and change the state; [None] when a busy-wait loop
    used up its polls. *)
Definition M (A : Type) : Type := state -> option (A * state).

Definition ret {A} (a : A) : M A := fun st => Some (a, st).

Definition bind {A B} (m : M A) (k : A -> M B) : M B :=
  fun st => match m st with
            | Some (a, st') => k a st'
            | None => None
            end.

Definition stall {A} : M A := fun _ => None.

Notation "x <- m ;; k" := (bind m (fun x => k))
  (at level 61, m at next level, right associativity).
Notation "m ;; k" := (bind m (fun _ => k))
  (at level 61, right associativity).

(** *** Port primitives *)

(** Port numbers are 16 bits wide, the data of the byte accesses 8 bits and
    of the word accesses 16 bits; every access is recorded in [io_log]. *)

Definition inb (port : Z) : M Z := fun st =>
  let (v, h) := hw_inb (u16 port) (hw st) in
  Some (u8 v, mk_state h (io_log st ++ [In8 (u16 port) (u8 v)])
                       (mem st) (heap st) (live st) (registry st) (console st)).

Definition outb (port value : Z) : M unit := fun st =>
  Some (tt, mk_state (hw_outb (u16 port) (u8 value) (hw st))
                     (io_log st ++ [Out8 (u16 port) (u8 value)])
                     (mem st) (heap st) (live st) (registry st) (console st)).

Definition inw (port : Z) : M Z := fun st =>
  let (v, h) := hw_inw (u16 port) (hw st) in
  Some (u16 v, mk_state h (io_log st ++ [In16 (u16 port) (u16 v)])
                        (mem st) (heap st) (live st) (registry st) (console st)).

Definition outw (port value : Z) : M unit := fun st =>
  Some (tt, mk_state (hw_outw (u16 port) (u16 value) (hw st))
                     (io_log st ++ [Out16 (u16 port) (u16 value)])
                     (mem st) (heap st) (live st) (registry st) (console st)).

(** *** RAM *)

Definition store8 (addr value : Z) : M unit := fun st =>
  Some (tt, mk_state (hw st) (io_log st)
                     (fun a => if a =? addr then u8 value else mem st a)
                     (heap st) (live st) (registry st) (console st)).

(** x86 is little-endian. *)
Definition store16 (addr value : Z) : M unit :=
  store8 addr value ;; store8 (addr + 1) (Z.shiftr value 8).

(** Modelled from the spec: insw and outsw of kernel/io.h are not among the
    sources; the spec calls them block (string) port read and write, that is
    [count] successive word accesses of one port, to or from consecutive
    words of memory. *)
Fixpoint insw (port : Z) (buffer : Z) (count : nat) : M unit :=
  match count with
  | O => ret tt
  | S n => w <- inw port ;; store16 buffer w ;; insw port (buffer + 2) n
  end.

Fixpoint outsw (port : Z) (words : list Z) (count : nat) : M unit :=
  match count with
  | O => ret tt
  | S n => outw port (hd 0 words) ;; outsw port (tl words) n
  end.

(** A byte array seen through a [uint16_t *]. *)
Fixpoint words_of_bytes (bytes : list Z) : list Z :=
  match bytes with
  | lo :: hi :: rest => Z.lor lo (Z.shiftl hi 8) :: words_of_bytes rest
  | _ => []
  end.

(** *** The struct ata_device objects *)

Definition deref (d : ptr) : M ata_device := fun st => Some (heap st d, st).

Definition modify (d : ptr) (f : ata_device -> ata_device) : M unit := fun st =>
  Some (tt, mk_state (hw st) (io_log st) (mem st)
                     (fun q => if q =? d then f (heap st d) else heap st q)
                     (live st) (registry st) (console st)).

(** The lifetime of an automatic object begins when its function is
    entered and ends when the function returns; its bytes stay where they
    are. *)
Definition set_live (d : ptr) (b : bool) : M unit := fun st =>
  Some (tt, mk_state (hw st) (io_log st) (mem st) (heap st)
                     (fun q => if q =? d then b else live st q)
                     (registry st) (console st)).

(** *** Console *)

Definition printf (format : string) (args : list printf_arg) : M unit := fun st =>
  Some (tt, mk_state (hw st) (io_log st) (mem st) (heap st) (live st) (registry st)
                     (console st ++ [(format, args)])).

(** *** Simple inline functions *)

Definition ata_device_is_packet (d : ptr) : M bool :=
  dev <- deref d ;;
  ret (match type dev with
       | ATA_TYPE_PATAPI | ATA_TYPE_SATAPI => true
       | _ => false
       end).

(** Wait n*100 nano seconds *)
Fixpoint ata_wait (n : nat) : M unit :=
  match n with
  | O => ret tt
  | S i => inb 0x3F6 ;; ata_wait i
  end.

Definition ata_read_status (d : ptr) : M Z :=
  dev <- deref d ;;
  inb (base_port dev + ATA_COMMAND_PORT).

(** [do status = read; while (again status)], and in the same way
    [while (again (status = read)) ;]: read, test, repeat.  [fuel] bounds the
    number of reads. *)
Fixpoint poll (read : M Z) (again : Z -> bool) (fuel : nat) : M Z :=
  match fuel with
  | O => stall
  | S fuel' =>
      status <- read ;;
      if again status then poll read again fuel' else ret status
  end.

Definition ata_wait_bsy_clear (fuel : nat) (d : ptr) : M Z :=
  poll (ata_read_status d) (fun status => nonzero (ATA_ISBSY status)) fuel.

Definition ata_wait_drq_set (fuel : nat) (d : ptr) : M Z :=
  poll (ata_read_status d)
       (fun status => negb (nonzero (ATA_ISDRQ status))
                      && negb (nonzero (ATA_ISERR status))) fuel.

Definition ata_software_reset (d : ptr) : M unit :=
  dev <- deref d ;;
  outb (control_port dev) 4 ;;
  outb (control_port dev) 0.

Definition ata_select_drive (d : ptr) : M unit :=
  dev <- deref d ;;
  outb (base_port dev + ATA_DRIVE_PORT) (Z.lor 0xA0 (slave_bit dev)) ;;
  ata_wait 5.

Definition ata_pio_read16 (d : ptr) : M Z :=
  dev <- deref d ;;
  inw (base_port dev + ATA_DATA_PORT).

(** *** Low level functions *)

(** The READ(12) packet for block [lba]. *)
Definition read_cmd (lba : Z) : list Z :=
  [0xA8; 0;
   Z.land (Z.shiftr lba 0x18) 0xFF;
   Z.land (Z.shiftr lba 0x10) 0xFF;
   Z.land (Z.shiftr lba 0x08) 0xFF;
   Z.land (Z.shiftr lba 0x00) 0xFF;
   0; 0; 0; 1; 0; 0].

(** The result is the [result_t] the function returns, a 32-bit integer:
    -1, or the size read from the ports.  The two port reads of the size
    are taken left to right. *)
Definition atapi_read_block (fuel : nat) (dev : ptr) (lba : Z)
                            (buffer : Z) (maxlen : Z) : M Z :=
  d <- deref dev ;;
  outb (base_port d + ATA_DRIVE_PORT) (slave_bit d) ;;
  ata_wait 4 ;;
  outb (base_port d + ATA_FEAT_PORT) 0 ;;
  outb (base_port d + ATA_LBAMID_PORT) (Z.land maxlen 0xFF) ;;
  outb (base_port d + ATA_LBAHI_PORT) (Z.shiftr maxlen 8) ;;
  outb (base_port d + ATA_COMMAND_PORT) 0xA0 ;;
  poll (inb (base_port d + ATA_COMMAND_PORT))
       (fun status => nonzero (Z.land status 0x80)) fuel ;;
  status <- poll (inb (base_port d + ATA_COMMAND_PORT))
                 (fun status => negb (nonzero (Z.land status 0x8))
                                && negb (nonzero (Z.land status 0x1))) fuel ;;
  if nonzero (Z.land status 0x1) then ret (-1)
  else
    outsw (base_port d) (words_of_bytes (read_cmd lba)) 6 ;;
    hi <- inb (base_port d + ATA_LBAHI_PORT) ;;
    mid <- inb (base_port d + ATA_LBAMID_PORT) ;;
    let size := Z.lor (Z.shiftl hi 8) mid in
    insw (base_port d) buffer (Z.to_nat (Z.quot size 2)) ;;
    poll (inb (base_port d + ATA_COMMAND_PORT))
         (fun status => nonzero (Z.land status 0x88)) fuel ;;
    ret size.

(** [for (i = 0; i < 256; i++) buffer[i] = ata_pio_read16(d)], with [n] the
    iterations left. *)
Fixpoint read_data (d : ptr) (buffer : nat -> Z) (i n : nat) : M (nat -> Z) :=
  match n with
  | O => ret buffer
  | S n' =>
      w <- ata_pio_read16 d ;;
      read_data d (fun j => if Nat.eqb j i then w else buffer j) (S i) n'
  end.

(** Select the device provided then send the IDENTIFY command.  Returns 0 if
    the device doesn't exist or it's not ATA, 1 else, and the 256 words of
    [buffer] after the call. *)
Definition ata_cmd_identify (fuel : nat) (d : ptr) (buffer : nat -> Z)
  : M (Z * (nat -> Z)) :=
  ata_select_drive d ;;
  dev <- deref d ;;
  outb (base_port dev + ATA_SECTOR_COUNT_PORT) 0 ;;
  outb (base_port dev + ATA_LBALO_PORT) 0 ;;
  outb (base_port dev + ATA_LBAMID_PORT) 0 ;;
  outb (base_port dev + ATA_LBAHI_PORT) 0 ;;
  packet <- ata_device_is_packet d ;;
  (if packet
   then outb (base_port dev + ATA_COMMAND_PORT) ATA_CMD_PACKET_IDENTIFY
   else outb (base_port dev + ATA_COMMAND_PORT) ATA_CMD_IDENTIFY) ;;
  status <- ata_wait_bsy_clear fuel d ;;
  if status =? 0 then ret (0, buffer)
  else if nonzero (ATA_ISERR status) then
    printf "[ATA] Error after sending IDENTIFY." [PInt status] ;;
    ret (0, buffer)
  else
    lbamid <- inb (base_port dev + ATA_LBAMID_PORT) ;;
    lbahi <- inb (base_port dev + ATA_LBAHI_PORT) ;;
    if negb (lbamid =? 0) || negb (lbahi =? 0) then
      printf "[ATA] No ATA device\n" [] ;;
      ret (0, buffer)
    else
      status <- ata_wait_drq_set fuel d ;;
      if nonzero (ATA_ISERR status) then
        printf "[ATA] Error\n" [] ;;
        ret (0, buffer)
      else
        buffer' <- read_data d buffer 0 256 ;;
        ret (1, buffer').

(** [garbage] is what the 256 words of the local [buffer] hold when the
    function is entered: the array is not initialised. *)
Definition ata_detect (fuel : nat) (base_port control_port slave_bit : Z)
                      (device : ptr) (garbage : nat -> Z) : M Z :=
  modify device (set_base_port base_port) ;;
  modify device (set_control_port control_port) ;;
  modify device (set_slave_bit slave_bit) ;;
  ata_software_reset device ;;
  status <- ata_wait_bsy_clear fuel device ;;
  (if negb (nonzero (ATA_ISRDY status))
   then printf "[ATA] [ERROR] Device not ready. Status : %d\n" [PInt status]
   else ret tt) ;;
  sector_mid <- inb (base_port + ATA_LBAMID_PORT) ;;
  sector_hi <- inb (base_port + ATA_LBAHI_PORT) ;;
  (if (sector_mid =? 0x14) && (sector_hi =? 0xEB) then
     modify device (set_type ATA_TYPE_PATAPI)
   else if (sector_mid =? 0x69) && (sector_hi =? 0x96) then
     modify device (set_type ATA_TYPE_SATAPI)
   else if (sector_mid =? 0) && (sector_hi =? 0) then
     modify device (set_type ATA_TYPE_PATA)
   else if (sector_mid =? 0x3C) && (sector_hi =? 0xC3) then
     modify device (set_type ATA_TYPE_SATA)
   else ret tt) ;;
  packet <- ata_device_is_packet device ;;
  (if packet then printf "[ATA] Packet device found.\n" [] else ret tt) ;;
  identified <- ata_cmd_identify fuel device garbage ;;
  let buffer := snd identified in
  (if fst identified =? 0
   then printf "Error while identifying device\n" []
   else ret tt) ;;
  packet <- ata_device_is_packet device ;;
  if packet then
    if negb (nonzero (Z.land (buffer O) (Z.shiftl 1 15)))
       && negb (nonzero (Z.land (buffer O) (Z.shiftl 1 14))) then
      printf "Invalid ATAPI device.\n" [] ;;
      ret 0
    else
      printf "Identification done\n" [] ;;
      ret 1
  else
    if nonzero (Z.land (buffer O) (Z.shiftl 1 15)) then
      printf "Invalid ATA device.\n" [] ;;
      ret 0
    else
      printf "Identification done\n" [] ;;
      ret 1.

(** *** High level functions *)

(** [*size] goes in as [size] and comes out as the second component. *)
Definition ata_read (fuel : nat) (dev : device) (size : Z) (out : Z)
  : M (Z * Z) :=
  let ata_dev := ATA_DEV dev in
  d <- deref ata_dev ;;
  r <- atapi_read_block fuel ata_dev (pos d) out size ;;
  ret (OK, u32 r).

(** The body is empty: control reaches the closing brace of a function that
    returns a [result_t] without a return statement.  The caller takes the
    result from the return register, which the function never sets: [eax]
    is what that register holds when the function is entered. *)
Definition ata_write (dev : device) (size : Z) (out : Z) (eax : Z) : M Z :=
  ret eax.

Definition ata_seek (dev : device) (position : Z) : M Z :=
  let ata_dev := d_p dev in
  modify ata_dev (set_pos position) ;;
  ret OK.

(** Modelled from the spec: device_register of kernel/device/device.c is not
    among the sources; the spec has it fail when the name already exists or
    the table is full, and add the device to the table otherwise. *)
Definition device_register (dev : device) : M register_result := fun st =>
  if existsb (fun e => String.eqb (d_name e) (d_name dev)) (registry st)
  then Some (DuplicateName, st)
  else if (DEVICE_TABLE_SIZE <=? List.length (registry st))%nat
  then Some (TableFull, st)
  else Some (Registered,
             mk_state (hw st) (io_log st) (mem st) (heap st) (live st)
                      (registry st ++ [dev]) (console st)).

(** [strncpy(dst, src, n)] as far as the characters kept go. *)
Definition strncpy (src : string) (n : nat) : string := substring 0 n src.

Definition ata_register_device (name : string) (ata_dev : ptr) : M unit :=
  let dev := mk_device DEVICE_RANDOM (strncpy name DEVICE_NAME_MAX) ata_dev
                       Fn_ata_read Fn_ata_write Fn_ata_seek in
  printf "Device registered : %s\n" [PStr name] ;;
  device_register dev ;;
  ret tt.

(** *** Public functions *)

(** [ata_dev] is the address of the local of that name in the frame of
    this call, whose content on entry is whatever [heap] holds there; the
    lifetime of the local begins on entry and ends when the function
    returns.  [garbage k] is the content of the local buffer of the [k]-th
    call of ata_detect on entry. *)
Definition ata_install (fuel : nat) (ata_dev : ptr)
                       (garbage : nat -> nat -> Z) : M unit :=
  set_live ata_dev true ;;
  r0 <- ata_detect fuel 0x1F0 0x3F6 0 ata_dev (garbage 0%nat) ;;
  (if nonzero r0 then ata_register_device "ATA-0" ata_dev else ret tt) ;;
  r1 <- ata_detect fuel 0x1F0 0x3F6 (Z.shiftl 1 4) ata_dev (garbage 1%nat) ;;
  (if nonzero r1 then ata_register_device "ATA-1" ata_dev else ret tt) ;;
  r2 <- ata_detect fuel 0x170 0x376 0 ata_dev (garbage 2%nat) ;;
  (if nonzero r2 then ata_register_device "ATA-2" ata_dev else ret tt) ;;
  r3 <- ata_detect fuel 0x170 0x376 (Z.shiftl 1 4) ata_dev (garbage 3%nat) ;;
  (if nonzero r3 then ata_register_device "ATA-3" ata_dev else ret tt) ;;
  set_live ata_dev false.

End Driver.

(** ** Descriptions used in the statements *)

(** The machine after [k] reads of [port], and the byte its next read of
    that port delivers. *)
Fixpoint hw_after_reads {HW} {IO : PortIO HW} (port : Z) (k : nat) (h : HW)
  : HW :=
  match k with
  | O => h
  | S k' => hw_after_reads port k' (snd (hw_inb (u16 port) h))
  end.

Definition nth_status {HW} {IO : PortIO HW} (port : Z) (k : nat) (h : HW)
  : Z :=
  u8 (fst (hw_inb (u16 port) (hw_after_reads port k h))).

(** RAM after the words [ws] were stored from [buffer] on, low byte first. *)
Fixpoint write_words (buffer : Z) (ws : list Z) (m : Z -> Z) : Z -> Z :=
  match ws with
  | [] => m
  | w :: rest =>
      write_words (buffer + 2) rest
        (fun a => if a =? buffer + 1 then u8 (Z.shiftr w 8)
                  else if a =? buffer then u8 w else m a)
  end.

(** ** A scripted drive, for concrete runs *)

(** Reads of a status port (offset 7 of a channel) take the next byte of
    [sim_status], then [sim_idle] for ever; reads of the LBA-mid and LBA-high
    ports (offsets 4 and 5) take the next byte of their script, then 0; the
    data port delivers the words of [sim_data], then 0.  Writes are
    ignored. *)
Record sim : Set := mk_sim {
  sim_status : list Z;
  sim_idle : Z;
  sim_lbamid : list Z;
  sim_lbahi : list Z;
  sim_data : list Z
}.

Definition sim_inb (port : Z) (h : sim) : Z * sim :=
  match Z.land port 7 with
  | 7 => match sim_status h with
         | [] => (sim_idle h, h)
         | s :: rest =>
             (s, mk_sim rest (sim_idle h) (sim_lbamid h) (sim_lbahi h)
                        (sim_data h))
         end
  | 4 => (hd 0 (sim_lbamid h),
          mk_sim (sim_status h) (sim_idle h) (tl (sim_lbamid h)) (sim_lbahi h)
                 (sim_data h))
  | 5 => (hd 0 (sim_lbahi h),
          mk_sim (sim_status h) (sim_idle h) (sim_lbamid h) (tl (sim_lbahi h))
                 (sim_data h))
  | _ => (0, h)
  end.

Definition sim_inw (port : Z) (h : sim) : Z * sim :=
  (hd 0 (sim_data h),
   mk_sim (sim_status h) (sim_idle h) (sim_lbamid h) (sim_lbahi h)
          (tl (sim_data h))).

#[global] Instance sim_io : PortIO sim := {
  hw_inb := sim_inb;
  hw_outb := fun _ _ h => h;
  hw_inw := sim_inw;
  hw_outw := fun _ _ h => h
}.

#[global] Instance sim_abi : DeviceAbi := {
  OK := 0;
  DEVICE_RANDOM := 1;
  DEVICE_NAME_MAX := 16;
  DEVICE_TABLE_SIZE := 8
}.

Definition blank_device : ata_device :=
  mk_ata_device ATA_TYPE_UNKNOWN 0 0 0 0 0 0 0.

(** A kernel state around the scripted drive [h]: RAM and every descriptor
    zeroed, no descriptor alive, nothing registered, nothing printed. *)
Definition sim_state (h : sim) : @state sim :=
  mk_state h [] (fun _ => 0) (fun _ => blank_device) (fun _ => false) [] [].

(** An ATAPI drive on the primary channel, and the generic device over the
    descriptor at address 64. *)
Definition atapi_device : ata_device :=
  mk_ata_device ATA_TYPE_PATAPI 0x1F0 0x3F6 0 0 0 0 0.

Definition atapi_state (h : sim) : @state sim :=
  mk_state h [] (fun _ => 0)
           (fun q => if q =? 64 then atapi_device else blank_device)
           (fun q => q =? 64) [] [].

Definition cdrom : device :=
  mk_device 1 "ATA-0" 64 Fn_ata_read Fn_ata_write Fn_ata_seek.

Definition result_of {A S} (r : option (A * S)) : option A := option_map fst r.

(** The port accesses of one successful atapi_read_block on the channel at
    [b]: selection and settle delay (4 reads of 0x3F6 that delivered
    [waits]), byte-count limit and PACKET opcode, the busy poll ([ss1]), the
    data-request poll ([ss2]), the 12-byte packet, the size read back
    ([hi], [mid]), the data words ([ws]) and the completion poll ([ss3]). *)
Definition atapi_trace (b slave lba maxlen : Z)
    (waits ss1 ss2 : list Z) (hi mid : Z) (ws ss3 : list Z) : list io_event :=
  [Out8 (u16 (b + ATA_DRIVE_PORT)) (u8 slave)]
  ++ map (In8 (u16 0x3F6)) waits
  ++ [Out8 (u16 (b + ATA_FEAT_PORT)) (u8 0);
      Out8 (u16 (b + ATA_LBAMID_PORT)) (u8 (Z.land maxlen 0xFF));
      Out8 (u16 (b + ATA_LBAHI_PORT)) (u8 (Z.shiftr maxlen 8));
      Out8 (u16 (b + ATA_COMMAND_PORT)) (u8 0xA0)]
  ++ map (In8 (u16 (b + ATA_COMMAND_PORT))) ss1
  ++ map (In8 (u16 (b + ATA_COMMAND_PORT))) ss2
  ++ map (fun w => Out16 (u16 b) (u16 w)) (words_of_bytes (read_cmd lba))
  ++ [In8 (u16 (b + ATA_LBAHI_PORT)) hi; In8 (u16 (b + ATA_LBAMID_PORT)) mid]
  ++ map (In16 (u16 b)) ws
  ++ map (In8 (u16 (b + ATA_COMMAND_PORT))) ss3.

(** The data words a stretch of port accesses read. *)
Fixpoint words_read (evs : list io_event) : list Z :=
  match evs with
  | [] => []
  | In16 _ w :: rest => w :: words_read rest
  | _ :: rest => words_read rest
  end.

(** The status register of the channel at [b] reads [s], whatever the state
    of the machine. *)
Definition status_stuck {HW} {IO : PortIO HW} (b s : Z) : Prop :=
  forall h : HW, u8 (fst (hw_inb (u16 (b + ATA_COMMAND_PORT)) h)) = s.

(** A machine every byte port of which reads [s], and every word port 0. *)
Definition stuck_io (s : Z) : PortIO unit := {|
  hw_inb := fun _ h => (s, h);
  hw_outb := fun _ _ h => h;
  hw_inw := fun _ h => (0, h);
  hw_outw := fun _ _ h => h
|}.

Definition stuck_state : @state unit :=
  mk_state tt [] (fun _ => 0)
           (fun q => if q =? 64 then atapi_device else blank_device)
           (fun q => q =? 64) [] [].

(** *** Drives used in the concrete runs *)

(** Busy once, then ready with data; reports a transfer of 8 bytes. *)
Definition overrun_drive : sim :=
  mk_sim [0x80; 0x00; 0x08] 0x00 [8] [0]
         [0x1234; 0x5678; 0x9ABC; 0xDEF0; 7].

(** Busy once, then the error bit for ever. *)
Definition failing_drive : sim := mk_sim [0x80; 0x00] 0x01 [] [] [].

(** Ready with data; reports a transfer of 5 bytes. *)
Definition odd_drive : sim :=
  mk_sim [0x00; 0x08] 0x00 [5] [0] [0x1111; 0x2222; 0x3333].

(** Nothing attached: every port reads 0. *)
Definition absent_drive : sim := mk_sim [] 0 [] [] [].

(** Ready, with signature bytes (0x12, 0x34) at every read. *)
Definition odd_signature_drive : sim :=
  mk_sim [] 0x50 [0x12; 0x12] [0x34; 0x34] [].

(** A disk: signature (0, 0), ready with data, IDENTIFY word 0 = 0x0040. *)
Definition pata_drive : sim := mk_sim [] 0x58 [] [] [0x0040].

(** The drive on the channel at [b] answers: whatever the state of the
    machine, reading the status port again and again comes to a byte with
    the busy bit clear, to one with data request or error set, and to one
    with busy and data request both clear. *)
Definition answers {HW} {IO : PortIO HW} (b : Z) : Prop :=
  forall h : HW,
    (exists k, ATA_ISBSY (nth_status (b + ATA_COMMAND_PORT) k h) = 0) /\
    (exists k, ATA_ISDRQ (nth_status (b + ATA_COMMAND_PORT) k h) <> 0 \/
               ATA_ISERR (nth_status (b + ATA_COMMAND_PORT) k h) <> 0) /\
    (exists k, Z.land (nth_status (b + ATA_COMMAND_PORT) k h) 0x88 = 0).

(** A machine whose status ports read 0x08 and 0x00 in turn, and every
    other port 0. *)
Definition toggle_io : PortIO bool := {|
  hw_inb := fun (port : Z) (h : bool) =>
    if Z.land port 7 =? 7 then (if h then 0x08 else 0x00, negb h)
    else (0, h);
  hw_outb := fun _ _ h => h;
  hw_inw := fun _ h => (0, h);
  hw_outw := fun _ _ h => h
|}.

Definition toggle_state : @state bool :=
  mk_state true [] (fun _ => 0)
           (fun q => if q =? 64 then atapi_device else blank_device)
           (fun q => q =? 64) [] [].

(** How two states may differ. *)
Section Effects.

Context {HW : Type}.

(** [m] never takes a state to one that is not [R]-related to it. *)
Definition preserves {A} (R : @state HW -> @state HW -> Prop) (m : M A)
  : Prop :=
  forall st a st', m st = Some (a, st') -> R st st'.

(** A result obtained within [k] polls per loop is the result for every
    larger bound. *)
Definition mono {A} (f : nat -> @M HW A) : Prop :=
  forall k k' st r, f k st = Some r -> (k <= k')%nat -> f k' st = Some r.

(** Some bound on the polls lets [f] return from [st]. *)
Definition returns {A} (f : nat -> @M HW A) (st : @state HW) : Prop :=
  exists k r, f k st = Some r.

(** Port traffic only. *)
Definition io_effect (st st' : @state HW) : Prop :=
  mem st' = mem st /\ heap st' = heap st /\
  registry st' = registry st /\ console st' = console st.

(** Port accesses [evs] and console output, and nothing else. *)
Definition io_ext (evs : list io_event) (st st' : @state HW) : Prop :=
  io_log st' = io_log st ++ evs /\ mem st' = mem st /\
  heap st' = heap st /\ registry st' = registry st.

(** No lifetime has begun or ended. *)
Definition live_kept (st st' : @state HW) : Prop := live st' = live st.

(** Port traffic and console output. *)
Definition soft_kept (st st' : @state HW) : Prop :=
  mem st' = mem st /\ heap st' = heap st /\ registry st' = registry st.

(** As [soft_kept], but the [type] field of the object at [p] may differ. *)
Definition retyped (p : ptr) (st st' : @state HW) : Prop :=
  mem st' = mem st /\ registry st' = registry st /\
  (forall q, q <> p -> heap st' q = heap st q) /\
  base_port (heap st' p) = base_port (heap st p) /\
  control_port (heap st' p) = control_port (heap st p) /\
  slave_bit (heap st' p) = slave_bit (heap st p) /\
  pos (heap st' p) = pos (heap st p).

(** RAM and the objects other than the one at [p] are kept, and the device
    table has only grown, by devices backed by the object at [p]. *)
Definition registered_on (p : ptr) (st st' : @state HW) : Prop :=
  mem st' = mem st /\
  (forall q, q <> p -> heap st' q = heap st q) /\
  exists added,
    registry st' = registry st ++ added /\
    Forall (fun d => d_p d = p) added.

End Effects.

(** ** Descriptions used in the further properties *)

(** The words a stretch of port accesses wrote to word ports. *)
Fixpoint words_written (evs : list io_event) : list Z :=
  match evs with
  | [] => []
  | Out16 _ w :: rest => w :: words_written rest
  | _ :: rest => words_written rest
  end.

(** The writes to word ports among a stretch of port accesses, each as the
    port written and the word written to it. *)
Fixpoint word_writes (evs : list io_event) : list (Z * Z) :=
  match evs with
  | [] => []
  | Out16 port w :: rest => (port, w) :: word_writes rest
  | _ :: rest => word_writes rest
  end.

(** Words as the bytes they are on a little-endian machine. *)
Definition bytes_of_words (ws : list Z) : list Z :=
  flat_map (fun w => [w mod 256; w / 256]) ws.

(** Four bytes as a big-endian number. *)
Definition be32 (b0 b1 b2 b3 : Z) : Z :=
  ((b0 * 256 + b1) * 256 + b2) * 256 + b3.

(** The port accesses of atapi_read_block up to the end of its wait for
    data request or error. *)
Definition atapi_setup_trace (b slave maxlen : Z) (waits ss1 ss2 : list Z)
  : list io_event :=
  [Out8 (u16 (b + ATA_DRIVE_PORT)) (u8 slave)]
  ++ map (In8 (u16 0x3F6)) waits
  ++ [Out8 (u16 (b + ATA_FEAT_PORT)) (u8 0);
      Out8 (u16 (b + ATA_LBAMID_PORT)) (u8 (Z.land maxlen 0xFF));
      Out8 (u16 (b + ATA_LBAHI_PORT)) (u8 (Z.shiftr maxlen 8));
      Out8 (u16 (b + ATA_COMMAND_PORT)) (u8 0xA0)]
  ++ map (In8 (u16 (b + ATA_COMMAND_PORT))) ss1
  ++ map (In8 (u16 (b + ATA_COMMAND_PORT))) ss2.

(** The status bytes the first [n] reads of [port] deliver. *)
Definition statuses {HW} {IO : PortIO HW} (port : Z) (n : nat) (h : HW)
  : list Z :=
  map (fun j => nth_status port j h) (seq 0 n).

Definition is_packet_type (t : ata_device_type) : bool :=
  match t with
  | ATA_TYPE_PATAPI | ATA_TYPE_SATAPI => true
  | _ => false
  end.

(** The class the signature bytes stand for; [old] when they stand for
    none. *)
Definition classify (mid hi : Z) (old : ata_device_type) : ata_device_type :=
  if (mid =? 0x14) && (hi =? 0xEB) then ATA_TYPE_PATAPI
  else if (mid =? 0x69) && (hi =? 0x96) then ATA_TYPE_SATAPI
  else if (mid =? 0) && (hi =? 0) then ATA_TYPE_PATA
  else if (mid =? 0x3C) && (hi =? 0xC3) then ATA_TYPE_SATA
  else old.

(** The test of word 0 of the IDENTIFY data against the class. *)
Definition verdict (t : ata_device_type) (word0 : Z) : Z :=
  if is_packet_type t
  then if Z.testbit word0 15 || Z.testbit word0 14 then 1 else 0
  else if Z.testbit word0 15 then 0 else 1.

(** The port accesses of ata_cmd_identify up to the end of its wait for the
    busy bit to clear. *)
Definition identify_prefix (dev : ata_device) (waits ss : list Z)
  : list io_event :=
  [Out8 (u16 (base_port dev + ATA_DRIVE_PORT))
        (u8 (Z.lor 0xA0 (slave_bit dev)))]
  ++ map (In8 (u16 0x3F6)) waits
  ++ [Out8 (u16 (base_port dev + ATA_SECTOR_COUNT_PORT)) (u8 0);
      Out8 (u16 (base_port dev + ATA_LBALO_PORT)) (u8 0);
      Out8 (u16 (base_port dev + ATA_LBAMID_PORT)) (u8 0);
      Out8 (u16 (base_port dev + ATA_LBAHI_PORT)) (u8 0);
      Out8 (u16 (base_port dev + ATA_COMMAND_PORT))
           (u8 (if is_packet_type (type dev)
                then ATA_CMD_PACKET_IDENTIFY else ATA_CMD_IDENTIFY))]
  ++ map (In8 (u16 (base_port dev + ATA_COMMAND_PORT))) ss.

(** The [struct device] ata_register_device builds for [name] over the
    object at [p], as the one element of a list, or no element. *)
Definition ata_generic_device {ABI : DeviceAbi} (name : string) (p : ptr)
  : device :=
  mk_device DEVICE_RANDOM (strncpy name DEVICE_NAME_MAX) p
            Fn_ata_read Fn_ata_write Fn_ata_seek.

Definition if_registered {ABI : DeviceAbi} (k : bool) (name : string)
                         (p : ptr) : list device :=
  if k then [ata_generic_device name p] else [].


(** ** Properties *)

Section DriverFacts.

Context {HW : Type} {IO : PortIO HW} {ABI : DeviceAbi}.

Implicit Types st : @state HW.

Lemma bind_some {A B} (m : M A) (k : A -> M B) st r :
  bind m k st = Some r ->
  exists a st1, m st = Some (a, st1) /\ k a st1 = Some r.
Proof.
  unfold bind. destruct (m st) as [[a st1]|]; [|discriminate].
  intros E. exists a, st1. split; [reflexivity | exact E].
Qed.

Lemma bind_none {A B} (m : M A) (k : A -> M B) st :
  m st = None -> bind m k st = None.
Proof. unfold bind. intros ->. reflexivity. Qed.

Lemma bind_step {A B} (m : M A) (k : A -> M B) st a st1 :
  m st = Some (a, st1) -> bind m k st = k a st1.
Proof. unfold bind. intros ->. reflexivity. Qed.

Lemma ret_run {A} (a b : A) st st' :
  ret a st = Some (b, st') -> b = a /\ st' = st.
Proof. intros E. injection E as <- <-. split; reflexivity. Qed.

Ltac bind_inv H :=
  let a := fresh "a" in
  let s := fresh "s" in
  let H1 := fresh "E" in
  apply bind_some in H; destruct H as (a & s & H1 & H).

Ltac proj_simpl H :=
  cbn [hw io_log mem heap live registry console] in H.

(** *** Machine integers *)

Lemma u8_range z : 0 <= u8 z < 256.
Proof. unfold u8. change (2 ^ 8) with 256. apply Z.mod_pos_bound. lia. Qed.

Lemma u16_range z : 0 <= u16 z < 65536.
Proof. unfold u16. change (2 ^ 16) with 65536. apply Z.mod_pos_bound. lia. Qed.

(** A size assembled from two bytes, high byte first. *)
Lemma size_of_bytes hi mid :
  0 <= hi < 256 -> 0 <= mid < 256 ->
  Z.lor (Z.shiftl hi 8) mid = 256 * hi + mid.
Proof.
  intros Hhi Hmid.
  rewrite Z.shiftl_mul_pow2 by lia.
  assert (Hl : Z.land (hi * 2 ^ 8) mid = 0).
  { apply Z.bits_inj'. intros n Hn. rewrite Z.land_spec, Z.bits_0.
    destruct (Z.ltb_spec n 8).
    - rewrite Z.mul_pow2_bits_low by lia. reflexivity.
    - rewrite (Z.bits_above_log2 mid n), andb_false_r; [reflexivity|lia|].
      destruct (Z.eq_dec mid 0) as [->|]; [simpl; lia|].
      apply Z.log2_lt_pow2; [lia|].
      apply Z.lt_le_trans with (2 ^ 8); [simpl; lia|].
      apply Z.pow_le_mono_r; lia. }
  rewrite <- (Z.lxor_lor _ _ Hl), <- (Z.add_nocarry_lxor _ _ Hl).
  change (2 ^ 8) with 256. lia.
Qed.

(** *** What each primitive does to the state *)

Lemma inb_run port st v st' :
  inb port st = Some (v, st') ->
  0 <= v < 256 /\
  v = u8 (fst (hw_inb (u16 port) (hw st))) /\
  st' = mk_state (snd (hw_inb (u16 port) (hw st)))
                 (io_log st ++ [In8 (u16 port) v])
                 (mem st) (heap st) (live st) (registry st) (console st).
Proof.
  unfold inb. destruct (hw_inb (u16 port) (hw st)) as [x h].
  intros E. injection E as <- <-.
  split; [apply u8_range | split; reflexivity].
Qed.

Lemma inb_total port st : exists v st', inb port st = Some (v, st').
Proof.
  unfold inb. destruct (hw_inb (u16 port) (hw st)) as [x h]. eauto.
Qed.

Lemma inw_run port st w st' :
  inw port st = Some (w, st') ->
  0 <= w < 65536 /\
  exists h', st' = mk_state h' (io_log st ++ [In16 (u16 port) w])
                            (mem st) (heap st) (live st) (registry st) (console st).
Proof.
  unfold inw. destruct (hw_inw (u16 port) (hw st)) as [x h].
  intros E. injection E as <- <-.
  split; [apply u16_range | eexists; reflexivity].
Qed.

Lemma inw_total port st : exists w st', inw port st = Some (w, st').
Proof.
  unfold inw. destruct (hw_inw (u16 port) (hw st)) as [x h]. eauto.
Qed.

Lemma poll_inb_run port again fuel : forall st s st',
  poll (inb port) again fuel st = Some (s, st') ->
  again s = false /\ 0 <= s < 256 /\
  exists h' ss,
    Forall (fun x => again x = true) ss /\
    st' = mk_state h' (io_log st ++ map (In8 (u16 port)) (ss ++ [s]))
                   (mem st) (heap st) (live st) (registry st) (console st).
Proof.
  induction fuel as [|fuel IH]; intros st s st' E; [discriminate|].
  simpl in E. bind_inv E.
  apply inb_run in E0. destruct E0 as (Hr & _ & ->).
  destruct (again a) eqn:Ha.
  - apply IH in E. destruct E as (Hs & Hrs & h' & ss & Hss & ->).
    split; [exact Hs|]. split; [exact Hrs|].
    exists h', (a :: ss). split; [constructor; assumption|].
    simpl. rewrite <- app_assoc. reflexivity.
  - injection E as <- <-.
    split; [exact Ha|]. split; [exact Hr|].
    eexists; exists []. split; [constructor | reflexivity].
Qed.

Lemma ata_wait_run n : forall st u st',
  ata_wait n st = Some (u, st') ->
  exists h' waits,
    List.length waits = n /\
    st' = mk_state h' (io_log st ++ map (In8 (u16 0x3F6)) waits)
                   (mem st) (heap st) (live st) (registry st) (console st).
Proof.
  induction n as [|n IH]; intros st u st' E; simpl in E.
  - injection E as <- <-. exists (hw st), []. split; [reflexivity|].
    simpl. rewrite app_nil_r. destruct st; reflexivity.
  - bind_inv E. apply inb_run in E0. destruct E0 as (_ & _ & ->).
    apply IH in E. destruct E as (h' & waits & Hlen & ->).
    exists h', (a :: waits). split; [simpl; congruence|].
    simpl. rewrite <- app_assoc. reflexivity.
Qed.

Lemma ata_wait_total n : forall st, exists st', ata_wait n st = Some (tt, st').
Proof.
  induction n as [|n IH]; intros st; simpl.
  - eexists; reflexivity.
  - destruct (inb_total 0x3F6 st) as (v & st1 & E).
    rewrite (bind_step _ _ _ _ _ E). apply IH.
Qed.

Lemma outsw_run port : forall words st u st',
  outsw port words (List.length words) st = Some (u, st') ->
  exists h',
    st' = mk_state h'
            (io_log st ++ map (fun w => Out16 (u16 port) (u16 w)) words)
            (mem st) (heap st) (live st) (registry st) (console st).
Proof.
  induction words as [|w words IH]; intros st u st' E; simpl in E.
  - injection E as <- <-. exists (hw st).
    simpl. rewrite app_nil_r. destruct st; reflexivity.
  - bind_inv E. injection E0 as <- <-.
    apply IH in E. destruct E as (h' & ->).
    exists h'. simpl. rewrite <- app_assoc. reflexivity.
Qed.

Lemma outsw_total port : forall count words st,
  exists st', outsw port words count st = Some (tt, st').
Proof.
  induction count as [|n IH]; intros words st; simpl.
  - eexists; reflexivity.
  - unfold bind at 1. simpl. apply IH.
Qed.

Lemma insw_run port : forall count buffer st u st',
  insw port buffer count st = Some (u, st') ->
  exists h' ws,
    List.length ws = count /\
    Forall (fun w => 0 <= w < 65536) ws /\
    st' = mk_state h' (io_log st ++ map (In16 (u16 port)) ws)
                   (write_words buffer ws (mem st))
                   (heap st) (live st) (registry st) (console st).
Proof.
  induction count as [|n IH]; intros buffer st u st' E; simpl in E.
  - injection E as <- <-. exists (hw st), [].
    split; [reflexivity|]. split; [constructor|].
    simpl. rewrite app_nil_r. destruct st; reflexivity.
  - bind_inv E. apply inw_run in E0. destruct E0 as (Hw & h1 & ->).
    bind_inv E. unfold store16 in E0. bind_inv E0.
    injection E1 as <- <-. injection E0 as <- <-.
    apply IH in E. destruct E as (h' & ws & Hlen & Hws & ->).
    exists h', (a :: ws). split; [simpl; congruence|].
    split; [constructor; assumption|].
    simpl. rewrite <- app_assoc. reflexivity.
Qed.

Lemma insw_total port : forall count buffer st,
  exists st', insw port buffer count st = Some (tt, st').
Proof.
  induction count as [|n IH]; intros buffer st; simpl.
  - eexists; reflexivity.
  - destruct (inw_total port st) as (w & st1 & E).
    rewrite (bind_step _ _ _ _ _ E).
    unfold store16, store8. unfold bind at 1 2. simpl. apply IH.
Qed.

(** *** What the stored words leave in RAM *)

Lemma write_words_outside : forall ws buffer m a,
  a < buffer \/ buffer + 2 * Z.of_nat (List.length ws) <= a ->
  write_words buffer ws m a = m a.
Proof.
  induction ws as [|w ws IH]; intros buffer m a Ha; simpl; [reflexivity|].
  rewrite IH by (simpl List.length in Ha; lia).
  simpl List.length in Ha.
  destruct (Z.eqb_spec a (buffer + 1)); [lia|].
  destruct (Z.eqb_spec a buffer); [lia|]. reflexivity.
Qed.

Lemma write_words_inside : forall ws buffer m i,
  (i < List.length ws)%nat ->
  write_words buffer ws m (buffer + 2 * Z.of_nat i) = u8 (nth i ws 0) /\
  write_words buffer ws m (buffer + 2 * Z.of_nat i + 1)
    = u8 (Z.shiftr (nth i ws 0) 8).
Proof.
  induction ws as [|w ws IH]; intros buffer m i Hi; simpl in Hi; [lia|].
  destruct i as [|i].
  - replace (buffer + 2 * Z.of_nat 0) with buffer by lia.
    simpl write_words. rewrite !write_words_outside by lia.
    rewrite !Z.eqb_refl.
    destruct (Z.eqb_spec buffer (buffer + 1)); [lia|]. split; reflexivity.
  - replace (buffer + 2 * Z.of_nat (S i)) with (buffer + 2 + 2 * Z.of_nat i)
      by lia.
    change (write_words buffer (w :: ws) m)
      with (write_words (buffer + 2) ws
              (fun a => if a =? buffer + 1 then u8 (Z.shiftr w 8)
                        else if a =? buffer then u8 w else m a)).
    change (nth (S i) (w :: ws) 0) with (nth i ws 0).
    apply IH. lia.
Qed.

(** *** atapi_read_block, step by step *)

Lemma atapi_read_block_run fuel dev lba buffer maxlen st r st' :
  atapi_read_block fuel dev lba buffer maxlen st = Some (r, st') ->
  (r = -1 /\
   exists h' evs s,
     Z.land s 1 <> 0 /\
     st' = mk_state h'
             (io_log st ++ evs
                ++ [In8 (u16 (base_port (heap st dev) + ATA_COMMAND_PORT)) s])
             (mem st) (heap st) (live st) (registry st) (console st))
  \/
  (exists waits ss1 ss2 hi mid ws ss3 h',
     0 <= hi < 256 /\ 0 <= mid < 256 /\ r = 256 * hi + mid /\
     List.length ws = Z.to_nat (r / 2) /\
     st' = mk_state h'
             (io_log st
                ++ atapi_trace (base_port (heap st dev))
                               (slave_bit (heap st dev)) lba maxlen
                               waits ss1 ss2 hi mid ws ss3)
             (write_words buffer ws (mem st))
             (heap st) (live st) (registry st) (console st)).
Proof.
  unfold atapi_read_block. intros E.
  bind_inv E. injection E0 as <- <-.
  set (b := base_port (heap st dev)) in *.
  bind_inv E. injection E0 as <- <-. proj_simpl E.
  bind_inv E. apply ata_wait_run in E0. destruct E0 as (h1 & waits & _ & ->).
  proj_simpl E.
  bind_inv E. injection E0 as <- <-. proj_simpl E.
  bind_inv E. injection E0 as <- <-. proj_simpl E.
  bind_inv E. injection E0 as <- <-. proj_simpl E.
  bind_inv E. injection E0 as <- <-. proj_simpl E.
  apply bind_some in E. destruct E as (s1 & st1 & E0 & E).
  apply poll_inb_run in E0.
  destruct E0 as (_ & _ & h2 & ss1 & _ & ->). proj_simpl E.
  apply bind_some in E. destruct E as (s2 & st2 & E0 & E).
  apply poll_inb_run in E0.
  destruct E0 as (_ & _ & h3 & ss2 & _ & ->). proj_simpl E.
  destruct (nonzero (Z.land s2 1)) eqn:Herr.
  - injection E as <- <-. left. split; [reflexivity|].
    exists h3.
    exists ([Out8 (u16 (b + ATA_DRIVE_PORT)) (u8 (slave_bit (heap st dev)))]
            ++ map (In8 (u16 0x3F6)) waits
            ++ [Out8 (u16 (b + ATA_FEAT_PORT)) (u8 0);
                Out8 (u16 (b + ATA_LBAMID_PORT)) (u8 (Z.land maxlen 0xFF));
                Out8 (u16 (b + ATA_LBAHI_PORT)) (u8 (Z.shiftr maxlen 8));
                Out8 (u16 (b + ATA_COMMAND_PORT)) (u8 0xA0)]
            ++ map (In8 (u16 (b + ATA_COMMAND_PORT))) (ss1 ++ [s1])
            ++ map (In8 (u16 (b + ATA_COMMAND_PORT))) ss2).
    exists s2. split.
    + unfold nonzero in Herr. destruct (Z.eqb_spec (Z.land s2 1) 0);
        [discriminate | assumption].
    + rewrite !map_app. cbn [map].
      rewrite <- !app_assoc. reflexivity.
  - bind_inv E.
    change 6%nat with (List.length (words_of_bytes (read_cmd lba))) in E0.
    apply outsw_run in E0. destruct E0 as (h4 & ->). proj_simpl E.
    apply bind_some in E. destruct E as (hi & st4 & E0 & E).
    apply inb_run in E0. destruct E0 as (Hhi & _ & ->). proj_simpl E.
    apply bind_some in E. destruct E as (mid & st5 & E0 & E).
    apply inb_run in E0. destruct E0 as (Hmid & _ & ->). proj_simpl E.
    rewrite (size_of_bytes hi mid Hhi Hmid) in E.
    bind_inv E. apply insw_run in E0.
    destruct E0 as (h5 & ws & Hlen & _ & ->). proj_simpl E.
    apply bind_some in E. destruct E as (s3 & st6 & E0 & E).
    apply poll_inb_run in E0.
    destruct E0 as (_ & _ & h6 & ss3 & _ & ->). proj_simpl E.
    apply ret_run in E. destruct E as [-> ->]. right.
    exists waits, (ss1 ++ [s1]), (ss2 ++ [s2]), hi, mid, ws, (ss3 ++ [s3]), h6.
    split; [exact Hhi|]. split; [exact Hmid|]. split; [reflexivity|].
    split.
    + rewrite Hlen. rewrite Z.quot_div_nonneg by lia. reflexivity.
    + unfold atapi_trace.
      rewrite <- !app_assoc. reflexivity.
Qed.

(** *** Frames *)

Section Preserves.

Variable R : @state HW -> @state HW -> Prop.
Context {R_refl : Reflexive R} {R_trans : Transitive R}.

Lemma preserves_ret {A} (a : A) : preserves R (ret a).
Proof. intros st x st' E. injection E as <- <-. reflexivity. Qed.

Lemma preserves_bind {A B} (m : M A) (k : A -> M B) :
  preserves R m -> (forall a, preserves R (k a)) -> preserves R (bind m k).
Proof.
  intros Hm Hk st b st' E. bind_inv E.
  transitivity s; [eapply Hm | eapply Hk]; eassumption.
Qed.

Lemma preserves_poll read again fuel :
  preserves R read -> preserves R (poll read again fuel).
Proof.
  intros Hr. induction fuel as [|fuel IH]; [intros st a st' E; discriminate|].
  simpl. apply preserves_bind; [exact Hr|].
  intros s. destruct (again s); [exact IH | apply preserves_ret].
Qed.

End Preserves.

Lemma preserves_weaken {A} (R R' : @state HW -> @state HW -> Prop) (m : M A) :
  (forall st st', R st st' -> R' st st') -> preserves R m -> preserves R' m.
Proof. intros Hw Hm st a st' E. apply Hw. eapply Hm. eassumption. Qed.

#[local] Instance io_effect_refl : Reflexive (@io_effect HW).
Proof. intros st. repeat split. Qed.

#[local] Instance io_effect_trans : Transitive (@io_effect HW).
Proof.
  intros a b c (H1 & H2 & H3 & H4) (H5 & H6 & H7 & H8).
  repeat split; congruence.
Qed.

#[local] Instance soft_kept_refl : Reflexive (@soft_kept HW).
Proof. intros st. repeat split. Qed.

#[local] Instance soft_kept_trans : Transitive (@soft_kept HW).
Proof.
  intros a b c (H1 & H2 & H3) (H5 & H6 & H7). repeat split; congruence.
Qed.

#[local] Instance retyped_refl p : Reflexive (@retyped HW p).
Proof. intros st. repeat split. Qed.

#[local] Instance retyped_trans p : Transitive (@retyped HW p).
Proof.
  intros a b c (H1 & H2 & H3 & H4 & H5 & H6 & H7)
               (G1 & G2 & G3 & G4 & G5 & G6 & G7).
  repeat split; try congruence.
  intros q Hq. rewrite G3, H3 by assumption. reflexivity.
Qed.

#[local] Instance registered_on_refl p : Reflexive (@registered_on HW p).
Proof.
  intros st. split; [reflexivity|]. split; [reflexivity|].
  exists []. split; [symmetry; apply app_nil_r | constructor].
Qed.

#[local] Instance registered_on_trans p : Transitive (@registered_on HW p).
Proof.
  intros a b c (H1 & H2 & l1 & H3 & H4) (G1 & G2 & l2 & G3 & G4).
  split; [congruence|]. split.
  - intros q Hq. rewrite G2, H2 by assumption. reflexivity.
  - exists (l1 ++ l2). split.
    + rewrite G3, H3, app_assoc. reflexivity.
    + apply Forall_app. split; assumption.
Qed.

Lemma io_effect_soft st st' : io_effect st st' -> soft_kept st st'.
Proof. intros (H1 & H2 & H3 & H4). repeat split; assumption. Qed.

Lemma soft_kept_retyped p st st' : soft_kept st st' -> retyped p st st'.
Proof.
  intros (H1 & H2 & H3). unfold retyped. rewrite H2.
  repeat split; assumption.
Qed.

Lemma retyped_registered_on p st st' : retyped p st st' -> registered_on p st st'.
Proof.
  intros (H1 & H2 & H3 & _). split; [assumption|]. split; [assumption|].
  exists []. split; [rewrite app_nil_r; assumption | constructor].
Qed.

Lemma io_inb port : preserves io_effect (inb port).
Proof.
  intros st v st' E. apply inb_run in E. destruct E as (_ & _ & ->).
  repeat split.
Qed.

Lemma io_outb port value : preserves io_effect (outb port value).
Proof. intros st v st' E. injection E as <- <-. repeat split. Qed.

Lemma io_inw port : preserves io_effect (inw port).
Proof.
  intros st v st' E. apply inw_run in E. destruct E as (_ & h & ->).
  repeat split.
Qed.

Lemma io_deref d : preserves (@io_effect HW) (deref d).
Proof. intros st v st' E. injection E as <- <-. reflexivity. Qed.

Lemma soft_printf format args :
  preserves (@soft_kept HW) (printf format args).
Proof. intros st v st' E. injection E as <- <-. repeat split. Qed.

Lemma retyped_modify p t :
  preserves (@retyped HW p) (modify p (set_type t)).
Proof.
  intros st v st' E. injection E as <- <-. unfold retyped. simpl.
  rewrite Z.eqb_refl. simpl. repeat split.
  intros q Hq. destruct (Z.eqb_spec q p); [contradiction | reflexivity].
Qed.

Lemma io_as_soft {A} (m : M A) :
  preserves io_effect m -> preserves (@soft_kept HW) m.
Proof. apply preserves_weaken, io_effect_soft. Qed.

Lemma soft_as_retyped {A} p (m : M A) :
  preserves soft_kept m -> preserves (@retyped HW p) m.
Proof. apply preserves_weaken, soft_kept_retyped. Qed.

Lemma retyped_as_registered {A} p (m : M A) :
  preserves (retyped p) m -> preserves (@registered_on HW p) m.
Proof. apply preserves_weaken, retyped_registered_on. Qed.

Create HintDb pres.

Lemma io_set_live d b : preserves (@io_effect HW) (set_live d b).
Proof. intros st u st' E. injection E as <- <-. repeat split. Qed.

#[local] Hint Resolve io_inb io_outb io_inw io_deref io_set_live soft_printf
  retyped_modify io_as_soft soft_as_retyped retyped_as_registered : pres.

Ltac pres :=
  repeat match goal with
         | |- preserves _ (bind _ _) =>
             refine (preserves_bind _ _ _ _ _); [|intros ?]
         | |- preserves _ (ret _) => refine (preserves_ret _ _)
         | |- preserves _ (poll _ _ _) => refine (preserves_poll _ _ _ _ _)
         | |- preserves _ (if ?c then _ else _) => destruct c
         | |- preserves _ _ => solve [eauto with pres]
         end.

#[local] Instance live_kept_refl : Reflexive (@live_kept HW).
Proof. intros st. reflexivity. Qed.

#[local] Instance live_kept_trans : Transitive (@live_kept HW).
Proof. intros a b c H1 H2. unfold live_kept in *. congruence. Qed.

Lemma live_inb port : preserves live_kept (inb port).
Proof.
  intros st v st' E. apply inb_run in E. destruct E as (_ & _ & ->).
  reflexivity.
Qed.

Lemma live_outb port value : preserves live_kept (outb port value).
Proof. intros st v st' E. injection E as <- <-. reflexivity. Qed.

Lemma live_inw port : preserves live_kept (inw port).
Proof.
  intros st v st' E. apply inw_run in E. destruct E as (_ & h & ->).
  reflexivity.
Qed.

Lemma live_deref d : preserves (@live_kept HW) (deref d).
Proof. intros st v st' E. injection E as <- <-. reflexivity. Qed.

Lemma live_modify d f : preserves (@live_kept HW) (modify d f).
Proof. intros st v st' E. injection E as <- <-. reflexivity. Qed.

Lemma live_printf format args :
  preserves (@live_kept HW) (printf format args).
Proof. intros st v st' E. injection E as <- <-. reflexivity. Qed.

Lemma live_device_register dev :
  preserves (@live_kept HW) (device_register dev).
Proof.
  intros st r st' E. unfold device_register in E.
  destruct (existsb _ _); [injection E as <- <-; reflexivity|].
  destruct (_ <=? _)%nat; injection E as <- <-; reflexivity.
Qed.

#[local] Hint Resolve live_inb live_outb live_inw live_deref live_modify
  live_printf live_device_register : pres.

Lemma live_ata_wait n : preserves (@live_kept HW) (ata_wait n).
Proof. induction n as [|n IH]; cbn [ata_wait]; pres. Qed.

Lemma live_read_data d n : forall buffer i,
  preserves live_kept (read_data d buffer i n).
Proof.
  induction n as [|n IH]; intros buffer i; cbn [read_data];
    unfold ata_pio_read16; pres.
Qed.

#[local] Hint Resolve live_ata_wait live_read_data : pres.

Lemma live_ata_cmd_identify fuel d buffer :
  preserves live_kept (ata_cmd_identify fuel d buffer).
Proof.
  unfold ata_cmd_identify, ata_select_drive, ata_device_is_packet,
    ata_wait_bsy_clear, ata_wait_drq_set, ata_read_status.
  pres.
Qed.

Lemma live_ata_device_is_packet d :
  preserves (@live_kept HW) (ata_device_is_packet d).
Proof. unfold ata_device_is_packet. pres. Qed.

#[local] Hint Resolve live_ata_cmd_identify live_ata_device_is_packet : pres.

Lemma live_ata_detect fuel b c s p garbage :
  preserves live_kept (ata_detect fuel b c s p garbage).
Proof.
  unfold ata_detect, ata_software_reset, ata_wait_bsy_clear, ata_read_status.
  pres.
Qed.

Lemma live_maybe_register (r : Z) name p :
  preserves (@live_kept HW)
    (if nonzero r then ata_register_device name p else ret tt).
Proof. unfold ata_register_device. pres. Qed.

Lemma io_ata_wait n : preserves (@io_effect HW) (ata_wait n).
Proof. induction n as [|n IH]; cbn [ata_wait]; pres. Qed.

#[local] Hint Resolve io_ata_wait : pres.

Lemma io_ata_device_is_packet d :
  preserves (@io_effect HW) (ata_device_is_packet d).
Proof. unfold ata_device_is_packet. pres. Qed.

Lemma io_ata_read_status d : preserves io_effect (ata_read_status d).
Proof. unfold ata_read_status. pres. Qed.

#[local] Hint Resolve io_ata_device_is_packet io_ata_read_status : pres.

Lemma io_ata_wait_bsy_clear fuel d :
  preserves io_effect (ata_wait_bsy_clear fuel d).
Proof. unfold ata_wait_bsy_clear. pres. Qed.

Lemma io_ata_wait_drq_set fuel d :
  preserves io_effect (ata_wait_drq_set fuel d).
Proof. unfold ata_wait_drq_set. pres. Qed.

Lemma io_ata_software_reset d : preserves io_effect (ata_software_reset d).
Proof. unfold ata_software_reset. pres. Qed.

Lemma io_ata_select_drive d : preserves io_effect (ata_select_drive d).
Proof. unfold ata_select_drive. pres. Qed.

Lemma io_ata_pio_read16 d : preserves io_effect (ata_pio_read16 d).
Proof. unfold ata_pio_read16. pres. Qed.

#[local] Hint Resolve io_ata_wait_bsy_clear io_ata_wait_drq_set
  io_ata_software_reset io_ata_select_drive io_ata_pio_read16 : pres.

Lemma io_read_data d n : forall buffer i,
  preserves io_effect (read_data d buffer i n).
Proof. induction n as [|n IH]; intros buffer i; cbn [read_data]; pres. Qed.

#[local] Hint Resolve io_read_data : pres.

Lemma soft_ata_cmd_identify fuel d buffer :
  preserves soft_kept (ata_cmd_identify fuel d buffer).
Proof. unfold ata_cmd_identify. pres. Qed.

#[local] Hint Resolve soft_ata_cmd_identify : pres.

(** ata_detect sets the three port fields of the object it is given, may set
    its [type], and touches nothing else but the ports and the console. *)
Lemma ata_detect_run fuel b c s p garbage st r st' :
  ata_detect fuel b c s p garbage st = Some (r, st') ->
  mem st' = mem st /\ registry st' = registry st /\
  (forall q, q <> p -> heap st' q = heap st q) /\
  base_port (heap st' p) = b /\
  control_port (heap st' p) = c /\
  slave_bit (heap st' p) = s /\
  pos (heap st' p) = pos (heap st p).
Proof.
  unfold ata_detect. intros E.
  bind_inv E. injection E0 as <- <-.
  bind_inv E. injection E0 as <- <-.
  bind_inv E. injection E0 as <- <-.
  match type of E with
  | ?m ?st3 = Some _ =>
      assert (Hp : preserves (retyped p) m) by pres
  end.
  apply Hp in E. destruct E as (H1 & H2 & H3 & H4 & H5 & H6 & H7).
  cbn [hw io_log mem heap live registry console] in *.
  rewrite !Z.eqb_refl in *. cbn in H4, H5, H6, H7.
  repeat split; try assumption.
  intros q Hq. rewrite (H3 q Hq).
  destruct (Z.eqb_spec q p); [contradiction | reflexivity].
Qed.

Lemma registered_ata_detect fuel b c s p garbage :
  preserves (registered_on p) (ata_detect fuel b c s p garbage).
Proof.
  intros st r st' E. apply ata_detect_run in E.
  destruct E as (H1 & H2 & H3 & _).
  split; [assumption|]. split; [assumption|].
  exists []. split; [rewrite app_nil_r; assumption | constructor].
Qed.

Lemma registered_device_register p dev :
  d_p dev = p -> preserves (@registered_on HW p) (device_register dev).
Proof.
  intros Hp st r st' E. unfold device_register in E.
  destruct (existsb _ _); [injection E as <- <-; reflexivity|].
  destruct (_ <=? _)%nat; [injection E as <- <-; reflexivity|].
  injection E as <- <-. split; [reflexivity|]. split; [reflexivity|].
  exists [dev]. split; [reflexivity|]. constructor; [assumption | constructor].
Qed.

Lemma registered_ata_register_device name p :
  preserves (@registered_on HW p) (ata_register_device name p).
Proof.
  unfold ata_register_device.
  refine (preserves_bind _ _ _ _ _); [pres | intros _].
  refine (preserves_bind _ _ _ _ _); [| intros _].
  - apply registered_device_register. reflexivity.
  - refine (preserves_ret _ _).
Qed.

#[local] Hint Resolve registered_ata_detect registered_ata_register_device
  : pres.

Lemma registered_ata_install fuel p garbage :
  preserves (registered_on p) (ata_install fuel p garbage).
Proof. unfold ata_install. pres. Qed.

(** *** Polling loops that never end *)

Lemma poll_never port again fuel : forall st,
  (forall k, again (nth_status port k (hw st)) = true) ->
  poll (inb port) again fuel st = None.
Proof.
  induction fuel as [|fuel IH]; intros st Hk; [reflexivity|].
  cbn [poll]. unfold bind.
  destruct (inb port st) as [[v st1]|] eqn:E; [|reflexivity].
  apply inb_run in E. destruct E as (_ & -> & ->).
  pose proof (Hk O) as H0. unfold nth_status in H0. cbn [hw_after_reads] in H0.
  rewrite H0. apply IH. intros k. apply (Hk (S k)).
Qed.

(** A loop returns exactly when the awaited condition shows up in the
    sequence of status bytes, and then every larger bound gives the same
    result. *)
Lemma poll_returns port again : forall k st,
  again (nth_status port k (hw st)) = false ->
  exists r, poll (inb port) again (S k) st = Some r.
Proof.
  induction k as [|k IH]; intros st Hk;
    destruct (inb_total port st) as (v & st1 & E).
  - cbn [poll]. rewrite (bind_step _ _ _ _ _ E).
    apply inb_run in E. destruct E as (_ & Hv & _).
    unfold nth_status in Hk. cbn [hw_after_reads] in Hk.
    rewrite <- Hv in Hk. rewrite Hk. eexists. reflexivity.
  - change (poll (inb port) again (S (S k)) st)
      with (bind (inb port)
                 (fun status => if again status
                                then poll (inb port) again (S k)
                                else ret status) st).
    rewrite (bind_step _ _ _ _ _ E).
    destruct (again v); [|eexists; reflexivity].
    apply IH. apply inb_run in E. destruct E as (_ & _ & ->).
    exact Hk.
Qed.

Lemma poll_returned port again : forall fuel st r,
  poll (inb port) again fuel st = Some r ->
  exists k, (k < fuel)%nat /\ again (nth_status port k (hw st)) = false.
Proof.
  induction fuel as [|fuel IH]; intros st r E; [discriminate|].
  cbn [poll] in E. bind_inv E. apply inb_run in E0.
  destruct E0 as (_ & Hv & ->).
  destruct (again a) eqn:Ha.
  - apply IH in E. destruct E as (k & Hk & Hagain).
    exists (S k). split; [lia | exact Hagain].
  - exists O. split; [lia|]. unfold nth_status. cbn [hw_after_reads].
    rewrite <- Hv. exact Ha.
Qed.

Lemma poll_mono read again : forall k k' st r,
  poll read again k st = Some r -> (k <= k')%nat ->
  poll read again k' st = Some r.
Proof.
  induction k as [|k IH]; intros k' st r E Hk; [discriminate|].
  destruct k' as [|k']; [lia|].
  cbn [poll] in *. unfold bind in *.
  destruct (read st) as [[v st1]|]; [|discriminate].
  destruct (again v); [|exact E].
  apply IH; [exact E | lia].
Qed.

Lemma poll_inb_value port again fuel : forall st s st',
  poll (inb port) again fuel st = Some (s, st') ->
  exists h, s = u8 (fst (hw_inb (u16 port) h)).
Proof.
  induction fuel as [|fuel IH]; intros st s st' E; [discriminate|].
  cbn [poll] in E. bind_inv E. apply inb_run in E0.
  destruct E0 as (_ & Hv & _).
  destruct (again a).
  - eapply IH. eassumption.
  - apply ret_run in E. destruct E as [-> _]. eexists. exact Hv.
Qed.

(** The polls of ata_read_status are polls of the status port of the channel
    the object names. *)
Lemma poll_read_status d again fuel : forall st,
  poll (ata_read_status d) again fuel st
  = poll (inb (base_port (heap st d) + ATA_COMMAND_PORT)) again fuel st.
Proof.
  induction fuel as [|fuel IH]; intros st; [reflexivity|].
  cbn [poll].
  assert (Hrs : ata_read_status d st
                = inb (base_port (heap st d) + ATA_COMMAND_PORT) st)
    by reflexivity.
  unfold bind. rewrite Hrs.
  destruct (inb (base_port (heap st d) + ATA_COMMAND_PORT) st)
    as [[v st1]|] eqn:E; [|reflexivity].
  destruct (again v); [|reflexivity].
  apply inb_run in E. destruct E as (_ & _ & ->).
  rewrite IH. reflexivity.
Qed.

Lemma poll_stuck b s again fuel st :
  status_stuck b s -> again s = true ->
  poll (inb (b + ATA_COMMAND_PORT)) again fuel st = None.
Proof.
  intros Hs Ha. apply poll_never. intros k.
  unfold nth_status. rewrite Hs. exact Ha.
Qed.

Lemma poll_stuck_value b s again fuel st v st' :
  status_stuck b s ->
  poll (inb (b + ATA_COMMAND_PORT)) again fuel st = Some (v, st') ->
  v = s /\ again s = false.
Proof.
  intros Hs E. destruct (poll_inb_value _ _ _ _ _ _ E) as (h & ->).
  rewrite Hs. split; [reflexivity|].
  apply poll_inb_run in E. destruct E as (Ha & _). rewrite Hs in Ha. exact Ha.
Qed.

Lemma poll_first_read b s again fuel st :
  status_stuck b s -> again s = false ->
  exists st1,
    poll (inb (b + ATA_COMMAND_PORT)) again (S fuel) st = Some (s, st1).
Proof.
  intros Hs Ha. cbn [poll].
  destruct (inb_total (b + ATA_COMMAND_PORT) st) as (v & st1 & E).
  rewrite (bind_step _ _ _ _ _ E).
  apply inb_run in E. destruct E as (_ & Hv & _). rewrite Hs in Hv. subst v.
  rewrite Ha. exists st1. reflexivity.
Qed.

Lemma not_some_none {A} (o : option A) : (forall a, o <> Some a) -> o = None.
Proof. destruct o as [a|]; [intros H; destruct (H a eq_refl) | reflexivity]. Qed.

Lemma ata_wait_bsy_clear_stuck b s fuel d st :
  status_stuck b s -> base_port (heap st d) = b ->
  nonzero (ATA_ISBSY s) = true ->
  ata_wait_bsy_clear fuel d st = None.
Proof.
  intros Hs Hb Hbsy. unfold ata_wait_bsy_clear.
  rewrite poll_read_status, Hb. eapply poll_stuck; eassumption.
Qed.

Lemma ata_wait_drq_set_stuck b s fuel d st :
  status_stuck b s -> base_port (heap st d) = b ->
  nonzero (ATA_ISDRQ s) = false -> nonzero (ATA_ISERR s) = false ->
  ata_wait_drq_set fuel d st = None.
Proof.
  intros Hs Hb Hdrq Herr. unfold ata_wait_drq_set.
  rewrite poll_read_status, Hb. eapply poll_stuck; [eassumption|].
  cbv beta. rewrite Hdrq, Herr. reflexivity.
Qed.

Lemma ata_detect_stuck b s fuel c sl p garbage st :
  status_stuck b s -> nonzero (ATA_ISBSY s) = true ->
  ata_detect fuel b c sl p garbage st = None.
Proof.
  intros Hs Hbsy. apply not_some_none. intros [r st'] E.
  unfold ata_detect in E.
  bind_inv E. injection E0 as <- <-.
  bind_inv E. injection E0 as <- <-.
  bind_inv E. injection E0 as <- <-.
  bind_inv E. apply io_ata_software_reset in E0.
  destruct E0 as (_ & Hh & _).
  bind_inv E.
  rewrite (ata_wait_bsy_clear_stuck b s) in E0; try assumption;
    [discriminate|].
  rewrite Hh. cbn [heap]. rewrite !Z.eqb_refl. reflexivity.
Qed.

(** ata_cmd_identify up to its first wait. *)
Lemma ata_cmd_identify_reaches_wait fuel d buffer st r st' :
  ata_cmd_identify fuel d buffer st = Some (r, st') ->
  exists st1 status st2,
    heap st1 = heap st /\
    ata_wait_bsy_clear fuel d st1 = Some (status, st2).
Proof.
  unfold ata_cmd_identify. intros E.
  bind_inv E. apply io_ata_select_drive in E0. destruct E0 as (_ & H1 & _).
  bind_inv E. injection E0 as <- <-.
  bind_inv E. injection E0 as <- <-.
  bind_inv E. injection E0 as <- <-.
  bind_inv E. injection E0 as <- <-.
  bind_inv E. injection E0 as <- <-.
  bind_inv E. injection E0 as <- <-.
  apply bind_some in E. destruct E as (u & st4 & E0 & E).
  match type of E0 with
  | (if ?c then _ else _) ?st3 = _ =>
      assert (H3 : heap st4 = heap st3)
        by (destruct c; injection E0 as <- <-; reflexivity)
  end.
  apply bind_some in E. destruct E as (status & st5 & E1 & E).
  exists st4, status, st5. split; [|exact E1].
  rewrite H3. cbn [heap]. exact H1.
Qed.

Lemma ata_cmd_identify_stuck b s fuel d buffer st :
  status_stuck b s -> base_port (heap st d) = b ->
  nonzero (ATA_ISBSY s) = true ->
  ata_cmd_identify fuel d buffer st = None.
Proof.
  intros Hs Hb Hbsy. apply not_some_none. intros [r st'] E.
  apply ata_cmd_identify_reaches_wait in E.
  destruct E as (st1 & status & st2 & Hh & E).
  rewrite (ata_wait_bsy_clear_stuck b s) in E; try assumption;
    [discriminate|].
  rewrite Hh. exact Hb.
Qed.

Lemma land_sub_mask s : Z.land s 0x8 <> 0 -> Z.land s 0x88 <> 0.
Proof.
  intros H8 H88. apply H8.
  change 0x8 with (Z.land 0x88 0x8). rewrite Z.land_assoc, H88.
  reflexivity.
Qed.

(** With the status register stuck, atapi_read_block returns only if the
    stuck value shows "not busy" and "error". *)
Lemma atapi_read_block_stuck b s fuel dev lba buffer maxlen st :
  status_stuck b s -> base_port (heap st dev) = b ->
  nonzero (Z.land s 0x80) || negb (nonzero (Z.land s 0x1)) = true ->
  atapi_read_block fuel dev lba buffer maxlen st = None.
Proof.
  intros Hs Hb Hbits. apply not_some_none. intros [r st'] E.
  unfold atapi_read_block in E.
  bind_inv E. injection E0 as <- <-. rewrite Hb in E.
  bind_inv E. clear E0.
  bind_inv E. clear E0.
  bind_inv E. clear E0.
  bind_inv E. clear E0.
  bind_inv E. clear E0.
  bind_inv E. clear E0.
  apply bind_some in E. destruct E as (v1 & t1 & E0 & E).
  apply (poll_stuck_value b s) in E0; [|assumption].
  destruct E0 as [-> Hb1]. cbv beta in Hb1.
  rewrite Hb1 in Hbits. cbn [orb] in Hbits.
  apply bind_some in E. destruct E as (v2 & t2 & E0 & E).
  apply (poll_stuck_value b s) in E0; [|assumption].
  destruct E0 as [-> Hb2]. cbv beta in Hb2, E.
  destruct (nonzero (Z.land s 1)) eqn:Herr; [discriminate|].
  rewrite andb_true_r in Hb2. apply negb_false_iff in Hb2.
  bind_inv E. clear E0.
  bind_inv E. clear E0.
  bind_inv E. clear E0.
  bind_inv E. clear E0.
  apply bind_some in E. destruct E as (v3 & t3 & E0 & E).
  apply (poll_stuck_value b s) in E0; [|assumption].
  destruct E0 as [_ Hb3]. cbv beta in Hb3.
  unfold nonzero in Hb2, Hb3.
  destruct (Z.eqb_spec (Z.land s 8) 0); [discriminate|].
  destruct (Z.eqb_spec (Z.land s 136) 0); [|discriminate].
  apply (land_sub_mask s); assumption.
Qed.

(** *** The data words of a transfer *)

Lemma words_read_app evs evs' :
  words_read (evs ++ evs') = words_read evs ++ words_read evs'.
Proof.
  induction evs as [|e evs IH]; [reflexivity|].
  destruct e; simpl; rewrite IH; reflexivity.
Qed.

Lemma words_read_in8 port l : words_read (map (In8 port) l) = [].
Proof. induction l as [|x l IH]; [reflexivity | exact IH]. Qed.

Lemma words_read_out16 (f : Z -> Z) port l :
  words_read (map (fun w => Out16 port (f w)) l) = [].
Proof. induction l as [|x l IH]; [reflexivity | exact IH]. Qed.

Lemma words_read_in16 port ws : words_read (map (In16 port) ws) = ws.
Proof.
  induction ws as [|w ws IH]; [reflexivity|]. simpl. rewrite IH. reflexivity.
Qed.

Lemma words_read_atapi_trace b slave lba maxlen waits ss1 ss2 hi mid ws ss3 :
  words_read (atapi_trace b slave lba maxlen waits ss1 ss2 hi mid ws ss3) = ws.
Proof.
  unfold atapi_trace.
  rewrite !words_read_app, !words_read_in8, words_read_in16,
    (words_read_out16 u16).
  cbn [words_read app]. apply app_nil_r.
Qed.

(** *** ata_read over atapi_read_block *)

Lemma ata_read_run fuel dev size out st res cap st' :
  ata_read fuel dev size out st = Some ((res, cap), st') ->
  res = OK /\
  exists r,
    atapi_read_block fuel (d_p dev) (pos (heap st (d_p dev))) out size st
    = Some (r, st') /\
    cap = u32 r.
Proof.
  unfold ata_read, ATA_DEV. intros E.
  bind_inv E. injection E0 as <- <-.
  apply bind_some in E. destruct E as (r & st1 & E0 & E).
  apply ret_run in E. destruct E as [E ->]. injection E as -> ->.
  split; [reflexivity|]. exists r. split; [exact E0 | reflexivity].
Qed.

Lemma u32_small z : 0 <= z < 65536 -> u32 z = z.
Proof. intros Hz. unfold u32. apply Z.mod_small. simpl. lia. Qed.

(** The successful reads: the capacity that comes out is the size the
    drive reported, and that size alone decides what is stored. *)
Lemma ata_read_success fuel dev size out st res cap st' :
  ata_read fuel dev size out st = Some ((res, cap), st') ->
  cap <> u32 (-1) ->
  exists waits ss1 ss2 hi mid ws ss3 h',
    0 <= hi < 256 /\ 0 <= mid < 256 /\ cap = 256 * hi + mid /\
    List.length ws = Z.to_nat (cap / 2) /\
    st' = mk_state h'
            (io_log st
               ++ atapi_trace (base_port (heap st (d_p dev)))
                              (slave_bit (heap st (d_p dev)))
                              (pos (heap st (d_p dev))) size
                              waits ss1 ss2 hi mid ws ss3)
            (write_words out ws (mem st))
            (heap st) (live st) (registry st) (console st).
Proof.
  intros E Hcap. apply ata_read_run in E. destruct E as (_ & r & E & ->).
  apply atapi_read_block_run in E.
  destruct E as [[-> _] | (waits & ss1 & ss2 & hi & mid & ws & ss3 & h'
                            & Hhi & Hmid & -> & Hlen & ->)];
    [contradiction Hcap; reflexivity|].
  exists waits, ss1, ss2, hi, mid, ws, ss3, h'.
  rewrite u32_small by lia. repeat split; try assumption; lia.
Qed.

(** *** Results do not depend on the bound *)

Lemma mono_const {A} (m : @M HW A) : mono (fun _ => m).
Proof. intros k k' st r E _. exact E. Qed.

Lemma mono_bind {A B} (f : nat -> @M HW A) (g : A -> nat -> M B) :
  mono f -> (forall a, mono (g a)) ->
  mono (fun k => bind (f k) (fun a => g a k)).
Proof.
  intros Hf Hg k k' st r E Hk. unfold bind in *.
  destruct (f k st) as [[a st1]|] eqn:Ef; [|discriminate].
  rewrite (Hf _ _ _ _ Ef Hk). eapply Hg; eassumption.
Qed.

Lemma mono_if {A} (c : bool) (f g : nat -> @M HW A) :
  mono f -> mono g -> mono (fun k => if c then f k else g k).
Proof. intros Hf Hg. destruct c; assumption. Qed.

Lemma mono_poll (read : @M HW Z) again : mono (fun k => poll read again k).
Proof. intros k k' st r. apply poll_mono. Qed.

Ltac mono :=
  repeat match goal with
         | |- mono (fun _ => ?m) => apply mono_const
         | |- mono (fun k => bind _ _) => apply mono_bind; [|intros ?]
         | |- mono (fun k => poll _ _ k) => apply mono_poll
         | |- mono (poll _ _) => apply mono_poll
         | |- mono (fun k => if ?c then _ else _) => apply mono_if
         | |- mono _ => assumption
         end.

Lemma atapi_read_block_mono dev lba buffer maxlen :
  mono (fun fuel => atapi_read_block fuel dev lba buffer maxlen).
Proof. unfold atapi_read_block. mono. Qed.

Lemma ata_read_mono dev size out :
  mono (fun fuel => ata_read fuel dev size out).
Proof.
  unfold ata_read. cbv zeta.
  pose proof atapi_read_block_mono as H.
  apply mono_bind; [apply mono_const | intros d].
  apply mono_bind; [apply H | intros r; apply mono_const].
Qed.

Lemma ata_cmd_identify_mono d buffer :
  mono (fun fuel => ata_cmd_identify fuel d buffer).
Proof. unfold ata_cmd_identify, ata_wait_bsy_clear, ata_wait_drq_set. mono. Qed.

Lemma ata_detect_mono b c sl p garbage :
  mono (fun fuel => ata_detect fuel b c sl p garbage).
Proof.
  unfold ata_detect, ata_wait_bsy_clear.
  pose proof ata_cmd_identify_mono as H.
  repeat first
    [ apply mono_const
    | apply H
    | apply mono_poll
    | apply mono_bind; [|intros ?] ].
Qed.

(** ** The claims *)

(** C1, amended.  A read that meets no protocol error (the capacity that
    comes out is not the 0xFFFFFFFF of a failed transfer) sets the capacity
    to exactly the size [256 * hi + mid] the drive reported on the LBA-high
    and LBA-mid ports, reads [cap / 2] words from the data port and stores
    them at the start of the buffer: the bytes stored are decided by the
    reported size, at most 65534 of them, and nothing outside the first
    [2 * (cap / 2)] bytes of the buffer is written.  The capacity that went
    in is only sent to the drive as the byte-count limit; the stored bytes
    stay within it when the drive reports no more than it. *)
Theorem read_stores_reported_size fuel dev size out st res cap st' :
  ata_read fuel dev size out st = Some ((res, cap), st') ->
  cap <> u32 (-1) ->
  exists waits ss1 ss2 hi mid ws ss3,
    io_log st'
    = io_log st ++ atapi_trace (base_port (heap st (d_p dev)))
                               (slave_bit (heap st (d_p dev)))
                               (pos (heap st (d_p dev))) size
                               waits ss1 ss2 hi mid ws ss3 /\
    cap = 256 * hi + mid /\ 0 <= cap <= 65535 /\
    Z.of_nat (List.length ws) = cap / 2 /\
    mem st' = write_words out ws (mem st) /\
    (forall a, a < out \/ out + 2 * (cap / 2) <= a -> mem st' a = mem st a) /\
    (cap <= size ->
     forall a, a < out \/ out + size <= a -> mem st' a = mem st a).
Proof.
  intros E Hcap.
  destruct (ata_read_success _ _ _ _ _ _ _ _ E Hcap)
    as (waits & ss1 & ss2 & hi & mid & ws & ss3 & h'
        & Hhi & Hmid & Hc & Hlen & ->).
  exists waits, ss1, ss2, hi, mid, ws, ss3.
  assert (Hcap0 : 0 <= cap <= 65535) by lia.
  assert (Hhalf : 0 <= cap / 2) by (apply Z.div_pos; lia).
  assert (Hn : Z.of_nat (List.length ws) = cap / 2)
    by (rewrite Hlen, Z2Nat.id; [reflexivity | assumption]).
  cbn [io_log mem].
  split; [reflexivity|]. split; [assumption|]. split; [assumption|].
  split; [assumption|]. split; [reflexivity|]. split.
  - intros a Ha. apply write_words_outside. rewrite Hn. exact Ha.
  - intros Hle a Ha. apply write_words_outside. rewrite Hn.
    pose proof (Z.mul_div_le cap 2). lia.
Qed.

(** C6.  With the status register of the channel stuck at [s], no bound on
    the number of polls lets the loops return.  Stuck busy: the busy-clear
    waits of ata_detect and ata_cmd_identify and the busy poll of
    atapi_read_block never end, and each of the three operations stalls.
    Stuck not busy with neither data request nor error: the busy poll
    returns at its first read and the wait for data request or error never
    ends, in ata_wait_drq_set and in atapi_read_block.  Stuck not busy with
    data request and no error: the first two polls of atapi_read_block return
    at their first read and atapi_read_block never returns, its completion
    poll waiting for a data-request bit that stays set. *)
Theorem polling_loops_unbounded (b s : Z) :
  status_stuck b s ->
  (nonzero (ATA_ISBSY s) = true ->
   forall fuel c sl p garbage st,
     ata_detect fuel b c sl p garbage st = None /\
     (base_port (heap st p) = b ->
      ata_wait_bsy_clear fuel p st = None /\
      ata_cmd_identify fuel p garbage st = None /\
      forall lba buffer maxlen,
        atapi_read_block fuel p lba buffer maxlen st = None)) /\
  (nonzero (ATA_ISBSY s) = false ->
   nonzero (ATA_ISDRQ s) = false -> nonzero (ATA_ISERR s) = false ->
   forall fuel p st,
     base_port (heap st p) = b ->
     (exists st1,
        poll (inb (b + ATA_COMMAND_PORT))
             (fun status => nonzero (Z.land status 0x80)) (S fuel) st
        = Some (s, st1)) /\
     ata_wait_drq_set fuel p st = None /\
     forall lba buffer maxlen,
       atapi_read_block fuel p lba buffer maxlen st = None) /\
  (nonzero (ATA_ISBSY s) = false ->
   nonzero (ATA_ISDRQ s) = true -> nonzero (ATA_ISERR s) = false ->
   forall fuel p st,
     base_port (heap st p) = b ->
     (exists st1,
        poll (inb (b + ATA_COMMAND_PORT))
             (fun status => nonzero (Z.land status 0x80)) (S fuel) st
        = Some (s, st1)) /\
     (exists st1,
        poll (inb (b + ATA_COMMAND_PORT))
             (fun status => negb (nonzero (Z.land status 0x8))
                            && negb (nonzero (Z.land status 0x1)))
             (S fuel) st
        = Some (s, st1)) /\
     forall lba buffer maxlen,
       atapi_read_block fuel p lba buffer maxlen st = None).
Proof.
  intros Hs. split; [|split].
  - intros Hbsy fuel c sl p garbage st. split.
    + eapply ata_detect_stuck; eassumption.
    + intros Hb. split; [eapply ata_wait_bsy_clear_stuck; eassumption|].
      split; [eapply ata_cmd_identify_stuck; eassumption|].
      intros lba buffer maxlen.
      eapply atapi_read_block_stuck; try eassumption.
      change (Z.land s 128) with (ATA_ISBSY s). rewrite Hbsy. reflexivity.
  - intros Hbsy Hdrq Herr fuel p st Hb. split; [|split].
    + apply poll_first_read; assumption.
    + eapply ata_wait_drq_set_stuck; eassumption.
    + intros lba buffer maxlen.
      eapply atapi_read_block_stuck; try eassumption.
      change (Z.land s 1) with (ATA_ISERR s). rewrite Herr.
      apply orb_true_r.
  - intros Hbsy Hdrq Herr fuel p st Hb. split; [|split].
    + apply poll_first_read; assumption.
    + apply poll_first_read; [assumption|].
      change (Z.land s 8) with (ATA_ISDRQ s). rewrite Hdrq. reflexivity.
    + intros lba buffer maxlen.
      eapply atapi_read_block_stuck; try eassumption.
      change (Z.land s 1) with (ATA_ISERR s). rewrite Herr.
      apply orb_true_r.
Qed.

(** C7.  ata_seek returns OK for every device and every position, checking
    nothing; it changes the [pos] field of the backing object and nothing
    else, and the read that follows hands that position to
    atapi_read_block as the logical block address. *)
Theorem seek_then_read_uses_position (dev : device) (P : Z) st :
  exists st1,
    ata_seek dev P st = Some (OK, st1) /\
    pos (heap st1 (d_p dev)) = P /\
    hw st1 = hw st /\ io_log st1 = io_log st /\ mem st1 = mem st /\
    registry st1 = registry st /\
    forall fuel size out,
      ata_read fuel dev size out st1
      = bind (atapi_read_block fuel (d_p dev) P out size)
             (fun r => ret (OK, u32 r)) st1.
Proof.
  eexists. split; [reflexivity|].
  cbn [heap]. rewrite Z.eqb_refl.
  split; [reflexivity|]. repeat (split; [reflexivity|]).
  intros fuel size out. unfold ata_read, ATA_DEV.
  unfold bind at 1. unfold deref. cbn [heap].
  rewrite Z.eqb_refl. reflexivity.
Qed.

(** C10.  When atapi_read_block returns an odd size [n], the size the
    drive reported on the LBA-high and LBA-mid ports, it has read
    [(n - 1) / 2] words from the data port and stored them in the first
    [n - 1] bytes of the buffer; the byte at offset [n - 1] and everything
    after it are as before, and the count returned is one more than the
    bytes stored. *)
Theorem odd_size_loses_last_byte fuel dev lba buffer maxlen st n st' :
  atapi_read_block fuel dev lba buffer maxlen st = Some (n, st') ->
  0 <= n -> Z.odd n = true ->
  exists waits ss1 ss2 hi mid ws ss3,
    io_log st'
    = io_log st ++ atapi_trace (base_port (heap st dev))
                               (slave_bit (heap st dev)) lba maxlen
                               waits ss1 ss2 hi mid ws ss3 /\
    n = 256 * hi + mid /\
    words_read (atapi_trace (base_port (heap st dev))
                            (slave_bit (heap st dev)) lba maxlen
                            waits ss1 ss2 hi mid ws ss3) = ws /\
    Z.of_nat (List.length ws) = (n - 1) / 2 /\
    mem st' = write_words buffer ws (mem st) /\
    (forall a, a < buffer \/ buffer + (n - 1) <= a -> mem st' a = mem st a) /\
    n = 2 * Z.of_nat (List.length ws) + 1.
Proof.
  intros E Hn Hodd. apply atapi_read_block_run in E.
  destruct E as [[-> _] | (waits & ss1 & ss2 & hi & mid & ws & ss3 & h'
                            & Hhi & Hmid & Hr & Hlen & ->)]; [lia|].
  exists waits, ss1, ss2, hi, mid, ws, ss3.
  assert (Hmod : n mod 2 = 1) by (rewrite Zmod_odd, Hodd; reflexivity).
  pose proof (Z.div_mod n 2 ltac:(lia)) as Hdm.
  assert (Hhalf : (n - 1) / 2 = n / 2).
  { replace (n - 1) with (n / 2 * 2) by lia. apply Z.div_mul. lia. }
  assert (Hws : Z.of_nat (List.length ws) = n / 2).
  { rewrite Hlen, Z2Nat.id; [reflexivity|]. apply Z.div_pos; lia. }
  cbn [io_log mem].
  split; [reflexivity|]. split; [exact Hr|].
  split; [apply words_read_atapi_trace|].
  split; [rewrite Hhalf; exact Hws|]. split; [reflexivity|]. split.
  - intros a Ha. apply write_words_outside. rewrite Hws. lia.
  - rewrite Hws. lia.
Qed.

(** ** Further properties *)

(** *** The busy-wait loops, when they return *)

Lemma statuses_succ port n h :
  statuses port (S n) h
  = nth_status port O h :: statuses port n (snd (hw_inb (u16 port) h)).
Proof.
  unfold statuses. cbn [seq map]. f_equal.
  rewrite <- seq_shift, map_map. reflexivity.
Qed.

(** A loop returns the first status byte that ends it, after reading the
    bytes before it and nothing else. *)
Lemma poll_first port again : forall k fuel st,
  (forall j, (j < k)%nat -> again (nth_status port j (hw st)) = true) ->
  again (nth_status port k (hw st)) = false ->
  (k < fuel)%nat ->
  poll (inb port) again fuel st
  = Some (nth_status port k (hw st),
          mk_state (hw_after_reads port (S k) (hw st))
                   (io_log st
                      ++ map (In8 (u16 port)) (statuses port (S k) (hw st)))
                   (mem st) (heap st) (live st) (registry st) (console st)).
Proof.
  induction k as [|k IH]; intros fuel st Hbefore Hk Hfuel;
    (destruct fuel as [|fuel]; [lia|]);
    cbn [poll]; unfold bind;
    destruct (inb port st) as [[v st1]|] eqn:E;
    try (destruct (inb_total port st) as (v' & st1' & E'); congruence);
    apply inb_run in E; destruct E as (_ & Hv & ->); subst v.
  - change (nth_status port 0 (hw st))
      with (u8 (fst (hw_inb (u16 port) (hw st)))) in Hk.
    rewrite Hk. reflexivity.
  - pose proof (Hbefore O ltac:(lia)) as H0.
    change (nth_status port 0 (hw st))
      with (u8 (fst (hw_inb (u16 port) (hw st)))) in H0.
    rewrite H0.
    rewrite IH; cbn [hw]; try lia.
    + rewrite (statuses_succ port (S k) (hw st)).
      cbn [map io_log mem heap registry console].
      rewrite <- app_assoc. reflexivity.
    + intros j Hj. apply (Hbefore (S j)). lia.
    + exact Hk.
Qed.

(** X1.  ata_wait_bsy_clear returns the first status byte whose busy bit is
    clear: when the status port of the channel delivers [k] bytes with the
    bit set and then one with the bit clear, the call returns that byte
    (given room for [k + 1] polls), having read the status port [k + 1]
    times and done nothing else. *)
Theorem ata_wait_bsy_clear_first d k fuel st :
  (forall j, (j < k)%nat ->
     ATA_ISBSY (nth_status (base_port (heap st d) + ATA_COMMAND_PORT) j
                           (hw st)) <> 0) ->
  ATA_ISBSY (nth_status (base_port (heap st d) + ATA_COMMAND_PORT) k (hw st))
  = 0 ->
  (k < fuel)%nat ->
  ata_wait_bsy_clear fuel d st
  = Some (nth_status (base_port (heap st d) + ATA_COMMAND_PORT) k (hw st),
          mk_state
            (hw_after_reads (base_port (heap st d) + ATA_COMMAND_PORT) (S k)
                            (hw st))
            (io_log st
               ++ map (In8 (u16 (base_port (heap st d) + ATA_COMMAND_PORT)))
                      (statuses (base_port (heap st d) + ATA_COMMAND_PORT)
                                (S k) (hw st)))
            (mem st) (heap st) (live st) (registry st) (console st)).
Proof.
  intros Hbefore Hk Hfuel. unfold ata_wait_bsy_clear.
  rewrite poll_read_status. apply poll_first; [| |exact Hfuel].
  - intros j Hj. unfold nonzero.
    destruct (Z.eqb_spec (ATA_ISBSY (nth_status
                (base_port (heap st d) + ATA_COMMAND_PORT) j (hw st))) 0)
      as [H0|H0]; [destruct (Hbefore j Hj H0) | reflexivity].
  - unfold nonzero. rewrite Hk. reflexivity.
Qed.

(** X2.  ata_wait_drq_set returns the first status byte that has the
    data-request bit or the error bit set, after reading the bytes before
    it and doing nothing else. *)
Theorem ata_wait_drq_set_first d k fuel st :
  (forall j, (j < k)%nat ->
     ATA_ISDRQ (nth_status (base_port (heap st d) + ATA_COMMAND_PORT) j
                           (hw st)) = 0 /\
     ATA_ISERR (nth_status (base_port (heap st d) + ATA_COMMAND_PORT) j
                           (hw st)) = 0) ->
  (ATA_ISDRQ (nth_status (base_port (heap st d) + ATA_COMMAND_PORT) k (hw st))
   <> 0 \/
   ATA_ISERR (nth_status (base_port (heap st d) + ATA_COMMAND_PORT) k (hw st))
   <> 0) ->
  (k < fuel)%nat ->
  ata_wait_drq_set fuel d st
  = Some (nth_status (base_port (heap st d) + ATA_COMMAND_PORT) k (hw st),
          mk_state
            (hw_after_reads (base_port (heap st d) + ATA_COMMAND_PORT) (S k)
                            (hw st))
            (io_log st
               ++ map (In8 (u16 (base_port (heap st d) + ATA_COMMAND_PORT)))
                      (statuses (base_port (heap st d) + ATA_COMMAND_PORT)
                                (S k) (hw st)))
            (mem st) (heap st) (live st) (registry st) (console st)).
Proof.
  intros Hbefore Hk Hfuel. unfold ata_wait_drq_set.
  rewrite poll_read_status. apply poll_first; [| |exact Hfuel].
  - intros j Hj. destruct (Hbefore j Hj) as [-> ->]. reflexivity.
  - unfold nonzero.
    destruct Hk as [Hk|Hk].
    + destruct (Z.eqb_spec (ATA_ISDRQ (nth_status
                  (base_port (heap st d) + ATA_COMMAND_PORT) k (hw st))) 0);
        [contradiction | reflexivity].
    + destruct (Z.eqb_spec (ATA_ISERR (nth_status
                  (base_port (heap st d) + ATA_COMMAND_PORT) k (hw st))) 0);
        [contradiction | apply andb_false_r].
Qed.

(** *** The READ(12) packet *)

Lemma land_255 z : Z.land z 0xFF = z mod 256.
Proof. change 0xFF with (Z.ones 8). apply Z.land_ones. lia. Qed.

Lemma read_cmd_lba lba :
  be32 (Z.land (Z.shiftr lba 0x18) 0xFF) (Z.land (Z.shiftr lba 0x10) 0xFF)
       (Z.land (Z.shiftr lba 0x08) 0xFF) (Z.land (Z.shiftr lba 0x00) 0xFF)
  = u32 lba.
Proof.
  rewrite !land_255, !Z.shiftr_div_pow2 by lia.
  unfold be32, u32.
  change (2 ^ 0) with 1. rewrite Z.div_1_r.
  change (2 ^ 32) with (256 * (256 * (256 * 256))).
  change (2 ^ 24) with (256 * 256 * 256).
  change (2 ^ 16) with (256 * 256). change (2 ^ 8) with 256.
  rewrite <- !Z.div_div by lia.
  rewrite (Z.rem_mul_r lba 256 (256 * (256 * 256))) by lia.
  rewrite (Z.rem_mul_r (lba / 256) 256 (256 * 256)) by lia.
  rewrite (Z.rem_mul_r (lba / 256 / 256) 256 256) by lia.
  ring.
Qed.

Lemma word_of_bytes_split lo hi :
  0 <= lo < 256 -> 0 <= hi < 256 ->
  u16 (Z.lor lo (Z.shiftl hi 8)) mod 256 = lo /\
  u16 (Z.lor lo (Z.shiftl hi 8)) / 256 = hi.
Proof.
  intros Hlo Hhi. rewrite Z.lor_comm, size_of_bytes by assumption.
  unfold u16. change (2 ^ 16) with 65536.
  rewrite (Z.mod_small (256 * hi + lo) 65536) by lia.
  split.
  - rewrite Z.add_comm, Z.mul_comm, Z.mod_add by lia. apply Z.mod_small. lia.
  - rewrite Z.add_comm, Z.mul_comm, Z.div_add by lia.
    rewrite Z.div_small by lia. reflexivity.
Qed.

Lemma land_255_range z : 0 <= Z.land z 0xFF < 256.
Proof. rewrite land_255. apply Z.mod_pos_bound. lia. Qed.

(** The six words the packet goes out as are, byte for byte, the packet. *)
Lemma read_cmd_on_the_wire lba :
  bytes_of_words (map u16 (words_of_bytes (read_cmd lba))) = read_cmd lba.
Proof.
  unfold read_cmd. cbn [words_of_bytes map bytes_of_words flat_map app].
  pose proof (land_255_range (Z.shiftr lba 0x18)) as H2.
  pose proof (land_255_range (Z.shiftr lba 0x10)) as H3.
  pose proof (land_255_range (Z.shiftr lba 0x08)) as H4.
  pose proof (land_255_range (Z.shiftr lba 0x00)) as H5.
  destruct (word_of_bytes_split _ _ H2 H3) as [-> ->].
  destruct (word_of_bytes_split _ _ H4 H5) as [-> ->].
  reflexivity.
Qed.

Lemma words_written_app evs evs' :
  words_written (evs ++ evs') = words_written evs ++ words_written evs'.
Proof.
  induction evs as [|e evs IH]; [reflexivity|].
  destruct e; simpl; rewrite IH; reflexivity.
Qed.

Lemma words_written_in8 port l : words_written (map (In8 port) l) = [].
Proof. induction l as [|x l IH]; [reflexivity | exact IH]. Qed.

Lemma words_written_in16 port l : words_written (map (In16 port) l) = [].
Proof. induction l as [|x l IH]; [reflexivity | exact IH]. Qed.

Lemma words_written_out16 (f : Z -> Z) port l :
  words_written (map (fun w => Out16 port (f w)) l) = map f l.
Proof.
  induction l as [|x l IH]; [reflexivity|]. simpl. rewrite IH. reflexivity.
Qed.

Lemma words_written_atapi_trace b slave lba maxlen waits ss1 ss2 hi mid ws ss3 :
  words_written (atapi_trace b slave lba maxlen waits ss1 ss2 hi mid ws ss3)
  = map u16 (words_of_bytes (read_cmd lba)).
Proof.
  unfold atapi_trace.
  rewrite !words_written_app, !words_written_in8, words_written_in16,
    (words_written_out16 u16).
  cbn [words_written app]. apply app_nil_r.
Qed.

Lemma word_writes_app evs evs' :
  word_writes (evs ++ evs') = word_writes evs ++ word_writes evs'.
Proof.
  induction evs as [|e evs IH]; [reflexivity|].
  destruct e; simpl; rewrite IH; reflexivity.
Qed.

Lemma word_writes_in8 port l : word_writes (map (In8 port) l) = [].
Proof. induction l as [|x l IH]; [reflexivity | exact IH]. Qed.

Lemma word_writes_in16 port l : word_writes (map (In16 port) l) = [].
Proof. induction l as [|x l IH]; [reflexivity | exact IH]. Qed.

Lemma word_writes_out16 (f : Z -> Z) port l :
  word_writes (map (fun w => Out16 port (f w)) l)
  = map (fun w => (port, f w)) l.
Proof.
  induction l as [|x l IH]; [reflexivity|]. simpl. rewrite IH. reflexivity.
Qed.

Lemma word_writes_atapi_trace b slave lba maxlen waits ss1 ss2 hi mid ws ss3 :
  word_writes (atapi_trace b slave lba maxlen waits ss1 ss2 hi mid ws ss3)
  = map (fun w => (u16 b, u16 w)) (words_of_bytes (read_cmd lba)).
Proof.
  unfold atapi_trace.
  rewrite !word_writes_app, !word_writes_in8, word_writes_in16,
    (word_writes_out16 u16).
  cbn [word_writes app]. apply app_nil_r.
Qed.

(** X3.  A transfer that meets no protocol error has written six words to
    word ports, all six to the data port of its channel; as bytes they are
    a 12-byte packet with opcode 0xA8 at offset 0, the block address
    big-endian at offsets 2 to 5 (its low 32 bits), a transfer length of 1
    at offset 9, and zeros elsewhere. *)
Theorem read_packet_carries_lba fuel dev lba buffer maxlen st n st' :
  atapi_read_block fuel dev lba buffer maxlen st = Some (n, st') ->
  0 <= n ->
  exists new b2 b3 b4 b5,
    io_log st' = io_log st ++ new /\
    map fst (word_writes new)
    = repeat (u16 (base_port (heap st dev) + ATA_DATA_PORT)) 6 /\
    bytes_of_words (map snd (word_writes new))
    = [0xA8; 0; b2; b3; b4; b5; 0; 0; 0; 1; 0; 0] /\
    be32 b2 b3 b4 b5 = u32 lba.
Proof.
  intros E Hn. apply atapi_read_block_run in E.
  destruct E as [[-> _] | (waits & ss1 & ss2 & hi & mid & ws & ss3 & h'
                            & _ & _ & _ & _ & ->)]; [lia|].
  eexists. exists (Z.land (Z.shiftr lba 0x18) 0xFF),
    (Z.land (Z.shiftr lba 0x10) 0xFF), (Z.land (Z.shiftr lba 0x08) 0xFF),
    (Z.land (Z.shiftr lba 0x00) 0xFF).
  split; [reflexivity|]. rewrite word_writes_atapi_trace, !map_map.
  cbn [fst snd]. split; [|split; [|apply read_cmd_lba]].
  - unfold ATA_DATA_PORT. rewrite Z.add_0_r. reflexivity.
  - apply read_cmd_on_the_wire.
Qed.


(** X4.  The data of a transfer is in the buffer in the order it came from
    the data port, low byte first: with [ws] the words read, byte [2 * i]
    of the buffer is the low byte of word [i] and byte [2 * i + 1] its high
    byte. *)
Theorem read_stores_words_low_byte_first fuel dev lba buffer maxlen st n st' :
  atapi_read_block fuel dev lba buffer maxlen st = Some (n, st') ->
  0 <= n ->
  exists new,
    io_log st' = io_log st ++ new /\
    Z.of_nat (List.length (words_read new)) = n / 2 /\
    forall i, (i < List.length (words_read new))%nat ->
      mem st' (buffer + 2 * Z.of_nat i) = u8 (nth i (words_read new) 0) /\
      mem st' (buffer + 2 * Z.of_nat i + 1)
      = u8 (Z.shiftr (nth i (words_read new) 0) 8).
Proof.
  intros E Hn. apply atapi_read_block_run in E.
  destruct E as [[-> _] | (waits & ss1 & ss2 & hi & mid & ws & ss3 & h'
                            & Hhi & Hmid & Hr & Hlen & ->)]; [lia|].
  eexists. split; [reflexivity|].
  rewrite words_read_atapi_trace. split.
  - rewrite Hlen, Z2Nat.id; [reflexivity|]. apply Z.div_pos; lia.
  - intros i Hi. cbn [mem]. apply write_words_inside. exact Hi.
Qed.

(** *** atapi_read_block when the drive raises the error bit *)

Lemma atapi_read_block_error_run fuel dev lba buffer maxlen st st' :
  atapi_read_block fuel dev lba buffer maxlen st = Some (-1, st') ->
  exists waits ss1 ss2 s h',
    List.length waits = 4%nat /\
    Z.land s 1 <> 0 /\
    st' = mk_state h'
            (io_log st
               ++ atapi_setup_trace (base_port (heap st dev))
                                    (slave_bit (heap st dev)) maxlen
                                    waits ss1 (ss2 ++ [s]))
            (mem st) (heap st) (live st) (registry st) (console st).
Proof.
  unfold atapi_read_block. intros E.
  bind_inv E. injection E0 as <- <-.
  set (b := base_port (heap st dev)) in *.
  bind_inv E. injection E0 as <- <-. proj_simpl E.
  bind_inv E. apply ata_wait_run in E0.
  destruct E0 as (h1 & waits & Hwaits & ->). proj_simpl E.
  bind_inv E. injection E0 as <- <-. proj_simpl E.
  bind_inv E. injection E0 as <- <-. proj_simpl E.
  bind_inv E. injection E0 as <- <-. proj_simpl E.
  bind_inv E. injection E0 as <- <-. proj_simpl E.
  apply bind_some in E. destruct E as (v1 & t1 & E0 & E).
  apply poll_inb_run in E0.
  destruct E0 as (_ & _ & h2 & ss1 & _ & ->). proj_simpl E.
  apply bind_some in E. destruct E as (v2 & t2 & E0 & E).
  apply poll_inb_run in E0.
  destruct E0 as (_ & _ & h3 & ss2 & _ & ->). proj_simpl E.
  destruct (nonzero (Z.land v2 1)) eqn:Herr.
  - apply ret_run in E. destruct E as [_ ->].
    exists waits, (ss1 ++ [v1]), ss2, v2, h3.
    split; [exact Hwaits|]. split.
    + unfold nonzero in Herr. destruct (Z.eqb_spec (Z.land v2 1) 0);
        [discriminate | assumption].
    + unfold atapi_setup_trace. rewrite <- !app_assoc. reflexivity.
  - exfalso. bind_inv E. clear E0.
    apply bind_some in E. destruct E as (hi & t4 & E0 & E).
    apply inb_run in E0. destruct E0 as (Hhi & _ & _).
    apply bind_some in E. destruct E as (mid & t5 & E0 & E).
    apply inb_run in E0. destruct E0 as (Hmid & _ & _).
    rewrite (size_of_bytes hi mid Hhi Hmid) in E.
    bind_inv E. clear E0. bind_inv E. clear E0.
    apply ret_run in E. destruct E as [E _]. lia.
Qed.

Lemma words_read_out8_cons port v evs :
  words_read (Out8 port v :: evs) = words_read evs.
Proof. reflexivity. Qed.

Lemma words_io_atapi_setup_trace b slave maxlen waits ss1 ss2 :
  words_read (atapi_setup_trace b slave maxlen waits ss1 ss2) = [] /\
  words_written (atapi_setup_trace b slave maxlen waits ss1 ss2) = [].
Proof.
  unfold atapi_setup_trace. split.
  - rewrite !words_read_app, !words_read_in8. reflexivity.
  - rewrite !words_written_app, !words_written_in8. reflexivity.
Qed.

(** The byte-count limit the two writes announce. *)
Lemma limit_bytes maxlen :
  u8 (Z.land maxlen 0xFF) + 256 * u8 (Z.shiftr maxlen 8) = maxlen mod 65536.
Proof.
  rewrite land_255, Z.shiftr_div_pow2 by lia. unfold u8.
  change (2 ^ 8) with 256. rewrite Z.mod_mod by lia.
  change 65536 with (256 * 256). rewrite Z.rem_mul_r by lia. reflexivity.
Qed.

(** X5.  Every call of atapi_read_block that returns has announced the
    capacity to the drive as a 16-bit byte-count limit, low byte on the
    LBA-mid port and high byte on the LBA-high port, right before the PACKET
    opcode 0xA0: the limit is the capacity modulo 65536, so a capacity of
    65536 is announced as 0. *)
Theorem read_announces_capacity_mod_65536 fuel dev lba buffer maxlen st r st' :
  atapi_read_block fuel dev lba buffer maxlen st = Some (r, st') ->
  exists pre lo hi post,
    io_log st'
    = io_log st ++ pre
        ++ [Out8 (u16 (base_port (heap st dev) + ATA_LBAMID_PORT)) lo;
            Out8 (u16 (base_port (heap st dev) + ATA_LBAHI_PORT)) hi;
            Out8 (u16 (base_port (heap st dev) + ATA_COMMAND_PORT)) 0xA0]
        ++ post /\
    0 <= lo < 256 /\ 0 <= hi < 256 /\
    lo + 256 * hi = maxlen mod 65536.
Proof.
  intros E. pose proof (atapi_read_block_run _ _ _ _ _ _ _ _ E) as Hrun.
  destruct Hrun as [[-> _] | (waits & ss1 & ss2 & hi & mid & ws & ss3 & h'
                              & _ & _ & _ & _ & ->)].
  - apply atapi_read_block_error_run in E.
    destruct E as (waits & ss1 & ss2 & s & h' & _ & _ & ->).
    exists ([Out8 (u16 (base_port (heap st dev) + ATA_DRIVE_PORT))
                  (u8 (slave_bit (heap st dev)))]
            ++ map (In8 (u16 0x3F6)) waits
            ++ [Out8 (u16 (base_port (heap st dev) + ATA_FEAT_PORT)) (u8 0)]),
      (u8 (Z.land maxlen 0xFF)), (u8 (Z.shiftr maxlen 8)).
    eexists. split; [|split; [apply u8_range|];
                      split; [apply u8_range | apply limit_bytes]].
    cbn [io_log]. unfold atapi_setup_trace.
    rewrite <- !app_assoc. reflexivity.
  - exists ([Out8 (u16 (base_port (heap st dev) + ATA_DRIVE_PORT))
                  (u8 (slave_bit (heap st dev)))]
            ++ map (In8 (u16 0x3F6)) waits
            ++ [Out8 (u16 (base_port (heap st dev) + ATA_FEAT_PORT)) (u8 0)]),
      (u8 (Z.land maxlen 0xFF)), (u8 (Z.shiftr maxlen 8)).
    eexists. split; [|split; [apply u8_range|];
                      split; [apply u8_range | apply limit_bytes]].
    cbn [io_log]. unfold atapi_trace.
    rewrite <- !app_assoc. reflexivity.
Qed.

(** X6.  When atapi_read_block returns -1, the last status byte it read
    had the error bit set, and the call has sent no packet, read no data
    word and left the RAM, the descriptors, the device table and the
    console as they were. *)
Theorem read_error_transfers_nothing fuel dev lba buffer maxlen st st' :
  atapi_read_block fuel dev lba buffer maxlen st = Some (-1, st') ->
  exists new s,
    io_log st'
    = io_log st ++ new
        ++ [In8 (u16 (base_port (heap st dev) + ATA_COMMAND_PORT)) s] /\
    Z.land s 1 <> 0 /\
    words_written new = [] /\ words_read new = [] /\
    mem st' = mem st /\ heap st' = heap st /\
    registry st' = registry st /\ console st' = console st.
Proof.
  intros E. apply atapi_read_block_error_run in E.
  destruct E as (waits & ss1 & ss2 & s & h' & _ & Hs & ->).
  exists (atapi_setup_trace (base_port (heap st dev))
                            (slave_bit (heap st dev)) maxlen waits ss1 ss2), s.
  split.
  - cbn [io_log]. unfold atapi_setup_trace.
    rewrite map_app. cbn [map]. rewrite <- !app_assoc. reflexivity.
  - split; [exact Hs|].
    destruct (words_io_atapi_setup_trace (base_port (heap st dev))
                (slave_bit (heap st dev)) maxlen waits ss1 ss2) as [Hr Hw].
    repeat split; assumption.
Qed.

(** X7.  ata_read returns OK whenever it returns.  The capacity that comes
    out is 0xFFFFFFFF exactly when the drive raised the error bit, and then
    the buffer is untouched; otherwise it is at most 65535.  The capacity
    is therefore the only way the caller can tell a failed read. *)
Theorem read_result_and_capacity fuel dev size out st res cap st' :
  ata_read fuel dev size out st = Some ((res, cap), st') ->
  res = OK /\
  ((cap = 4294967295 /\ mem st' = mem st /\
    atapi_read_block fuel (d_p dev) (pos (heap st (d_p dev))) out size st
    = Some (-1, st'))
   \/
   (0 <= cap <= 65535 /\
    atapi_read_block fuel (d_p dev) (pos (heap st (d_p dev))) out size st
    = Some (cap, st'))).
Proof.
  intros E. apply ata_read_run in E. destruct E as (-> & r & E & ->).
  split; [reflexivity|].
  pose proof (atapi_read_block_run _ _ _ _ _ _ _ _ E) as Hrun.
  destruct Hrun as [[-> (h' & evs & s & _ & ->)]
                   | (waits & ss1 & ss2 & hi & mid & ws & ss3 & h'
                      & Hhi & Hmid & Hr & _ & _)].
  - left. split; [reflexivity|]. split; [reflexivity | exact E].
  - right. rewrite u32_small by lia. split; [lia | exact E].
Qed.

(** X8.  With the status register stuck at [s], atapi_read_block returns
    exactly when [s] shows "not busy" and "error": it then returns -1 at
    any bound of at least one poll, leaving the buffer untouched; for every
    other [s] it never returns. *)
Theorem read_on_stuck_status b s dev lba buffer maxlen st :
  status_stuck b s -> base_port (heap st dev) = b ->
  (ATA_ISBSY s = 0 /\ ATA_ISERR s <> 0 ->
   forall fuel, exists st',
     atapi_read_block (S fuel) dev lba buffer maxlen st = Some (-1, st') /\
     mem st' = mem st) /\
  (~ (ATA_ISBSY s = 0 /\ ATA_ISERR s <> 0) ->
   forall fuel, atapi_read_block fuel dev lba buffer maxlen st = None).
Proof.
  intros Hs Hb. split.
  - intros [Hbsy Herr] fuel.
    assert (Hret : exists st',
      atapi_read_block (S fuel) dev lba buffer maxlen st = Some (-1, st')).
    { unfold atapi_read_block.
      erewrite bind_step by reflexivity. rewrite Hb.
      erewrite bind_step by reflexivity.
      match goal with
      | |- exists _, bind (ata_wait 4) _ ?s0 = _ =>
          destruct (ata_wait_total 4 s0) as (s1 & E1)
      end.
      rewrite (bind_step _ _ _ _ _ E1).
      erewrite bind_step by reflexivity.
      erewrite bind_step by reflexivity.
      erewrite bind_step by reflexivity.
      erewrite bind_step by reflexivity.
      match goal with
      | |- exists _, bind (poll _ ?again _) _ ?s0 = _ =>
          destruct (poll_first_read b s again fuel s0 Hs) as (s2 & E2)
      end.
      { cbv beta. change (Z.land s 128) with (ATA_ISBSY s).
        rewrite Hbsy. reflexivity. }
      rewrite (bind_step _ _ _ _ _ E2).
      match goal with
      | |- exists _, bind (poll _ ?again _) _ ?s0 = _ =>
          destruct (poll_first_read b s again fuel s0 Hs) as (s3 & E3)
      end.
      { cbv beta. unfold nonzero at 2.
        change (Z.land s 1) with (ATA_ISERR s).
        destruct (Z.eqb_spec (ATA_ISERR s) 0); [contradiction|].
        apply andb_false_r. }
      rewrite (bind_step _ _ _ _ _ E3).
      unfold nonzero. change (Z.land s 1) with (ATA_ISERR s).
      destruct (Z.eqb_spec (ATA_ISERR s) 0); [contradiction|].
      eexists. reflexivity. }
    destruct Hret as (st' & E). exists st'. split; [exact E|].
    apply atapi_read_block_error_run in E.
    destruct E as (waits & ss1 & ss2 & s0 & h' & _ & _ & ->). reflexivity.
  - intros Hnot fuel. eapply atapi_read_block_stuck; try eassumption.
    change (Z.land s 128) with (ATA_ISBSY s).
    change (Z.land s 1) with (ATA_ISERR s).
    unfold nonzero.
    destruct (Z.eqb_spec (ATA_ISBSY s) 0); [|reflexivity].
    destruct (Z.eqb_spec (ATA_ISERR s) 0); [reflexivity|].
    exfalso. apply Hnot. split; assumption.
Qed.

(** *** ata_cmd_identify, step by step *)

Lemma nonzero_land_bit w n :
  0 <= n -> nonzero (Z.land w (Z.shiftl 1 n)) = Z.testbit w n.
Proof.
  intros Hn. rewrite Z.shiftl_1_l. unfold nonzero.
  destruct (Z.testbit w n) eqn:T.
  - destruct (Z.eqb_spec (Z.land w (2 ^ n)) 0) as [H0|H0]; [|reflexivity].
    assert (Hb : Z.testbit (Z.land w (2 ^ n)) n = true)
      by (rewrite Z.land_spec, T, Z.pow2_bits_true by lia; reflexivity).
    rewrite H0, Z.bits_0 in Hb. discriminate.
  - destruct (Z.eqb_spec (Z.land w (2 ^ n)) 0) as [H0|H0]; [reflexivity|].
    exfalso. apply H0. apply Z.bits_inj'. intros m Hm.
    rewrite Z.land_spec, Z.bits_0, Z.pow2_bits_eqb by lia.
    destruct (Z.eqb_spec n m) as [->|]; [rewrite T|]; 
      [reflexivity | apply andb_false_r].
Qed.

Lemma nonzero_false z : nonzero z = false -> z = 0.
Proof.
  unfold nonzero. destruct (Z.eqb_spec z 0); [trivial | discriminate].
Qed.

Lemma nonzero_true z : nonzero z = true -> z <> 0.
Proof.
  unfold nonzero. destruct (Z.eqb_spec z 0); [discriminate | trivial].
Qed.

Lemma ata_select_drive_run d st u st' :
  ata_select_drive d st = Some (u, st') ->
  exists h' waits,
    List.length waits = 5%nat /\
    st' = mk_state h'
            (io_log st
               ++ [Out8 (u16 (base_port (heap st d) + ATA_DRIVE_PORT))
                        (u8 (Z.lor 0xA0 (slave_bit (heap st d))))]
               ++ map (In8 (u16 0x3F6)) waits)
            (mem st) (heap st) (live st) (registry st) (console st).
Proof.
  unfold ata_select_drive. intros E.
  bind_inv E. injection E0 as <- <-.
  bind_inv E. injection E0 as <- <-.
  apply ata_wait_run in E. destruct E as (h' & waits & Hlen & ->).
  exists h', waits. split; [exact Hlen|].
  cbn [io_log mem heap registry console]. rewrite <- app_assoc. reflexivity.
Qed.

Lemma ata_select_drive_total d st :
  exists st', ata_select_drive d st = Some (tt, st').
Proof.
  unfold ata_select_drive.
  erewrite bind_step by reflexivity. erewrite bind_step by reflexivity.
  apply ata_wait_total.
Qed.

Lemma poll_read_status_run d again fuel st s st' :
  poll (ata_read_status d) again fuel st = Some (s, st') ->
  again s = false /\ 0 <= s < 256 /\
  exists h' ss,
    Forall (fun x => again x = true) ss /\
    st' = mk_state h'
            (io_log st
               ++ map (In8 (u16 (base_port (heap st d) + ATA_COMMAND_PORT)))
                      (ss ++ [s]))
            (mem st) (heap st) (live st) (registry st) (console st).
Proof. rewrite poll_read_status. apply poll_inb_run. Qed.

Lemma read_data_run d : forall n buffer i st buf' st',
  read_data d buffer i n st = Some (buf', st') ->
  exists h' ws,
    List.length ws = n /\
    (forall j, buf' j = if ((i <=? j) && (j <? i + n))%nat
                        then nth (j - i) ws 0 else buffer j) /\
    st' = mk_state h'
            (io_log st
               ++ map (In16 (u16 (base_port (heap st d) + ATA_DATA_PORT))) ws)
            (mem st) (heap st) (live st) (registry st) (console st).
Proof.
  induction n as [|n IH]; intros buffer i st buf' st' E; cbn [read_data] in E.
  - apply ret_run in E. destruct E as [-> ->]. exists (hw st), [].
    split; [reflexivity|]. split.
    + intros j. destruct (i <=? j)%nat eqn:H1; [|reflexivity].
      destruct (Nat.ltb_spec j (i + 0)); [|reflexivity].
      apply Nat.leb_le in H1. lia.
    + cbn [map]. rewrite app_nil_r. destruct st; reflexivity.
  - apply bind_some in E. destruct E as (w & st1 & E0 & E).
    unfold ata_pio_read16 in E0. bind_inv E0. injection E1 as <- <-.
    apply inw_run in E0. destruct E0 as (_ & h1 & ->).
    apply IH in E. destruct E as (h' & ws & Hlen & Hbuf & ->).
    exists h', (w :: ws). split; [simpl; congruence|]. split.
    + intros j. rewrite Hbuf.
      destruct (Nat.leb_spec (S i) j), (Nat.ltb_spec j (S i + n)),
        (Nat.leb_spec i j), (Nat.ltb_spec j (i + S n)),
        (Nat.eqb_spec j i); cbn [andb]; try lia; try reflexivity.
      * replace (j - i)%nat with (S (j - S i)) by lia. reflexivity.
      * subst j. rewrite Nat.sub_diag. reflexivity.
    + cbn [io_log mem heap registry console map].
      rewrite <- app_assoc. reflexivity.
Qed.

(** The part of [identify_prefix] before the status bytes, and how status
    bytes add to it. *)
Lemma identify_prefix_nil dev waits :
  identify_prefix dev waits []
  = [Out8 (u16 (base_port dev + ATA_DRIVE_PORT))
          (u8 (Z.lor 0xA0 (slave_bit dev)))]
    ++ map (In8 (u16 0x3F6)) waits
    ++ [Out8 (u16 (base_port dev + ATA_SECTOR_COUNT_PORT)) (u8 0);
        Out8 (u16 (base_port dev + ATA_LBALO_PORT)) (u8 0);
        Out8 (u16 (base_port dev + ATA_LBAMID_PORT)) (u8 0);
        Out8 (u16 (base_port dev + ATA_LBAHI_PORT)) (u8 0);
        Out8 (u16 (base_port dev + ATA_COMMAND_PORT))
             (u8 (if is_packet_type (type dev)
                  then ATA_CMD_PACKET_IDENTIFY else ATA_CMD_IDENTIFY))].
Proof.
  unfold identify_prefix.
  replace (map (In8 (u16 (base_port dev + ATA_COMMAND_PORT))) [])
    with (@nil io_event) by reflexivity.
  rewrite app_nil_r. reflexivity.
Qed.

Lemma identify_prefix_app dev waits ss ss' :
  identify_prefix dev waits (ss ++ ss')
  = identify_prefix dev waits ss
      ++ map (In8 (u16 (base_port dev + ATA_COMMAND_PORT))) ss'.
Proof.
  unfold identify_prefix. rewrite map_app, <- !app_assoc. reflexivity.
Qed.

Lemma ata_cmd_identify_run fuel d buffer st ok buf' st' :
  ata_cmd_identify fuel d buffer st = Some ((ok, buf'), st') ->
  exists waits ss1 s1 h',
    List.length waits = 5%nat /\ ATA_ISBSY s1 = 0 /\
    ((s1 = 0 /\ ok = 0 /\ buf' = buffer /\
      st' = mk_state h'
              (io_log st ++ identify_prefix (heap st d) waits (ss1 ++ [s1]))
              (mem st) (heap st) (live st) (registry st) (console st))
     \/
     (s1 <> 0 /\ ATA_ISERR s1 <> 0 /\ ok = 0 /\ buf' = buffer /\
      st' = mk_state h'
              (io_log st ++ identify_prefix (heap st d) waits (ss1 ++ [s1]))
              (mem st) (heap st) (live st) (registry st)
              (console st
                 ++ [("[ATA] Error after sending IDENTIFY."%string,
                      [PInt s1])]))
     \/
     (exists mid hi,
        s1 <> 0 /\ ATA_ISERR s1 = 0 /\ (mid <> 0 \/ hi <> 0) /\
        ok = 0 /\ buf' = buffer /\
        st' = mk_state h'
                (io_log st
                   ++ identify_prefix (heap st d) waits (ss1 ++ [s1])
                   ++ [In8 (u16 (base_port (heap st d) + ATA_LBAMID_PORT)) mid;
                       In8 (u16 (base_port (heap st d) + ATA_LBAHI_PORT)) hi])
                (mem st) (heap st) (live st) (registry st)
                (console st ++ [("[ATA] No ATA device\n"%string, [])]))
     \/
     (exists ss2 s2,
        s1 <> 0 /\ ATA_ISERR s1 = 0 /\ ATA_ISERR s2 <> 0 /\
        ok = 0 /\ buf' = buffer /\
        st' = mk_state h'
                (io_log st
                   ++ identify_prefix (heap st d) waits (ss1 ++ [s1])
                   ++ [In8 (u16 (base_port (heap st d) + ATA_LBAMID_PORT)) 0;
                       In8 (u16 (base_port (heap st d) + ATA_LBAHI_PORT)) 0]
                   ++ map (In8 (u16 (base_port (heap st d)
                                     + ATA_COMMAND_PORT))) (ss2 ++ [s2]))
                (mem st) (heap st) (live st) (registry st)
                (console st ++ [("[ATA] Error\n"%string, [])]))
     \/
     (exists ss2 s2 ws,
        s1 <> 0 /\ ATA_ISERR s1 = 0 /\ ATA_ISERR s2 = 0 /\
        ATA_ISDRQ s2 <> 0 /\ List.length ws = 256%nat /\ ok = 1 /\
        (forall j, buf' j = if (j <? 256)%nat then nth j ws 0 else buffer j) /\
        st' = mk_state h'
                (io_log st
                   ++ identify_prefix (heap st d) waits (ss1 ++ [s1])
                   ++ [In8 (u16 (base_port (heap st d) + ATA_LBAMID_PORT)) 0;
                       In8 (u16 (base_port (heap st d) + ATA_LBAHI_PORT)) 0]
                   ++ map (In8 (u16 (base_port (heap st d)
                                     + ATA_COMMAND_PORT))) (ss2 ++ [s2])
                   ++ map (In16 (u16 (base_port (heap st d) + ATA_DATA_PORT)))
                          ws)
                (mem st) (heap st) (live st) (registry st) (console st))).
Proof.
  unfold ata_cmd_identify. intros E.
  bind_inv E. apply ata_select_drive_run in E0.
  destruct E0 as (h0 & waits & Hwaits & ->). proj_simpl E.
  bind_inv E. injection E0 as <- <-. proj_simpl E.
  set (dev := heap st d) in *.
  bind_inv E. injection E0 as <- <-. proj_simpl E.
  bind_inv E. injection E0 as <- <-. proj_simpl E.
  bind_inv E. injection E0 as <- <-. proj_simpl E.
  bind_inv E. injection E0 as <- <-. proj_simpl E.
  apply bind_some in E. destruct E as (packet & t1 & E0 & E).
  unfold ata_device_is_packet in E0. bind_inv E0. injection E1 as <- <-.
  apply ret_run in E0. destruct E0 as [-> ->]. proj_simpl E.
  fold dev in E. change (match type dev with
                         | ATA_TYPE_PATAPI | ATA_TYPE_SATAPI => true
                         | _ => false
                         end) with (is_packet_type (type dev)) in E.
  apply bind_some in E. destruct E as (u & t2 & E0 & E).
  assert (Ht2 : t2 = mk_state
            (hw_outb (u16 (base_port dev + ATA_COMMAND_PORT))
               (u8 (if is_packet_type (type dev)
                    then ATA_CMD_PACKET_IDENTIFY else ATA_CMD_IDENTIFY))
               (hw_outb (u16 (base_port dev + ATA_LBAHI_PORT)) (u8 0)
                  (hw_outb (u16 (base_port dev + ATA_LBAMID_PORT)) (u8 0)
                     (hw_outb (u16 (base_port dev + ATA_LBALO_PORT)) (u8 0)
                        (hw_outb (u16 (base_port dev + ATA_SECTOR_COUNT_PORT))
                           (u8 0) h0)))))
            (io_log st ++ identify_prefix dev waits [])
            (mem st) (heap st) (live st) (registry st) (console st)).
  { rewrite identify_prefix_nil.
    destruct (is_packet_type (type dev)); injection E0 as _ <-;
      rewrite <- !app_assoc; reflexivity. }
  clear E0. subst t2.
  apply bind_some in E. destruct E as (s1 & t3 & E0 & E).
  unfold ata_wait_bsy_clear in E0. apply poll_read_status_run in E0.
  destruct E0 as (Hbsy & _ & h3 & ss1 & _ & ->). proj_simpl E.
  fold dev in E. apply nonzero_false in Hbsy.
  assert (Hlog : forall ss,
             (io_log st ++ identify_prefix dev waits [])
               ++ map (In8 (u16 (base_port dev + ATA_COMMAND_PORT))) ss
             = io_log st ++ identify_prefix dev waits ss).
  { intros ss. rewrite <- app_assoc.
    rewrite <- (identify_prefix_app dev waits [] ss). reflexivity. }
  rewrite Hlog in E.
  exists waits, ss1, s1.
  destruct (Z.eqb_spec s1 0) as [Hs1|Hs1].
  { apply ret_run in E. destruct E as [E ->]. injection E as -> ->.
    exists h3. split; [exact Hwaits|]. split; [exact Hbsy|].
    left. repeat split. exact Hs1. }
  destruct (nonzero (ATA_ISERR s1)) eqn:Herr1.
  { bind_inv E. injection E0 as <- <-.
    apply ret_run in E. destruct E as [E ->]. injection E as -> ->.
    exists h3. split; [exact Hwaits|]. split; [exact Hbsy|].
    right; left. apply nonzero_true in Herr1. repeat split; assumption. }
  apply nonzero_false in Herr1.
  apply bind_some in E. destruct E as (mid & t4 & E0 & E).
  apply inb_run in E0. destruct E0 as (_ & _ & ->). proj_simpl E.
  apply bind_some in E. destruct E as (hi & t5 & E0 & E).
  apply inb_run in E0. destruct E0 as (_ & _ & ->). proj_simpl E.
  destruct (negb (mid =? 0) || negb (hi =? 0)) eqn:Hsig.
  { bind_inv E. injection E0 as <- <-.
    apply ret_run in E. destruct E as [E ->]. injection E as -> ->.
    eexists. split; [exact Hwaits|]. split; [exact Hbsy|].
    right; right; left. exists mid, hi.
    split; [exact Hs1|]. split; [exact Herr1|]. split.
    - apply orb_true_iff in Hsig.
      destruct Hsig as [H|H]; apply negb_true_iff, Z.eqb_neq in H; auto.
    - split; [reflexivity|]. split; [reflexivity|].
      cbn [io_log mem heap registry console].
      rewrite <- !app_assoc. reflexivity. }
  apply orb_false_iff in Hsig. destruct Hsig as [Hm Hh].
  apply negb_false_iff, Z.eqb_eq in Hm. apply negb_false_iff, Z.eqb_eq in Hh.
  subst mid hi.
  apply bind_some in E. destruct E as (s2 & t6 & E0 & E).
  unfold ata_wait_drq_set in E0. apply poll_read_status_run in E0.
  destruct E0 as (Hdrq & _ & h6 & ss2 & _ & ->). proj_simpl E.
  fold dev in E.
  destruct (nonzero (ATA_ISERR s2)) eqn:Herr2.
  { bind_inv E. injection E0 as <- <-.
    apply ret_run in E. destruct E as [E ->]. injection E as -> ->.
    eexists. split; [exact Hwaits|]. split; [exact Hbsy|].
    right; right; right; left. exists ss2, s2.
    apply nonzero_true in Herr2.
    split; [exact Hs1|]. split; [exact Herr1|]. split; [exact Herr2|].
    split; [reflexivity|]. split; [reflexivity|].
    cbn [io_log mem heap registry console].
    rewrite <- !app_assoc. reflexivity. }
  rewrite andb_true_r in Hdrq. apply negb_false_iff in Hdrq.
  apply nonzero_true in Hdrq. apply nonzero_false in Herr2.
  apply bind_some in E. destruct E as (buf1 & t7 & E0 & E).
  apply read_data_run in E0.
  destruct E0 as (h7 & ws & Hlen & Hbuf & ->). proj_simpl E.
  fold dev in E.
  apply ret_run in E. destruct E as [E ->]. injection E as -> ->.
  exists h7. split; [exact Hwaits|]. split; [exact Hbsy|].
  right; right; right; right. exists ss2, s2, ws.
  split; [exact Hs1|]. split; [exact Herr1|]. split; [exact Herr2|].
  split; [exact Hdrq|]. split; [exact Hlen|]. split; [reflexivity|].
  split.
  - intros j. rewrite Hbuf. cbn [Nat.leb andb Nat.add].
    rewrite Nat.sub_0_r. reflexivity.
  - fold dev. rewrite <- !app_assoc. reflexivity.
Qed.

Lemma words_read_identify_prefix dev waits ss :
  words_read (identify_prefix dev waits ss) = [].
Proof.
  unfold identify_prefix. rewrite !words_read_app, !words_read_in8.
  reflexivity.
Qed.

(** What ata_detect needs of ata_cmd_identify. *)
Lemma ata_cmd_identify_summary fuel d buffer st ok buf' st' :
  ata_cmd_identify fuel d buffer st = Some ((ok, buf'), st') ->
  mem st' = mem st /\ heap st' = heap st /\ registry st' = registry st /\
  exists new,
    io_log st' = io_log st ++ new /\
    ((ok = 0 /\ buf' = buffer /\ words_read new = []) \/
     (ok = 1 /\ List.length (words_read new) = 256%nat /\
      (forall j, buf' j = if (j <? 256)%nat
                          then nth j (words_read new) 0 else buffer j) /\
      console st' = console st)).
Proof.
  intros E. apply ata_cmd_identify_run in E.
  destruct E as (waits & ss1 & s1 & h' & _ & _ & H).
  destruct H as [(_ & -> & -> & ->)
                |[(_ & _ & -> & -> & ->)
                 |[(mid & hi & _ & _ & _ & -> & -> & ->)
                  |[(ss2 & s2 & _ & _ & _ & -> & -> & ->)
                   |(ss2 & s2 & ws & _ & _ & _ & _ & Hlen & -> & Hbuf & ->)]]]];
    cbn [io_log mem heap registry console];
    (split; [reflexivity|]); (split; [reflexivity|]);
    (split; [reflexivity|]); eexists; (split; [reflexivity|]).
  - left. rewrite words_read_identify_prefix. repeat split.
  - left. rewrite words_read_identify_prefix. repeat split.
  - left. rewrite words_read_app, words_read_identify_prefix.
    repeat split.
  - left. rewrite !words_read_app, words_read_identify_prefix,
      words_read_in8. repeat split.
  - right.
    rewrite !words_read_app, words_read_identify_prefix, words_read_in8,
      words_read_in16.
    cbn [words_read app]. repeat split; assumption.
Qed.


(** X10.  Every call of ata_cmd_identify that returns has begun with the
    same port accesses: the drive/head port written with 0xA0 or-ed with the
    slave bit, five reads of port 0x3F6, zero written to the sector-count,
    LBA-low, LBA-mid and LBA-high ports, then the command port written
    with 0xA1 (IDENTIFY PACKET DEVICE) when the class is PATAPI or SATAPI
    and with 0xEC (IDENTIFY DEVICE) for every other class, then at least
    one read of the status port whose last result has the busy bit
    clear. *)
Theorem identify_command_sequence fuel d buffer st r st' :
  ata_cmd_identify fuel d buffer st = Some (r, st') ->
  exists waits ss s rest,
    List.length waits = 5%nat /\ ATA_ISBSY s = 0 /\
    io_log st'
    = io_log st
        ++ [Out8 (u16 (base_port (heap st d) + ATA_DRIVE_PORT))
                 (u8 (Z.lor 0xA0 (slave_bit (heap st d))))]
        ++ map (In8 (u16 0x3F6)) waits
        ++ [Out8 (u16 (base_port (heap st d) + ATA_SECTOR_COUNT_PORT)) 0;
            Out8 (u16 (base_port (heap st d) + ATA_LBALO_PORT)) 0;
            Out8 (u16 (base_port (heap st d) + ATA_LBAMID_PORT)) 0;
            Out8 (u16 (base_port (heap st d) + ATA_LBAHI_PORT)) 0;
            Out8 (u16 (base_port (heap st d) + ATA_COMMAND_PORT))
                 (match type (heap st d) with
                  | ATA_TYPE_PATAPI | ATA_TYPE_SATAPI => 0xA1
                  | _ => 0xEC
                  end)]
        ++ map (In8 (u16 (base_port (heap st d) + ATA_COMMAND_PORT)))
               (ss ++ [s])
        ++ rest.
Proof.
  destruct r as [ok buf']. intros E. apply ata_cmd_identify_run in E.
  destruct E as (waits & ss1 & s1 & h' & Hwaits & Hbsy & H).
  exists waits, ss1, s1.
  assert (Hpre : forall tail,
            identify_prefix (heap st d) waits (ss1 ++ [s1]) ++ tail
            = [Out8 (u16 (base_port (heap st d) + ATA_DRIVE_PORT))
                    (u8 (Z.lor 0xA0 (slave_bit (heap st d))))]
              ++ map (In8 (u16 0x3F6)) waits
              ++ [Out8 (u16 (base_port (heap st d) + ATA_SECTOR_COUNT_PORT)) 0;
                  Out8 (u16 (base_port (heap st d) + ATA_LBALO_PORT)) 0;
                  Out8 (u16 (base_port (heap st d) + ATA_LBAMID_PORT)) 0;
                  Out8 (u16 (base_port (heap st d) + ATA_LBAHI_PORT)) 0;
                  Out8 (u16 (base_port (heap st d) + ATA_COMMAND_PORT))
                       (match type (heap st d) with
                        | ATA_TYPE_PATAPI | ATA_TYPE_SATAPI => 0xA1
                        | _ => 0xEC
                        end)]
              ++ map (In8 (u16 (base_port (heap st d) + ATA_COMMAND_PORT)))
                     (ss1 ++ [s1])
              ++ tail).
  { intros tail. unfold identify_prefix. rewrite <- !app_assoc.
    destruct (type (heap st d)); reflexivity. }
  destruct H as [(_ & _ & _ & ->)
                |[(_ & _ & _ & _ & ->)
                 |[(mid & hi & _ & _ & _ & _ & _ & ->)
                  |[(ss2 & s2 & _ & _ & _ & _ & _ & ->)
                   |(ss2 & s2 & ws & _ & _ & _ & _ & _ & _ & _ & ->)]]]];
    cbn [io_log]; eexists;
    (split; [exact Hwaits|]); (split; [exact Hbsy|]);
    rewrite <- Hpre; try reflexivity.
  - rewrite app_nil_r. reflexivity.
  - rewrite app_nil_r. reflexivity.
Qed.

(** ata_cmd_identify run forward to the end of its first wait, on a
    channel whose status register is stuck at a value with the busy bit
    clear. *)
Ltac identify_forward s Hs Hb Hbsy fuel :=
  unfold ata_cmd_identify;
  match goal with
  | |- exists _, bind (ata_select_drive ?d) _ ?st = _ /\ _ =>
      let s1 := fresh "s1" in
      let E1 := fresh "E1" in
      let Hh := fresh "Hh" in
      let Hc := fresh "Hc" in
      destruct (ata_select_drive_total d st) as (s1 & E1);
      rewrite (bind_step _ _ _ _ _ E1);
      apply io_ata_select_drive in E1;
      destruct E1 as (_ & Hh & _ & Hc);
      do 6 (erewrite bind_step by reflexivity;
            cbn [hw io_log mem heap live registry console]);
      rewrite ?Hh;
      destruct (type (heap st d));
      (erewrite bind_step by reflexivity);
      cbn [hw io_log mem heap live registry console];
      rewrite ?Hh, ?Hb;
      unfold ata_wait_bsy_clear;
      match goal with
      | |- exists _, bind (poll _ ?again _) _ ?s0 = _ /\ _ =>
          let s5 := fresh "s5" in
          let E5 := fresh "E5" in
          let E6 := fresh "E6" in
          destruct (poll_first_read _ _ again fuel s0 Hs) as (s5 & E5);
          [ cbv beta; rewrite Hbsy; reflexivity
          | assert (E6 : poll (ata_read_status d) again (S fuel) s0
                         = Some (s, s5))
              by (rewrite poll_read_status; cbn [heap]; rewrite ?Hb;
                  exact E5);
            rewrite (bind_step _ _ _ _ _ E6);
            apply poll_inb_run in E5;
            destruct E5 as (_ & _ & ? & ? & _ & ->);
            cbn [hw io_log mem heap live registry console] ]
      end
  end.

(** X11.  On a channel whose status register reads [s] with the busy bit
    clear, ata_cmd_identify gives up right after its first wait in two
    cases, leaving the buffer as it was and reading neither the LBA ports
    nor the data port: when [s] is 0 (no drive) it returns 0 and prints
    nothing; when [s] has the error bit set it returns 0 and prints one
    message carrying [s]. *)
Theorem identify_on_stuck_status b s d buffer st :
  status_stuck b s -> base_port (heap st d) = b -> ATA_ISBSY s = 0 ->
  (s = 0 ->
   forall fuel, exists st',
     ata_cmd_identify (S fuel) d buffer st = Some ((0, buffer), st') /\
     console st' = console st) /\
  (ATA_ISERR s <> 0 ->
   forall fuel, exists st',
     ata_cmd_identify (S fuel) d buffer st = Some ((0, buffer), st') /\
     console st'
     = console st
         ++ [("[ATA] Error after sending IDENTIFY."%string, [PInt s])]).
Proof.
  intros Hs Hb Hbsy. split.
  - intros H0 fuel. identify_forward s Hs Hb Hbsy fuel;
      rewrite H0; cbn [Z.eqb]; eexists; (split; [reflexivity|]);
      cbn [console]; exact Hc.
  - intros Herr fuel.
    assert (Hs0 : (s =? 0) = false).
    { apply Z.eqb_neq. intros ->. apply Herr. reflexivity. }
    assert (Hnz : nonzero (ATA_ISERR s) = true).
    { unfold nonzero. destruct (Z.eqb_spec (ATA_ISERR s) 0);
        [contradiction | reflexivity]. }
    identify_forward s Hs Hb Hbsy fuel;
      rewrite Hs0, Hnz; (erewrite bind_step by reflexivity);
      eexists; (split; [reflexivity|]);
      cbn [console]; rewrite Hc; reflexivity.
Qed.

(** *** ata_detect, step by step *)

Lemma io_ext_trans evs evs' st st1 st2 :
  io_ext evs st st1 -> io_ext evs' st1 st2 -> io_ext (evs ++ evs') st st2.
Proof.
  intros (H1 & H2 & H3 & H4) (G1 & G2 & G3 & G4).
  unfold io_ext. rewrite G1, H1, app_assoc. repeat split; congruence.
Qed.

Lemma ata_software_reset_ext d st u st' :
  ata_software_reset d st = Some (u, st') ->
  io_ext [Out8 (u16 (control_port (heap st d))) (u8 4);
          Out8 (u16 (control_port (heap st d))) (u8 0)] st st'.
Proof.
  unfold ata_software_reset. intros E.
  bind_inv E. injection E0 as <- <-.
  bind_inv E. injection E0 as <- <-. injection E as _ <-.
  unfold io_ext. cbn [io_log mem heap registry].
  rewrite <- app_assoc. repeat split.
Qed.

Lemma ata_wait_bsy_clear_ext fuel d st s st' :
  ata_wait_bsy_clear fuel d st = Some (s, st') ->
  exists ss,
    io_ext (map (In8 (u16 (base_port (heap st d) + ATA_COMMAND_PORT)))
                (ss ++ [s])) st st'.
Proof.
  unfold ata_wait_bsy_clear. intros E. apply poll_read_status_run in E.
  destruct E as (_ & _ & h' & ss & _ & ->). exists ss. repeat split.
Qed.

Lemma inb_ext port st v st' :
  inb port st = Some (v, st') -> io_ext [In8 (u16 port) v] st st'.
Proof.
  intros E. apply inb_run in E. destruct E as (_ & _ & ->). repeat split.
Qed.

Lemma printf_ext format args st u st' :
  printf format args st = Some (u, st') -> io_ext [] st st'.
Proof.
  intros E. injection E as _ <-. unfold io_ext. cbn [io_log mem heap registry].
  rewrite app_nil_r. repeat split.
Qed.

Lemma maybe_printf_ext (c : bool) format args st u st' :
  (if c then printf format args else ret tt) st = Some (u, st') ->
  io_ext [] st st'.
Proof.
  destruct c; [apply printf_ext|].
  intros E. apply ret_run in E. destruct E as [_ ->].
  unfold io_ext. rewrite app_nil_r. repeat split.
Qed.

(** The chain of comparisons of ata_detect sets [type] to the class the
    signature stands for, or leaves it. *)
Lemma classify_run p mid hi st u st' :
  (if (mid =? 0x14) && (hi =? 0xEB) then
     modify p (set_type ATA_TYPE_PATAPI)
   else if (mid =? 0x69) && (hi =? 0x96) then
     modify p (set_type ATA_TYPE_SATAPI)
   else if (mid =? 0) && (hi =? 0) then
     modify p (set_type ATA_TYPE_PATA)
   else if (mid =? 0x3C) && (hi =? 0xC3) then
     modify p (set_type ATA_TYPE_SATA)
   else ret tt) st = Some (u, st') ->
  io_log st' = io_log st /\ mem st' = mem st /\ registry st' = registry st /\
  forall q, heap st' q
            = if q =? p
              then set_type (classify mid hi (type (heap st p))) (heap st p)
              else heap st q.
Proof.
  unfold classify.
  destruct ((mid =? 0x14) && (hi =? 0xEB));
    [|destruct ((mid =? 0x69) && (hi =? 0x96));
      [|destruct ((mid =? 0) && (hi =? 0));
        [|destruct ((mid =? 0x3C) && (hi =? 0xC3))]]];
    intros E; injection E as _ <-;
    (split; [reflexivity|]); (split; [reflexivity|]);
    (split; [reflexivity|]); intros q; try reflexivity.
  destruct (Z.eqb_spec q p) as [->|]; [|reflexivity].
  destruct (heap st p); reflexivity.
Qed.

Lemma ata_detect_full fuel b c sl p garbage st r st' :
  ata_detect fuel b c sl p garbage st = Some (r, st') ->
  exists ss s mid hi rest,
    io_log st'
    = io_log st
        ++ [Out8 (u16 c) (u8 4); Out8 (u16 c) (u8 0)]
        ++ map (In8 (u16 (b + ATA_COMMAND_PORT))) (ss ++ [s])
        ++ [In8 (u16 (b + ATA_LBAMID_PORT)) mid;
            In8 (u16 (b + ATA_LBAHI_PORT)) hi]
        ++ rest /\
    heap st' p
    = mk_ata_device (classify mid hi (type (heap st p))) b c sl
                    (lba48_support (heap st p)) (lba48_total (heap st p))
                    (lba28_total (heap st p)) (pos (heap st p)) /\
    (forall q, q <> p -> heap st' q = heap st q) /\
    mem st' = mem st /\ registry st' = registry st /\
    r = verdict (classify mid hi (type (heap st p)))
                (hd (garbage O) (words_read rest)).
Proof.
  unfold ata_detect. intros E.
  bind_inv E. injection E0 as <- <-.
  bind_inv E. injection E0 as <- <-.
  bind_inv E. injection E0 as <- <-.
  match type of E with
  | _ ?s = Some _ => remember s as st3 eqn:Hst3
  end.
  assert (H3 : io_log st3 = io_log st /\ mem st3 = mem st /\
               registry st3 = registry st /\
               heap st3 p
               = mk_ata_device (type (heap st p)) b c sl
                   (lba48_support (heap st p)) (lba48_total (heap st p))
                   (lba28_total (heap st p)) (pos (heap st p)) /\
               forall q, q <> p -> heap st3 q = heap st q).
  { subst st3. cbn [io_log mem heap registry].
    rewrite !Z.eqb_refl. repeat split.
    intros q Hq. destruct (Z.eqb_spec q p); [contradiction | reflexivity]. }
  clear Hst3. destruct H3 as (L3 & M3 & R3 & P3 & Q3).
  apply bind_some in E. destruct E as (u1 & t1 & E0 & E).
  apply ata_software_reset_ext in E0. rewrite P3 in E0. cbn [control_port] in E0.
  apply bind_some in E. destruct E as (s & t2 & E1 & E).
  apply ata_wait_bsy_clear_ext in E1. destruct E1 as (ss & E1).
  assert (Hb : base_port (heap t1 p) = b).
  { destruct E0 as (_ & _ & -> & _). rewrite P3. reflexivity. }
  rewrite Hb in E1.
  pose proof (io_ext_trans _ _ _ _ _ E0 E1) as X2. clear E0 E1 Hb.
  apply bind_some in E. destruct E as (u2 & t3 & E0 & E).
  apply maybe_printf_ext in E0.
  pose proof (io_ext_trans _ _ _ _ _ X2 E0) as X3. clear X2 E0.
  apply bind_some in E. destruct E as (mid & t4 & E0 & E).
  apply inb_ext in E0.
  pose proof (io_ext_trans _ _ _ _ _ X3 E0) as X4. clear X3 E0.
  apply bind_some in E. destruct E as (hi & t5 & E0 & E).
  apply inb_ext in E0.
  pose proof (io_ext_trans _ _ _ _ _ X4 E0) as X5. clear X4 E0.
  apply bind_some in E. destruct E as (u3 & t6 & E0 & E).
  apply classify_run in E0. destruct E0 as (L6 & M6 & R6 & H6).
  destruct X5 as (L5 & M5 & H5 & R5).
  apply bind_some in E. destruct E as (packet & t7 & E0 & E).
  unfold ata_device_is_packet in E0. bind_inv E0. injection E1 as <- <-.
  apply ret_run in E0. destruct E0 as [-> ->].
  apply bind_some in E. destruct E as (u4 & t8 & E0 & E).
  apply maybe_printf_ext in E0. destruct E0 as (L8 & M8 & H8 & R8).
  apply bind_some in E. destruct E as ([ok buf] & t9 & E0 & E).
  apply ata_cmd_identify_summary in E0.
  destruct E0 as (M9 & H9 & R9 & new & L9 & Hbuf).
  cbn [fst snd] in E.
  apply bind_some in E. destruct E as (u5 & t10 & E0 & E).
  apply maybe_printf_ext in E0. destruct E0 as (L10 & M10 & H10 & R10).
  apply bind_some in E. destruct E as (packet & t11 & E0 & E).
  unfold ata_device_is_packet in E0. bind_inv E0. injection E1 as <- <-.
  apply ret_run in E0. destruct E0 as [-> ->].
  assert (Hheap : heap t10 = heap t6) by congruence.
  assert (Htype : type (heap t10 p) = classify mid hi (type (heap st p))).
  { rewrite Hheap, H6, Z.eqb_refl, H5, P3. reflexivity. }
  rewrite Htype in E.
  change (match classify mid hi (type (heap st p)) with
          | ATA_TYPE_PATAPI | ATA_TYPE_SATAPI => true
          | _ => false
          end) with (is_packet_type (classify mid hi (type (heap st p)))) in E.
  assert (Hword : buf O = hd (garbage O) (words_read new)).
  { destruct Hbuf as [(_ & -> & ->) | (_ & Hlen & Hb' & _)]; [reflexivity|].
    rewrite Hb'. destruct (words_read new); [discriminate | reflexivity]. }
  assert (Hfinal : r = verdict (classify mid hi (type (heap st p))) (buf O)
                   /\ io_ext [] t10 st').
  { unfold verdict. rewrite !nonzero_land_bit in E by lia.
    destruct (is_packet_type (classify mid hi (type (heap st p))));
      destruct (Z.testbit (buf O) 15); destruct (Z.testbit (buf O) 14);
      cbn [negb andb orb] in E;
      bind_inv E; apply printf_ext in E0;
      apply ret_run in E; destruct E as [-> ->];
      (split; [reflexivity | exact E0]). }
  destruct Hfinal as (Hr & L11 & M11 & H11 & R11).
  exists ss, s, mid, hi, new.
  split.
  { rewrite L11, app_nil_r, L10, app_nil_r, L9, L8, app_nil_r, L6, L5, L3.
    rewrite <- !app_assoc. reflexivity. }
  split.
  { rewrite H11, Hheap, H6, Z.eqb_refl, H5, P3. reflexivity. }
  split.
  { intros q Hq. rewrite H11, Hheap, H6.
    destruct (Z.eqb_spec q p); [contradiction|]. rewrite H5. apply Q3, Hq. }
  split; [congruence|]. split; [congruence|].
  rewrite Hr, Hword. reflexivity.
Qed.


(** X13.  Of the object it is given, ata_detect writes the three port
    fields, with its arguments, and possibly [type]; the capability fields
    lba48_support, lba48_total and lba28_total and the cursor [pos] keep
    the values they had on entry.  Every other object, the RAM and the
    device table are untouched. *)
Theorem detect_descriptor_effect fuel b c sl p garbage st r st' :
  ata_detect fuel b c sl p garbage st = Some (r, st') ->
  heap st' p
  = mk_ata_device (type (heap st' p)) b c sl
                  (lba48_support (heap st p)) (lba48_total (heap st p))
                  (lba28_total (heap st p)) (pos (heap st p)) /\
  (forall q, q <> p -> heap st' q = heap st q) /\
  mem st' = mem st /\ registry st' = registry st.
Proof.
  intros E. apply ata_detect_full in E.
  destruct E as (ss & s & mid & hi & rest & _ & Hp & Hq & Hm & Hr & _).
  split; [|repeat split; assumption].
  rewrite Hp. reflexivity.
Qed.

(** *** ata_install *)

Lemma maybe_register_run (r : Z) name p st u st' :
  (if nonzero r then ata_register_device name p else ret tt) st
  = Some (u, st') ->
  io_log st' = io_log st /\ mem st' = mem st /\ heap st' = heap st /\
  exists k, registry st' = registry st ++ if_registered k name p.
Proof.
  destruct (nonzero r).
  - unfold ata_register_device. intros E.
    bind_inv E. injection E0 as <- <-.
    bind_inv E. apply ret_run in E. destruct E as [_ ->].
    unfold device_register in E0. cbn [registry d_name] in E0.
    destruct (existsb _ _).
    + injection E0 as _ <-. repeat split. exists false.
      cbn [registry if_registered]. rewrite app_nil_r. reflexivity.
    + destruct (_ <=? _)%nat; injection E0 as _ <-; repeat split.
      * exists false. cbn [registry if_registered]. rewrite app_nil_r.
        reflexivity.
      * exists true. reflexivity.
  - intros E. apply ret_run in E. destruct E as [_ ->]. repeat split.
    exists false. cbn [if_registered]. rewrite app_nil_r. reflexivity.
Qed.

Lemma set_live_run d b st u st' :
  set_live d b st = Some (u, st') ->
  hw st' = hw st /\ io_log st' = io_log st /\ mem st' = mem st /\
  heap st' = heap st /\ registry st' = registry st /\
  console st' = console st /\
  live st' d = b /\ forall q, q <> d -> live st' q = live st q.
Proof.
  intros E. injection E as _ <-. cbn [hw io_log mem heap live registry console].
  rewrite Z.eqb_refl. repeat split.
  intros q Hq. destruct (Z.eqb_spec q d); [contradiction | reflexivity].
Qed.


(** X14.  ata_install adds at most four devices to the device table, in
    slot order and after the entries that were there: the device for slot
    [k], when it is added, is named by the first DEVICE_NAME_MAX characters
    of "ATA-k", has kind DEVICE_RANDOM, the three callbacks of this driver
    and the address of the one local object as backing state.  The RAM and
    every other object are untouched. *)
Theorem install_registers_in_slot_order fuel p garbage st st' :
  ata_install fuel p garbage st = Some (tt, st') ->
  mem st' = mem st /\
  (forall q, q <> p -> heap st' q = heap st q) /\
  exists k0 k1 k2 k3,
    registry st'
    = registry st ++ if_registered k0 "ATA-0" p ++ if_registered k1 "ATA-1" p
        ++ if_registered k2 "ATA-2" p ++ if_registered k3 "ATA-3" p.
Proof.
  unfold ata_install. intros E.
  apply bind_some in E. destruct E as (ub & tb & Lb & E).
  apply bind_some in E. destruct E as (r0 & t0 & D0 & E).
  apply bind_some in E. destruct E as (u0 & t0' & G0 & E).
  apply bind_some in E. destruct E as (r1 & t1 & D1 & E).
  apply bind_some in E. destruct E as (u1 & t1' & G1 & E).
  apply bind_some in E. destruct E as (r2 & t2 & D2 & E).
  apply bind_some in E. destruct E as (u2 & t2' & G2 & E).
  apply bind_some in E. destruct E as (r3 & t3 & D3 & E).
  apply bind_some in E. destruct E as (u3 & t3' & G3 & Le).
  apply set_live_run in Lb, Le.
  apply ata_detect_run in D0, D1, D2, D3.
  apply maybe_register_run in G0, G1, G2, G3.
  destruct D0 as (A0 & B0 & C0 & _), D1 as (A1 & B1 & C1 & _),
    D2 as (A2 & B2 & C2 & _), D3 as (A3 & B3 & C3 & _).
  destruct G0 as (_ & M0 & H0 & k0 & R0), G1 as (_ & M1 & H1 & k1 & R1),
    G2 as (_ & M2 & H2 & k2 & R2), G3 as (_ & M3 & H3 & k3 & R3).
  destruct Lb as (_ & _ & Mb & Hb & Rb & _), Le as (_ & _ & Me & He & Re & _).
  split; [congruence|]. split.
  - intros q Hq.
    rewrite He, H3, (C3 q Hq), H2, (C2 q Hq), H1, (C1 q Hq), H0, (C0 q Hq), Hb.
    reflexivity.
  - exists k0, k1, k2, k3.
    rewrite Re, R3, B3, R2, B2, R1, B1, R0, B0, Rb, <- !app_assoc.
    reflexivity.
Qed.

(** X21.  When ata_install has returned, the lifetime of its local object has
    ended, no other lifetime has begun or ended, and every device it added
    to the device table holds the address of that dead object. *)
Theorem install_leaves_dangling_devices fuel p garbage st st' :
  ata_install fuel p garbage st = Some (tt, st') ->
  live st' p = false /\
  (forall q, q <> p -> live st' q = live st q) /\
  exists added,
    registry st' = registry st ++ added /\
    Forall (fun d => d_p d = p /\ live st' (d_p d) = false) added.
Proof.
  intros E. pose proof (registered_ata_install _ _ _ _ _ _ E) as (_ & _ & HR).
  unfold ata_install in E.
  apply bind_some in E. destruct E as (ub & tb & Lb & E).
  apply bind_some in E. destruct E as (r0 & t0 & D0 & E).
  apply bind_some in E. destruct E as (u0 & t0' & G0 & E).
  apply bind_some in E. destruct E as (r1 & t1 & D1 & E).
  apply bind_some in E. destruct E as (u1 & t1' & G1 & E).
  apply bind_some in E. destruct E as (r2 & t2 & D2 & E).
  apply bind_some in E. destruct E as (u2 & t2' & G2 & E).
  apply bind_some in E. destruct E as (r3 & t3 & D3 & E).
  apply bind_some in E. destruct E as (u3 & t3' & G3 & Le).
  apply set_live_run in Lb, Le.
  apply live_ata_detect in D0, D1, D2, D3.
  apply live_maybe_register in G0, G1, G2, G3.
  unfold live_kept in *.
  destruct Lb as (_ & _ & _ & _ & _ & _ & _ & Lb).
  destruct Le as (_ & _ & _ & _ & _ & _ & Hp & Le).
  assert (Hq : forall q, q <> p -> live st' q = live st q).
  { intros q Hq. rewrite (Le q Hq), G3, D3, G2, D2, G1, D1, G0, D0.
    apply Lb, Hq. }
  split; [exact Hp|]. split; [exact Hq|].
  destruct HR as (added & Hreg & Hall). exists added. split; [exact Hreg|].
  eapply Forall_impl; [|exact Hall].
  intros d Hd. cbv beta in Hd. split; [exact Hd|]. rewrite Hd. exact Hp.
Qed.


(** X16.  One channel whose status register stays busy is enough for
    ata_install never to return, whatever the other channel does: the
    scan has no way past a slot that does not answer. *)
Theorem install_stalls_on_busy_channel b s fuel p garbage st :
  status_stuck b s -> ATA_ISBSY s <> 0 -> b = 0x1F0 \/ b = 0x170 ->
  ata_install fuel p garbage st = None.
Proof.
  intros Hs Hbsy Hb. apply not_some_none. intros [u st'] E.
  assert (Hnz : nonzero (ATA_ISBSY s) = true).
  { unfold nonzero. destruct (Z.eqb_spec (ATA_ISBSY s) 0);
      [contradiction | reflexivity]. }
  unfold ata_install in E.
  apply bind_some in E. destruct E as (ub & tb & Lb & E).
  apply bind_some in E. destruct E as (r0 & t0 & D0 & E).
  apply bind_some in E. destruct E as (u0 & t0' & G0 & E).
  apply bind_some in E. destruct E as (r1 & t1 & D1 & E).
  apply bind_some in E. destruct E as (u1 & t1' & G1 & E).
  apply bind_some in E. destruct E as (r2 & t2 & D2 & E).
  destruct Hb as [-> | ->].
  - rewrite (ata_detect_stuck _ _ _ _ _ _ _ _ Hs Hnz) in D0. discriminate.
  - rewrite (ata_detect_stuck _ _ _ _ _ _ _ _ Hs Hnz) in D2. discriminate.
Qed.

(** *** ata_seek *)


(** *** When the drive answers *)

Lemma returns_bind {A B} (f : nat -> @M HW A) (g : A -> nat -> M B) st :
  mono f -> (forall a, mono (g a)) ->
  (exists k a st1, f k st = Some (a, st1) /\ returns (g a) st1) ->
  returns (fun k => bind (f k) (fun a => g a k)) st.
Proof.
  intros Hf Hg (k1 & a & st1 & E1 & k2 & r & E2).
  exists (Nat.max k1 k2), r. unfold bind.
  rewrite (Hf _ _ _ _ E1 (Nat.le_max_l k1 k2)).
  exact (Hg a _ _ _ _ E2 (Nat.le_max_r k1 k2)).
Qed.

Lemma returns_mono {A} (f : nat -> @M HW A) st :
  mono f -> returns f st ->
  exists k r, forall k', (k <= k')%nat -> f k' st = Some r.
Proof.
  intros Hf (k & r & E). exists k, r. intros k' Hk. exact (Hf _ _ _ _ E Hk).
Qed.

Ltac returns_step :=
  cbv beta; cbn [hw io_log mem heap live registry console];
  match goal with
  | |- returns (fun k => bind _ _) _ =>
      apply returns_bind; [mono | intros ?; mono | ]
  end.

Ltac returns_now :=
  exists O; do 2 eexists; split; [reflexivity | ].

Ltac returns_poll Ha :=
  match goal with
  | |- exists _ _ _, poll (inb ?port) ?again _ ?s = _ /\ _ =>
      let k := fresh "k" in
      let Hk := fresh "Hk" in
      let v := fresh "v" in
      let s' := fresh "s" in
      let E := fresh "E" in
      assert (Hk : exists k, again (nth_status port k (hw s)) = false);
      [ | destruct Hk as (k & Hk);
          destruct (poll_returns port again k s Hk) as ([v s'] & E);
          exists (S k), v, s'; split; [exact E | ] ]
  end.

(** A transfer on a channel whose drive answers returns. *)
Lemma atapi_read_block_returns b dev lba buffer maxlen st :
  answers b -> base_port (heap st dev) = b ->
  returns (fun fuel => atapi_read_block fuel dev lba buffer maxlen) st.
Proof.
  intros Ha Hb. unfold atapi_read_block. cbv zeta.
  returns_step. exists O, (heap st dev), st. split; [reflexivity|].
  rewrite Hb.
  returns_step. returns_now.
  returns_step.
  match goal with
  | |- exists _ _ _, ata_wait 4 ?s = _ /\ _ =>
      destruct (ata_wait_total 4 s) as (s1 & E1); exists O, tt, s1;
      split; [exact E1|]
  end.
  returns_step. returns_now.
  returns_step. returns_now.
  returns_step. returns_now.
  returns_step. returns_now.
  returns_step. returns_poll Ha.
  { match goal with
    | |- context [nth_status _ _ ?h] =>
        destruct (Ha h) as ((k1 & Hk1) & _ & _)
    end.
    exists k1. cbv beta. change (Z.land ?x 128) with (ATA_ISBSY x).
    unfold nonzero. rewrite Hk1. reflexivity. }
  returns_step. returns_poll Ha.
  { match goal with
    | |- context [nth_status _ _ ?h] =>
        destruct (Ha h) as (_ & (k2 & Hk2) & _)
    end.
    exists k2. cbv beta.
    change (Z.land ?x 8) with (ATA_ISDRQ x).
    change (Z.land ?x 1) with (ATA_ISERR x).
    unfold nonzero. destruct Hk2 as [Hk2|Hk2];
      rewrite (proj2 (Z.eqb_neq _ _) Hk2);
      [reflexivity | apply andb_false_r]. }
  cbv beta. destruct (nonzero (Z.land v0 1)).
  { exists O. eexists. reflexivity. }
  returns_step.
  match goal with
  | |- exists _ _ _, outsw ?port ?ws ?n ?s = _ /\ _ =>
      destruct (outsw_total port n ws s) as (s3 & E3); exists O, tt, s3;
      split; [exact E3|]
  end.
  returns_step.
  match goal with
  | |- exists _ _ _, inb ?port ?s = _ /\ _ =>
      destruct (inb_total port s) as (hi & s4 & E4); exists O, hi, s4;
      split; [exact E4|]
  end.
  returns_step.
  match goal with
  | |- exists _ _ _, inb ?port ?s = _ /\ _ =>
      destruct (inb_total port s) as (mid & s5 & E5); exists O, mid, s5;
      split; [exact E5|]
  end.
  returns_step.
  match goal with
  | |- exists _ _ _, insw ?port ?buf ?n ?s = _ /\ _ =>
      destruct (insw_total port n buf s) as (s6 & E6); exists O, tt, s6;
      split; [exact E6|]
  end.
  returns_step. returns_poll Ha.
  { match goal with
    | |- context [nth_status _ _ ?h] =>
        destruct (Ha h) as (_ & _ & (k3 & Hk3))
    end.
    exists k3. cbv beta. unfold nonzero. rewrite Hk3. reflexivity. }
  cbv beta. exists O. eexists. reflexivity.
Qed.

(** X18.  A read that follows a seek to [P] and meets no protocol error
    has sent the drive a READ(12) packet whose block address is [P] (its
    low 32 bits), whatever the cursor was before the seek. *)
Theorem seek_then_read_sends_position dev P fuel size out st st1 res cap st2 :
  ata_seek dev P st = Some (OK, st1) ->
  ata_read fuel dev size out st1 = Some ((res, cap), st2) ->
  cap <> 4294967295 ->
  exists new b2 b3 b4 b5,
    io_log st2 = io_log st ++ new /\
    bytes_of_words (words_written new)
    = [0xA8; 0; b2; b3; b4; b5; 0; 0; 0; 1; 0; 0] /\
    be32 b2 b3 b4 b5 = u32 P.
Proof.
  intros Es Er Hcap. injection Es as <-.
  destruct (ata_read_success _ _ _ _ _ _ _ _ Er Hcap)
    as (waits & ss1 & ss2 & hi & mid & ws & ss3 & h'
        & _ & _ & _ & _ & ->).
  cbn [io_log heap]. rewrite Z.eqb_refl. cbn [pos set_pos].
  eexists. exists (Z.land (Z.shiftr P 0x18) 0xFF),
    (Z.land (Z.shiftr P 0x10) 0xFF), (Z.land (Z.shiftr P 0x08) 0xFF),
    (Z.land (Z.shiftr P 0x00) 0xFF).
  split; [reflexivity|]. split; [|apply read_cmd_lba].
  rewrite words_written_atapi_trace. apply read_cmd_on_the_wire.
Qed.

(** X19.  On a channel whose drive answers, ata_read returns: some bound
    on the polls gives a result, and every larger bound gives that same
    result. *)
Theorem read_returns_when_drive_answers b dev size out st :
  answers b -> base_port (heap st (d_p dev)) = b ->
  exists fuel r st',
    forall fuel', (fuel <= fuel')%nat ->
      ata_read fuel' dev size out st = Some (r, st').
Proof.
  intros Ha Hb.
  assert (Hret : returns (fun fuel => ata_read fuel dev size out) st).
  { unfold ata_read, ATA_DEV. cbv zeta.
    apply returns_bind;
      [apply mono_const
      | intros d; apply mono_bind;
          [apply atapi_read_block_mono | intros r; apply mono_const]
      | ].
    exists O, (heap st (d_p dev)), st. split; [reflexivity|].
    apply returns_bind;
      [apply atapi_read_block_mono | intros r; apply mono_const | ].
    destruct (atapi_read_block_returns b (d_p dev)
                (pos (heap st (d_p dev))) out size st Ha Hb)
      as (k & [r st1] & E).
    exists k, r, st1. split; [exact E|].
    exists O. eexists. reflexivity. }
  destruct (returns_mono _ _ (ata_read_mono dev size out) Hret)
    as (k & [r st'] & H).
  exists k, r, st'. exact H.
Qed.

(** *** The scan when the drives answer *)

Lemma poll_status_returns d again st :
  (exists k, again (nth_status (base_port (heap st d) + ATA_COMMAND_PORT) k
                               (hw st)) = false) ->
  exists k v st',
    poll (ata_read_status d) again k st = Some (v, st') /\
    heap st' = heap st.
Proof.
  intros (k & Hk).
  destruct (poll_returns _ again k st Hk) as ([v st'] & E).
  exists (S k), v, st'. rewrite poll_read_status. split; [exact E|].
  apply poll_inb_run in E. destruct E as (_ & _ & h' & ss & _ & ->).
  reflexivity.
Qed.

Lemma inb_total_heap port st :
  exists v st', inb port st = Some (v, st') /\ heap st' = heap st.
Proof.
  destruct (inb_total port st) as (v & st' & E). exists v, st'.
  split; [exact E|]. apply inb_run in E. destruct E as (_ & _ & ->).
  reflexivity.
Qed.

Lemma outb_if_total (c : bool) port v1 v2 st :
  exists st',
    (if c then outb port v1 else outb port v2) st = Some (tt, st') /\
    heap st' = heap st.
Proof. destruct c; eexists; split; reflexivity. Qed.

Lemma read_data_total d : forall n buffer i st,
  exists buf st', read_data d buffer i n st = Some (buf, st').
Proof.
  induction n as [|n IH]; intros buffer i st; cbn [read_data].
  - do 2 eexists. reflexivity.
  - unfold ata_pio_read16.
    destruct (inw_total (base_port (heap st d) + ATA_DATA_PORT) st)
      as (w & st1 & E).
    erewrite bind_step;
      [|erewrite bind_step by reflexivity; exact E].
    apply IH.
Qed.

Lemma ata_cmd_identify_returns b d buffer st :
  answers b -> base_port (heap st d) = b ->
  returns (fun fuel => ata_cmd_identify fuel d buffer) st.
Proof.
  intros Ha Hb.
  unfold ata_cmd_identify, ata_wait_bsy_clear, ata_wait_drq_set.
  returns_step.
  destruct (ata_select_drive_total d st) as (s1 & E1).
  exists O, tt, s1. split; [exact E1|].
  apply io_ata_select_drive in E1. destruct E1 as (_ & Hh1 & _).
  returns_step. returns_now.
  returns_step. returns_now.
  returns_step. returns_now.
  returns_step. returns_now.
  returns_step. returns_now.
  returns_step. returns_now.
  returns_step.
  match goal with
  | |- exists _ _ _, (if ?c then outb ?p ?v1 else outb ?p ?v2) ?s = _ /\ _ =>
      destruct (outb_if_total c p v1 v2 s) as (s2 & E2 & Hh2);
      exists O, tt, s2; split; [exact E2|]
  end.
  cbn [heap] in Hh2.
  returns_step.
  destruct (poll_status_returns d
              (fun status => nonzero (ATA_ISBSY status)) s2)
    as (k1 & v1 & s3 & E3 & Hh3).
  { rewrite Hh2, Hh1, Hb.
    destruct (Ha (hw s2)) as ((k & Hk) & _ & _).
    exists k. unfold nonzero. rewrite Hk. reflexivity. }
  exists k1, v1, s3. split; [exact E3|].
  cbv beta. destruct (v1 =? 0); [exists O; eexists; reflexivity|].
  destruct (nonzero (ATA_ISERR v1)); [exists O; eexists; reflexivity|].
  returns_step.
  match goal with
  | |- exists _ _ _, inb ?port ?s = _ /\ _ =>
      destruct (inb_total_heap port s) as (mid & s4 & E4 & Hh4);
      exists O, mid, s4; split; [exact E4|]
  end.
  returns_step.
  match goal with
  | |- exists _ _ _, inb ?port ?s = _ /\ _ =>
      destruct (inb_total_heap port s) as (hi & s5 & E5 & Hh5);
      exists O, hi, s5; split; [exact E5|]
  end.
  cbv beta.
  destruct (negb (mid =? 0) || negb (hi =? 0));
    [exists O; eexists; reflexivity|].
  returns_step.
  destruct (poll_status_returns d
              (fun status => negb (nonzero (ATA_ISDRQ status))
                             && negb (nonzero (ATA_ISERR status))) s5)
    as (k2 & v2 & s6 & E6 & Hh6).
  { rewrite Hh5, Hh4, Hh3, Hh2, Hh1, Hb.
    destruct (Ha (hw s5)) as (_ & (k & Hk) & _).
    exists k. unfold nonzero. destruct Hk as [Hk|Hk];
      rewrite (proj2 (Z.eqb_neq _ _) Hk);
      [reflexivity | apply andb_false_r]. }
  exists k2, v2, s6. split; [exact E6|].
  cbv beta. destruct (nonzero (ATA_ISERR v2));
    [exists O; eexists; reflexivity|].
  returns_step.
  destruct (read_data_total d 256 buffer 0 s6) as (buf & s7 & E7).
  exists O, buf, s7. split; [exact E7|].
  exists O. eexists. reflexivity.
Qed.

Lemma maybe_printf_total (c : bool) format args st :
  exists st',
    (if c then printf format args else ret tt) st = Some (tt, st') /\
    heap st' = heap st.
Proof. destruct c; eexists; split; reflexivity. Qed.

Lemma classify_total p mid hi st :
  exists st',
    (if (mid =? 0x14) && (hi =? 0xEB) then
       modify p (set_type ATA_TYPE_PATAPI)
     else if (mid =? 0x69) && (hi =? 0x96) then
       modify p (set_type ATA_TYPE_SATAPI)
     else if (mid =? 0) && (hi =? 0) then
       modify p (set_type ATA_TYPE_PATA)
     else if (mid =? 0x3C) && (hi =? 0xC3) then
       modify p (set_type ATA_TYPE_SATA)
     else ret tt) st = Some (tt, st') /\
    base_port (heap st' p) = base_port (heap st p).
Proof.
  destruct ((mid =? 0x14) && (hi =? 0xEB));
    [|destruct ((mid =? 0x69) && (hi =? 0x96));
      [|destruct ((mid =? 0) && (hi =? 0));
        [|destruct ((mid =? 0x3C) && (hi =? 0xC3))]]];
    eexists; (split; [reflexivity|]);
    cbn [heap]; rewrite ?Z.eqb_refl; reflexivity.
Qed.

Ltac mono_scan :=
  repeat match goal with
         | |- mono (fun _ => ?m) => apply mono_const
         | |- mono (fun k => ata_cmd_identify k _ _) =>
             apply ata_cmd_identify_mono
         | |- mono (fun k => ata_detect k _ _ _ _ _) => apply ata_detect_mono
         | |- mono (fun k => bind _ _) => apply mono_bind; [|intros ?]
         | |- mono (fun k => poll _ _ k) => apply mono_poll
         | |- mono (poll _ _) => apply mono_poll
         | |- mono (fun k => if ?c then _ else _) => apply mono_if
         end.

Ltac scan_step :=
  cbv beta; cbn [hw io_log mem heap live registry console];
  match goal with
  | |- returns (fun k => bind _ _) _ =>
      apply returns_bind; [mono_scan | intros ?; mono_scan | ]
  end.

Lemma ata_detect_returns b c sl p garbage st :
  answers b -> returns (fun fuel => ata_detect fuel b c sl p garbage) st.
Proof.
  intros Ha. unfold ata_detect, ata_wait_bsy_clear. cbv zeta.
  scan_step. returns_now.
  scan_step. returns_now.
  scan_step. returns_now.
  scan_step. returns_now.
  scan_step.
  match goal with
  | |- exists _ _ _, poll _ ?again _ ?s = _ /\ _ =>
      assert (Hb0 : base_port (heap s p) = b)
        by (cbn [heap]; rewrite !Z.eqb_refl; reflexivity);
      destruct (poll_status_returns p again s) as (k1 & v1 & s1 & E1 & Hh1);
      [ rewrite Hb0; destruct (Ha (hw s)) as ((k & Hk) & _ & _);
        exists k; unfold nonzero; rewrite Hk; reflexivity
      | exists k1, v1, s1; split; [exact E1|] ]
  end.
  assert (Hb1 : base_port (heap s1 p) = b) by (rewrite Hh1; exact Hb0).
  clear Hb0 Hh1 E1.
  scan_step.
  match goal with
  | |- exists _ _ _, (if ?c then printf ?f ?a else ret tt) ?s = _ /\ _ =>
      destruct (maybe_printf_total c f a s) as (s2 & E2 & Hh2);
      exists O, tt, s2; split; [exact E2|]
  end.
  scan_step.
  match goal with
  | |- exists _ _ _, inb ?port ?s = _ /\ _ =>
      destruct (inb_total_heap port s) as (mid & s3 & E3 & Hh3);
      exists O, mid, s3; split; [exact E3|]
  end.
  scan_step.
  match goal with
  | |- exists _ _ _, inb ?port ?s = _ /\ _ =>
      destruct (inb_total_heap port s) as (hi & s4 & E4 & Hh4);
      exists O, hi, s4; split; [exact E4|]
  end.
  scan_step.
  destruct (classify_total p mid hi s4) as (s5 & E5 & Hb5).
  exists O, tt, s5. split; [exact E5|].
  assert (Hb5' : base_port (heap s5 p) = b)
    by (rewrite Hb5, Hh4, Hh3, Hh2; exact Hb1).
  clear E2 E3 E4 E5 Hh2 Hh3 Hh4 Hb5 Hb1.
  scan_step. returns_now.
  scan_step.
  match goal with
  | |- exists _ _ _, (if ?c then printf ?f ?a else ret tt) ?s = _ /\ _ =>
      destruct (maybe_printf_total c f a s) as (s6 & E6 & Hh6);
      exists O, tt, s6; split; [exact E6|]
  end.
  scan_step.
  assert (Hb6 : base_port (heap s6 p) = b) by (rewrite Hh6; exact Hb5').
  destruct (ata_cmd_identify_returns b p garbage s6 Ha Hb6)
    as (k7 & [[ok buf] s7] & E7).
  exists k7, (ok, buf), s7. split; [exact E7|].
  scan_step.
  match goal with
  | |- exists _ _ _, (if ?c then printf ?f ?a else ret tt) ?s = _ /\ _ =>
      destruct (maybe_printf_total c f a s) as (s8 & E8 & Hh8);
      exists O, tt, s8; split; [exact E8|]
  end.
  scan_step. returns_now.
  cbv beta.
  match goal with
  | |- returns (fun _ => if ?c then _ else _) _ => destruct c
  end;
    match goal with
    | |- returns (fun _ => if ?c then _ else _) _ => destruct c
    end;
    exists O; eexists; reflexivity.
Qed.

Lemma maybe_register_total (r : Z) name p st :
  exists st',
    (if nonzero r then ata_register_device name p else ret tt) st
    = Some (tt, st').
Proof.
  destruct (nonzero r); [|eexists; reflexivity].
  unfold ata_register_device.
  erewrite bind_step by reflexivity.
  unfold bind, device_register. cbn [registry d_name].
  destruct (existsb _ _); [eexists; reflexivity|].
  destruct (_ <=? _)%nat; eexists; reflexivity.
Qed.

Lemma ata_install_mono p garbage :
  mono (fun fuel => ata_install fuel p garbage).
Proof. unfold ata_install. mono_scan. Qed.

Lemma ata_install_returns p garbage st :
  answers 0x1F0 -> answers 0x170 ->
  returns (fun fuel => ata_install fuel p garbage) st.
Proof.
  intros H1 H2. unfold ata_install.
  scan_step. returns_now.
  scan_step.
  match goal with
  | |- exists _ _ _, ata_detect _ _ _ _ _ _ ?s = _ /\ _ =>
      destruct (ata_detect_returns 0x1F0 0x3F6 0 p (garbage 0%nat) s H1)
        as (k0 & [r0 s0] & E0)
  end.
  exists k0, r0, s0. split; [exact E0|].
  scan_step.
  destruct (maybe_register_total r0 "ATA-0" p s0) as (s0' & G0).
  exists O, tt, s0'. split; [exact G0|].
  scan_step.
  destruct (ata_detect_returns 0x1F0 0x3F6 (Z.shiftl 1 4) p (garbage 1%nat)
              s0' H1) as (k1 & [r1 s1] & E1).
  exists k1, r1, s1. split; [exact E1|].
  scan_step.
  destruct (maybe_register_total r1 "ATA-1" p s1) as (s1' & G1).
  exists O, tt, s1'. split; [exact G1|].
  scan_step.
  destruct (ata_detect_returns 0x170 0x376 0 p (garbage 2%nat) s1' H2)
    as (k2 & [r2 s2] & E2).
  exists k2, r2, s2. split; [exact E2|].
  scan_step.
  destruct (maybe_register_total r2 "ATA-2" p s2) as (s2' & G2).
  exists O, tt, s2'. split; [exact G2|].
  scan_step.
  destruct (ata_detect_returns 0x170 0x376 (Z.shiftl 1 4) p (garbage 3%nat)
              s2' H2) as (k3 & [r3 s3] & E3).
  exists k3, r3, s3. split; [exact E3|].
  scan_step.
  destruct (maybe_register_total r3 "ATA-3" p s3) as (s3' & G3).
  exists O, tt, s3'. split; [exact G3|].
  exists O. eexists. reflexivity.
Qed.

(** X20.  When the drives of both channels answer, ata_install returns:
    some bound on the polls lets the whole scan finish, and every larger
    bound gives the same final state. *)
Theorem install_returns_when_drives_answer p garbage st :
  answers 0x1F0 -> answers 0x170 ->
  exists fuel st',
    forall fuel', (fuel <= fuel')%nat ->
      ata_install fuel' p garbage st = Some (tt, st').
Proof.
  intros H1 H2.
  destruct (returns_mono _ _ (ata_install_mono p garbage)
              (ata_install_returns p garbage st H1 H2))
    as (k & [[] st'] & H).
  exists k, st'. exact H.
Qed.

End DriverFacts.

(** ** Concrete runs *)

(** C1, as stated, fails: the drive reports 8 bytes to a caller whose
    capacity is 2, and the read stores past the second byte of the buffer. *)
Lemma read_overruns_capacity :
  exists r st',
    ata_read 5 cdrom 2 1000 (atapi_state overrun_drive) = Some (r, st') /\
    ~ (forall a, a < 1000 \/ 1000 + 2 <= a ->
                 mem st' a = mem (atapi_state overrun_drive) a).
Proof.
  destruct (ata_read 5 cdrom 2 1000 (atapi_state overrun_drive))
    as [[r st']|] eqn:E; [|vm_compute in E; discriminate].
  exists r, st'. split; [reflexivity|].
  intros H. specialize (H 1002 ltac:(right; lia)).
  vm_compute in E. injection E as _ <-.
  vm_compute in H. discriminate H.
Qed.

(** The theorem of C1 at that same run: the capacity comes out as 8, and
    the first 8 bytes of the buffer are the only ones written. *)
Lemma read_stores_reported_size_witness :
  exists st',
    ata_read 5 cdrom 2 1000 (atapi_state overrun_drive) = Some ((OK, 8), st') /\
    8 <> u32 (-1) /\
    (forall a, a < 1000 \/ 1000 + 2 * (8 / 2) <= a ->
               mem st' a = mem (atapi_state overrun_drive) a).
Proof.
  destruct (ata_read 5 cdrom 2 1000 (atapi_state overrun_drive))
    as [[[res cap] st']|] eqn:E; [|vm_compute in E; discriminate].
  assert (H : res = OK /\ cap = 8).
  { pose proof E as E'. vm_compute in E'. injection E' as <- <- _.
    split; reflexivity. }
  destruct H as [-> ->].
  exists st'. split; [reflexivity|].
  assert (Hcap : 8 <> u32 (-1)) by (vm_compute; discriminate).
  split; [exact Hcap|].
  destruct (read_stores_reported_size _ _ _ _ _ _ _ _ E Hcap)
    as (waits & ss1 & ss2 & hi & mid & ws & ss3 & _ & _ & _ & _ & _ & H & _).
  exact H.
Defined.

(** C2: a signature that is none of the four pairs does not make detection
    fail.  With the object's [type] at ATA_TYPE_UNKNOWN on entry, ata_detect
    returns 1 and the type is still ATA_TYPE_UNKNOWN; with the type a
    previous detection left (here PATAPI), ata_detect returns 1 and the drive
    keeps that classification. *)
Theorem detect_accepts_unknown_signature :
  option_map (fun r => (fst r, type (heap (snd r) 200)))
    (ata_detect 3 0x1F0 0x3F6 0 200 (fun _ => 0)
                (sim_state odd_signature_drive))
  = Some (1, ATA_TYPE_UNKNOWN) /\
  option_map (fun r => (fst r, type (heap (snd r) 64)))
    (ata_detect 3 0x1F0 0x3F6 0 64 (fun _ => 0x8000)
                (atapi_state odd_signature_drive))
  = Some (1, ATA_TYPE_PATAPI).
Proof. split; vm_compute; reflexivity. Qed.

(** C3: the drive raises the error bit during the PACKET handshake, and
    ata_read returns OK, with 0xFFFFFFFF as the capacity. *)
Theorem read_error_reported_as_success :
  result_of (ata_read 5 cdrom 2048 1000 (atapi_state failing_drive))
  = Some (OK, 4294967295).
Proof. vm_compute. reflexivity. Qed.

(** C4: ata_write has no return statement.  Entered with OK in the return
    register it hands OK to its caller, a success, though nothing was sent
    to the drive; entered with another value in the register it hands that
    value back.  The result is never one the function chose. *)
Theorem write_result_is_never_set :
  ata_write cdrom 512 1000 OK (atapi_state absent_drive)
  = Some (OK, atapi_state absent_drive) /\
  ata_write cdrom 512 1000 0x5A5A (atapi_state absent_drive)
  = Some (0x5A5A, atapi_state absent_drive).
Proof. split; reflexivity. Qed.

(** C5: with no drive attached the status reads 0 and ata_cmd_identify
    returns 0; ata_detect prints its message, goes on to test word 0 of the
    buffer nothing was read into, and returns 1; ata_install then registers
    a device for each of the four empty slots. *)
Theorem failed_identify_still_registers :
  result_of (ata_cmd_identify 2 200 (fun _ => 0) (sim_state absent_drive))
  = Some (0, fun _ => 0) /\
  option_map (fun r => (fst r, console (snd r)))
    (ata_detect 2 0x1F0 0x3F6 0 200 (fun _ => 0) (sim_state absent_drive))
  = Some (1, [("[ATA] [ERROR] Device not ready. Status : %d\n"%string,
               [PInt 0]);
              ("Error while identifying device\n"%string, []);
              ("Identification done\n"%string, [])]) /\
  option_map (fun r => map d_name (registry (snd r)))
    (ata_install 2 200 (fun _ _ => 0) (sim_state absent_drive))
  = Some ["ATA-0"; "ATA-1"; "ATA-2"; "ATA-3"]%string.
Proof. repeat split; vm_compute; reflexivity. Qed.


(** The theorem of C6 on three machines: status stuck at 0x80 (busy), at
    0x40 (ready, no data request) and at 0x08 (data request). *)
Lemma polling_loops_unbounded_witness :
  @status_stuck unit (stuck_io 0x80) 0x1F0 0x80 /\
  (forall fuel,
     @ata_detect unit (stuck_io 0x80) fuel 0x1F0 0x3F6 0 64
                 (fun _ => 0) stuck_state = None) /\
  @status_stuck unit (stuck_io 0x40) 0x1F0 0x40 /\
  (forall fuel,
     @ata_wait_drq_set unit (stuck_io 0x40) fuel 64 stuck_state = None) /\
  @status_stuck unit (stuck_io 0x08) 0x1F0 0x08 /\
  (forall fuel,
     @atapi_read_block unit (stuck_io 0x08) fuel 64 0 1000 2048
                       stuck_state = None).
Proof.
  assert (H80 : @status_stuck unit (stuck_io 0x80) 0x1F0 0x80)
    by (intros h; reflexivity).
  assert (H40 : @status_stuck unit (stuck_io 0x40) 0x1F0 0x40)
    by (intros h; reflexivity).
  assert (H08 : @status_stuck unit (stuck_io 0x08) 0x1F0 0x08)
    by (intros h; reflexivity).
  destruct (@polling_loops_unbounded unit (stuck_io 0x80) 0x1F0 0x80 H80)
    as (Hbusy & _ & _).
  destruct (@polling_loops_unbounded unit (stuck_io 0x40) 0x1F0 0x40 H40)
    as (_ & Hdrq & _).
  destruct (@polling_loops_unbounded unit (stuck_io 0x08) 0x1F0 0x08 H08)
    as (_ & _ & Hdone).
  split; [exact H80|]. split.
  { intros fuel.
    exact (proj1 (Hbusy eq_refl fuel 0x3F6 0 64 (fun _ => 0)
                        stuck_state)). }
  split; [exact H40|]. split.
  { intros fuel.
    exact (proj1 (proj2 (Hdrq eq_refl eq_refl eq_refl fuel 64 stuck_state
                              eq_refl))). }
  split; [exact H08|].
  intros fuel.
  exact (proj2 (proj2 (Hdone eq_refl eq_refl eq_refl fuel 64 stuck_state
                             eq_refl)) 0 1000 2048).
Defined.

(** The theorem of C10 at a drive that reports 5 bytes: the byte at offset
    4 of the buffer is not written. *)
Lemma odd_size_loses_last_byte_witness :
  exists st',
    atapi_read_block 5 64 0 1000 2048 (atapi_state odd_drive) = Some (5, st') /\
    0 <= 5 /\ Z.odd 5 = true /\
    (forall a, a < 1000 \/ 1000 + (5 - 1) <= a ->
               mem st' a = mem (atapi_state odd_drive) a).
Proof.
  destruct (atapi_read_block 5 64 0 1000 2048 (atapi_state odd_drive))
    as [[n st']|] eqn:E; [|vm_compute in E; discriminate].
  assert (H : n = 5).
  { pose proof E as E'. vm_compute in E'. injection E' as <- _. reflexivity. }
  subst n. exists st'. split; [reflexivity|].
  assert (H0 : 0 <= 5) by lia.
  split; [exact H0|]. split; [reflexivity|].
  destruct (odd_size_loses_last_byte _ _ _ _ _ _ _ _ E H0 eq_refl)
    as (waits & ss1 & ss2 & hi & mid & ws & ss3 & _ & _ & _ & _ & _ & H & _).
  exact H.
Defined.

(** ** Concrete runs of the further properties *)

(** X1 on a drive that is busy for one read. *)
Lemma ata_wait_bsy_clear_first_witness :
  ATA_ISBSY (nth_status (0x1F0 + ATA_COMMAND_PORT) 0 overrun_drive) <> 0 /\
  ATA_ISBSY (nth_status (0x1F0 + ATA_COMMAND_PORT) 1 overrun_drive) = 0 /\
  result_of (ata_wait_bsy_clear 5 64 (atapi_state overrun_drive)) = Some 0.
Proof.
  split; [vm_compute; discriminate|]. split; [reflexivity|].
  rewrite (ata_wait_bsy_clear_first 64 1 5 (atapi_state overrun_drive)).
  - reflexivity.
  - intros j Hj. assert (j = 0%nat) as -> by lia. vm_compute. discriminate.
  - reflexivity.
  - lia.
Defined.

(** X2 on the same drive: data request shows at the third read. *)
Lemma ata_wait_drq_set_first_witness :
  ATA_ISDRQ (nth_status (0x1F0 + ATA_COMMAND_PORT) 2 overrun_drive) <> 0 /\
  result_of (ata_wait_drq_set 5 64 (atapi_state overrun_drive)) = Some 8.
Proof.
  split; [vm_compute; discriminate|].
  rewrite (ata_wait_drq_set_first 64 2 5 (atapi_state overrun_drive)).
  - reflexivity.
  - intros j Hj.
    assert (j = 0%nat \/ j = 1%nat) as [-> | ->] by lia;
      split; reflexivity.
  - left. vm_compute. discriminate.
  - lia.
Defined.

(** X3 at block 0x12345678. *)
Lemma read_packet_carries_lba_witness :
  exists st' new,
    atapi_read_block 5 64 0x12345678 1000 2 (atapi_state overrun_drive)
    = Some (8, st') /\
    0 <= 8 /\
    io_log st' = io_log (atapi_state overrun_drive) ++ new /\
    map fst (word_writes new) = repeat 0x1F0 6 /\
    bytes_of_words (map snd (word_writes new))
    = [0xA8; 0; 0x12; 0x34; 0x56; 0x78; 0; 0; 0; 1; 0; 0].
Proof.
  destruct (atapi_read_block 5 64 0x12345678 1000 2
              (atapi_state overrun_drive))
    as [[n st']|] eqn:E; [|vm_compute in E; discriminate].
  assert (H : n = 8).
  { pose proof E as E'. vm_compute in E'. injection E' as <- _. reflexivity. }
  subst n.
  assert (H0 : 0 <= 8) by lia.
  destruct (read_packet_carries_lba _ _ _ _ _ _ _ _ E H0)
    as (new & b2 & b3 & b4 & b5 & Hlog & Hport & Hbytes & _).
  exists st', new. split; [reflexivity|]. split; [exact H0|].
  split; [exact Hlog|]. split; [exact Hport|].
  vm_compute in E. injection E as <-.
  cbn [io_log atapi_state app] in Hlog.
  subst new. vm_compute. reflexivity.
Defined.

(** X4 on the same run: the first word read is 0x1234. *)
Lemma read_stores_words_low_byte_first_witness :
  exists st' new,
    atapi_read_block 5 64 0 1000 2 (atapi_state overrun_drive)
    = Some (8, st') /\
    0 <= 8 /\
    io_log st' = io_log (atapi_state overrun_drive) ++ new /\
    Z.of_nat (List.length (words_read new)) = 8 / 2.
Proof.
  destruct (atapi_read_block 5 64 0 1000 2 (atapi_state overrun_drive))
    as [[n st']|] eqn:E; [|vm_compute in E; discriminate].
  assert (H : n = 8).
  { pose proof E as E'. vm_compute in E'. injection E' as <- _. reflexivity. }
  subst n.
  assert (H0 : 0 <= 8) by lia.
  destruct (read_stores_words_low_byte_first _ _ _ _ _ _ _ _ E H0)
    as (new & Hlog & Hlen & _).
  exists st', new. split; [reflexivity|]. split; [exact H0|].
  split; [exact Hlog | exact Hlen].
Defined.

(** X5 with a capacity of 65538: the limit announced is 2. *)
Lemma read_announces_capacity_mod_65536_witness :
  exists r st' pre lo hi post,
    atapi_read_block 5 64 0 1000 65538 (atapi_state failing_drive)
    = Some (r, st') /\
    io_log st'
    = io_log (atapi_state failing_drive) ++ pre
        ++ [Out8 (u16 (0x1F0 + ATA_LBAMID_PORT)) lo;
            Out8 (u16 (0x1F0 + ATA_LBAHI_PORT)) hi;
            Out8 (u16 (0x1F0 + ATA_COMMAND_PORT)) 0xA0]
        ++ post /\
    lo + 256 * hi = 2.
Proof.
  destruct (atapi_read_block 5 64 0 1000 65538 (atapi_state failing_drive))
    as [[r st']|] eqn:E; [|vm_compute in E; discriminate].
  destruct (read_announces_capacity_mod_65536 _ _ _ _ _ _ _ _ E)
    as (pre & lo & hi & post & Hlog & _ & _ & Hlim).
  exists r, st', pre, lo, hi, post. split; [reflexivity|].
  split; [exact Hlog | exact Hlim].
Defined.

(** X6 on a drive that raises the error bit. *)
Lemma read_error_transfers_nothing_witness :
  exists st',
    atapi_read_block 5 64 0 1000 2048 (atapi_state failing_drive)
    = Some (-1, st') /\
    mem st' = mem (atapi_state failing_drive).
Proof.
  destruct (atapi_read_block 5 64 0 1000 2048 (atapi_state failing_drive))
    as [[r st']|] eqn:E; [|vm_compute in E; discriminate].
  assert (H : r = -1).
  { pose proof E as E'. vm_compute in E'. injection E' as <- _. reflexivity. }
  subst r. exists st'. split; [reflexivity|].
  destruct (read_error_transfers_nothing _ _ _ _ _ _ _ E)
    as (new & s & _ & _ & _ & _ & Hm & _).
  exact Hm.
Defined.

(** X7 on the same drive. *)
Lemma read_result_and_capacity_witness :
  exists res cap st',
    ata_read 5 cdrom 2048 1000 (atapi_state failing_drive)
    = Some ((res, cap), st') /\
    res = OK.
Proof.
  destruct (ata_read 5 cdrom 2048 1000 (atapi_state failing_drive))
    as [[[res cap] st']|] eqn:E; [|vm_compute in E; discriminate].
  exists res, cap, st'. split; [reflexivity|].
  exact (proj1 (read_result_and_capacity _ _ _ _ _ _ _ _ E)).
Defined.

(** X8 with the status register stuck at 0x01. *)
Lemma read_on_stuck_status_witness :
  @status_stuck unit (stuck_io 0x01) 0x1F0 0x01 /\
  base_port (heap stuck_state 64) = 0x1F0 /\
  exists st',
    @atapi_read_block unit (stuck_io 0x01) 1 64 0 1000 2048 stuck_state
    = Some (-1, st') /\
    mem st' = mem stuck_state.
Proof.
  assert (Hs : @status_stuck unit (stuck_io 0x01) 0x1F0 0x01)
    by (intros h; reflexivity).
  split; [exact Hs|]. split; [reflexivity|].
  destruct (@read_on_stuck_status unit (stuck_io 0x01) 0x1F0 0x01 64 0 1000
              2048 stuck_state Hs eq_refl) as [Hret _].
  assert (H1 : ATA_ISBSY 0x01 = 0 /\ ATA_ISERR 0x01 <> 0)
    by (split; [reflexivity | vm_compute; discriminate]).
  exact (Hret H1 O).
Defined.


(** X10 on the same run. *)
Lemma identify_command_sequence_witness :
  exists r st' (waits : list Z),
    ata_cmd_identify 2 64 (fun _ => 0) (atapi_state pata_drive)
    = Some (r, st') /\
    List.length waits = 5%nat.
Proof.
  destruct (ata_cmd_identify 2 64 (fun _ => 0) (atapi_state pata_drive))
    as [[r st']|] eqn:E; [|vm_compute in E; discriminate].
  destruct (identify_command_sequence _ _ _ _ _ _ E)
    as (waits & ss & s & rest & Hlen & _).
  exists r, st', waits. split; [reflexivity | exact Hlen].
Defined.

(** X11 with the status register stuck at 0. *)
Lemma identify_on_stuck_status_witness :
  @status_stuck unit (stuck_io 0) 0x1F0 0 /\
  base_port (heap stuck_state 64) = 0x1F0 /\ ATA_ISBSY 0 = 0 /\
  exists st',
    @ata_cmd_identify unit (stuck_io 0) 1 64 (fun _ => 7) stuck_state
    = Some ((0, fun _ => 7), st') /\
    console st' = console stuck_state.
Proof.
  assert (Hs : @status_stuck unit (stuck_io 0) 0x1F0 0)
    by (intros h; reflexivity).
  split; [exact Hs|]. split; [reflexivity|]. split; [reflexivity|].
  destruct (@identify_on_stuck_status unit (stuck_io 0) 0x1F0 0 64
              (fun _ => 7) stuck_state Hs eq_refl eq_refl) as [Habsent _].
  exact (Habsent eq_refl O).
Defined.


(** X13 on the same run. *)
Lemma detect_descriptor_effect_witness :
  exists r st',
    ata_detect 2 0x1F0 0x3F6 0 200 (fun _ => 0) (sim_state pata_drive)
    = Some (r, st') /\
    mem st' = mem (sim_state pata_drive) /\
    registry st' = registry (sim_state pata_drive).
Proof.
  destruct (ata_detect 2 0x1F0 0x3F6 0 200 (fun _ => 0) (sim_state pata_drive))
    as [[r st']|] eqn:E; [|vm_compute in E; discriminate].
  exists r, st'. split; [reflexivity|].
  exact (proj2 (proj2 (detect_descriptor_effect _ _ _ _ _ _ _ _ _ E))).
Defined.

(** X14 with a disk answering on every slot. *)
Lemma install_registers_in_slot_order_witness :
  exists st',
    ata_install 2 200 (fun _ _ => 0) (sim_state pata_drive) = Some (tt, st') /\
    mem st' = mem (sim_state pata_drive).
Proof.
  destruct (ata_install 2 200 (fun _ _ => 0) (sim_state pata_drive))
    as [[[] st']|] eqn:E; [|vm_compute in E; discriminate].
  exists st'. split; [reflexivity|].
  exact (proj1 (install_registers_in_slot_order _ _ _ _ _ E)).
Defined.

(** X21 with a disk on every slot. *)
Lemma install_leaves_dangling_devices_witness :
  exists st',
    ata_install 2 300 (fun _ _ => 0x8000) (sim_state pata_drive)
    = Some (tt, st') /\
    live st' 300 = false.
Proof.
  destruct (ata_install 2 300 (fun _ _ => 0x8000) (sim_state pata_drive))
    as [[[] st']|] eqn:E; [|vm_compute in E; discriminate].
  exists st'. split; [reflexivity|].
  exact (proj1 (install_leaves_dangling_devices _ _ _ _ _ E)).
Defined.


(** X16 with the status register stuck at 0x80. *)
Lemma install_stalls_on_busy_channel_witness :
  @status_stuck unit (stuck_io 0x80) 0x170 0x80 /\
  ATA_ISBSY 0x80 <> 0 /\
  forall fuel,
    @ata_install unit (stuck_io 0x80) sim_abi fuel 64 (fun _ _ => 0)
                 stuck_state = None.
Proof.
  assert (Hs : @status_stuck unit (stuck_io 0x80) 0x170 0x80)
    by (intros h; reflexivity).
  assert (Hb : ATA_ISBSY 0x80 <> 0) by (vm_compute; discriminate).
  split; [exact Hs|]. split; [exact Hb|].
  intros fuel.
  exact (@install_stalls_on_busy_channel unit (stuck_io 0x80) sim_abi
           0x170 0x80 fuel 64 (fun _ _ => 0) stuck_state Hs Hb
           (or_intror eq_refl)).
Defined.

(** X18: a seek to block 7, then a read. *)
Lemma seek_then_read_sends_position_witness :
  exists st1 st2 new,
    ata_seek cdrom 7 (atapi_state overrun_drive) = Some (OK, st1) /\
    ata_read 5 cdrom 2 1000 st1 = Some ((OK, 8), st2) /\
    8 <> 4294967295 /\
    io_log st2 = io_log (atapi_state overrun_drive) ++ new /\
    bytes_of_words (words_written new)
    = [0xA8; 0; 0; 0; 0; 7; 0; 0; 0; 1; 0; 0].
Proof.
  destruct (ata_seek cdrom 7 (atapi_state overrun_drive))
    as [[r st1]|] eqn:Es; [|vm_compute in Es; discriminate].
  assert (Hr : r = OK).
  { pose proof Es as E'. vm_compute in E'. injection E' as <- _.
    reflexivity. }
  subst r.
  destruct (ata_read 5 cdrom 2 1000 st1) as [[[res cap] st2]|] eqn:Er.
  2:{ vm_compute in Es. injection Es as <-. vm_compute in Er. discriminate. }
  assert (H : res = OK /\ cap = 8).
  { pose proof Es as Es'. vm_compute in Es'. injection Es' as Hst1.
    pose proof Er as Er'. rewrite <- Hst1 in Er'. vm_compute in Er'.
    injection Er' as <- <- _. split; reflexivity. }
  destruct H as [-> ->].
  assert (Hcap : 8 <> 4294967295) by lia.
  destruct (seek_then_read_sends_position _ _ _ _ _ _ _ _ _ _ Es Er Hcap)
    as (new & b2 & b3 & b4 & b5 & Hlog & Hbytes & _).
  exists st1, st2, new. split; [reflexivity|]. split; [exact Er|].
  split; [exact Hcap|]. split; [exact Hlog|].
  vm_compute in Es. injection Es as <-.
  vm_compute in Er. injection Er as <-.
  cbn [io_log atapi_state app] in Hlog. subst new. vm_compute. reflexivity.
Defined.

Lemma toggle_answers_primary : @answers bool toggle_io 0x1F0.
Proof.
  intros h. destruct h; repeat split;
    first [ exists 0%nat; vm_compute; solve [reflexivity | left; discriminate]
          | exists 1%nat; vm_compute; solve [reflexivity | left; discriminate] ].
Qed.

Lemma toggle_answers_secondary : @answers bool toggle_io 0x170.
Proof.
  intros h. destruct h; repeat split;
    first [ exists 0%nat; vm_compute; solve [reflexivity | left; discriminate]
          | exists 1%nat; vm_compute; solve [reflexivity | left; discriminate] ].
Qed.

(** X19 on a machine whose status alternates between 0x08 and 0x00. *)
Lemma read_returns_when_drive_answers_witness :
  @answers bool toggle_io 0x1F0 /\
  base_port (heap toggle_state (d_p cdrom)) = 0x1F0 /\
  exists fuel r st',
    forall fuel', (fuel <= fuel')%nat ->
      @ata_read bool toggle_io sim_abi fuel' cdrom 2048 1000 toggle_state
      = Some (r, st').
Proof.
  split; [exact toggle_answers_primary|]. split; [reflexivity|].
  exact (@read_returns_when_drive_answers bool toggle_io sim_abi 0x1F0 cdrom
           2048 1000 toggle_state toggle_answers_primary eq_refl).
Defined.

(** X20 on the same machine. *)
Lemma install_returns_when_drives_answer_witness :
  @answers bool toggle_io 0x1F0 /\ @answers bool toggle_io 0x170 /\
  exists fuel st',
    forall fuel', (fuel <= fuel')%nat ->
      @ata_install bool toggle_io sim_abi fuel' 64 (fun _ _ => 0) toggle_state
      = Some (tt, st').
Proof.
  split; [exact toggle_answers_primary|].
  split; [exact toggle_answers_secondary|].
  exact (@install_returns_when_drives_answer bool toggle_io sim_abi 64
           (fun _ _ => 0) toggle_state toggle_answers_primary
           toggle_answers_secondary).
Defined.
